(** * WebMotion dashboard: a shallow embedding of [assets/js/dashboard.js]

    The class [WebMotionDashboard] is embedded function by function.
    JavaScript values are a small inductive type, objects are finite maps
    from property names to values, the page is a tree of elements, and the
    methods are computations in a state-and-exception monad over the page,
    the configuration, the focus owner and the log of dispatched events. *)

From Stdlib Require Import ZArith Ascii String DecimalString DecimalPos.
From stdpp Require Import base option list strings gmap.

Local Open Scope Z_scope.

(** ** Strings and numbers *)

Module Js.

(** The double-quote character, which a template literal may contain. *)
Definition dq : string := String (ascii_of_nat 34) EmptyString.

(** A line break followed by [n] spaces of indentation, as they occur inside
    the multi-line template literals of the source. *)
Definition nl : string := String (ascii_of_nat 10) EmptyString.

Fixpoint spaces (n : nat) : string :=
  match n with
  | O => EmptyString
  | S k => String " " (spaces k)
  end.

Definition line (n : nat) (s : string) : string := nl +:+ spaces n +:+ s.

(** [name="value"] *)
Definition attr (name value : string) : string :=
  name +:+ "=" +:+ dq +:+ value +:+ dq.

(** [Array.prototype.join('')] on an array of strings. *)
Fixpoint join (l : list string) : string :=
  match l with
  | [] => EmptyString
  | s :: r => s +:+ join r
  end.

(** [String.prototype.repeat] *)
Fixpoint repeat_str (s : string) (n : nat) : string :=
  match n with
  | O => EmptyString
  | S k => s +:+ repeat_str s k
  end.

(** [Number.isSafeInteger]: the integers that a number represents exactly.
    Numbers are modelled by [Z] within this range. *)
Definition safe_integer (z : Z) : Prop := - 2 ^ 53 < z < 2 ^ 53.

(** [Number.prototype.toString] on a safe integer: its decimal digits. *)
Definition num_to_string (z : Z) : string :=
  NilEmpty.string_of_int (Z.to_int z).

(** [String.prototype.padStart(targetLength, padChar)] with a one-character
    filler. *)
Definition padStart (target : nat) (c : ascii) (s : string) : string :=
  repeat_str (String c EmptyString) (target - String.length s) +:+ s.

(** JavaScript values. Numbers are the safe integers; an object is a finite
    map from property names to values. *)
#[warnings="-register-all"] Inductive Value :=
  | VUndefined
  | VNull
  | VBool (b : bool)
  | VNum (z : Z)
  | VStr (s : string)
  | VObj (o : gmap string Value).

Abbreviation Obj := (gmap string Value).

(** Conversion to string, as performed by [${...}] in a template literal. *)
Definition to_str (v : Value) : string :=
  match v with
  | VUndefined => "undefined"
  | VNull => "null"
  | VBool true => "true"
  | VBool false => "false"
  | VNum z => num_to_string z
  | VStr s => s
  | VObj _ => "[object Object]"
  end.

(** [o.k] on an object: a missing property reads as [undefined]. *)
Definition field (o : Obj) (k : string) : Value :=
  default VUndefined (o !! k).

(** Thrown values. The message of a [TypeError] raised by the engine is
    engine-defined; the embedding keeps the name of the property whose read
    failed instead. *)
Inductive JsError :=
  | Error (message : string)
  | TypeError (property : string).

(** The outcome of an expression that may throw. *)
Inductive Result (A : Type) :=
  | Ok (a : A)
  | Throw (e : JsError).
Arguments Ok {A} a.
Arguments Throw {A} e.

Definition rbind {A B} (r : Result A) (k : A → Result B) : Result B :=
  match r with
  | Ok a => k a
  | Throw e => Throw e
  end.

(** [Array.prototype.map] with a callback that may throw: the first throw
    aborts the traversal. *)
Fixpoint rmap {A B} (f : A → Result B) (l : list A) : Result (list B) :=
  match l with
  | [] => Ok []
  | a :: r => rbind (f a) (λ b, rbind (rmap f r) (λ bs, Ok (b :: bs)))
  end.

(** [v.k] on an arbitrary value, for the property names [code] and [name]
    the renderer reads: reading a property of [undefined] or [null] throws,
    a primitive has no such property. *)
Definition get_prop (v : Value) (k : string) : Result Value :=
  match v with
  | VUndefined | VNull => Throw (TypeError k)
  | VObj o => Ok (field o k)
  | _ => Ok VUndefined
  end.

End Js.
Export Js.

(** ** Configuration *)

(** One cell of a row template: [{ heading, value, isCountry, isAddressType }].
    A flag absent from the object literal reads as [undefined], which is
    falsy, hence [false]. *)
Record CellSpec := {
  heading : string;
  value : string;
  isCountry : bool;
  isAddressType : bool
}.

Definition cell (h v : string) : CellSpec :=
  {| heading := h; value := v; isCountry := false; isAddressType := false |}.

(** [this.config] *)
Record Config := {
  tabs : list Obj;
  contentRows : list (list CellSpec);
  sectionRows : list (list CellSpec)
}.

(** ** Content generation *)

Module Render.

(** The markup of one cell, shared by both row generators. *)
Definition item_html (heading value : string) : string :=
  line 20 ("<div " +:+ attr "class" "tab-content__item" +:+ ">") +:+
  line 24 ("<div " +:+ attr "class" "tab-content__item-heading" +:+ ">"
           +:+ heading +:+ "</div>") +:+
  line 24 ("<div " +:+ attr "class" "tab-content__item-value" +:+ ">"
           +:+ value +:+ "</div>") +:+
  line 20 "</div>" +:+
  line 16 EmptyString.

(** The value of the country cell: a flag image and the country name. *)
Definition country_html (code name : Value) : string :=
  line 24 ("<img " +:+ attr "src" ("https://flagcdn.com/w20/" +:+ to_str code +:+ ".png") +:+ " ") +:+
  line 29 (attr "alt" (to_str name +:+ " Flag") +:+ " ") +:+
  line 29 (attr "class" "tab-content__country-flag") +:+
  line 29 (attr "loading" "lazy" +:+ ">") +:+
  line 24 (to_str name) +:+
  line 20 EmptyString.

(** The callback [item => {...}] of [generateContentRows]. *)
Definition content_column (tabConfig : Obj) (prefix : string) (item : CellSpec)
  : Result string :=
  if isCountry item then
    let country := field tabConfig "country" in
    rbind (get_prop country "code") (λ code,
    rbind (get_prop country "name") (λ name,
    Ok (item_html (prefix +:+ "Country") (country_html code name))))
  else
    Ok (item_html (prefix +:+ heading item) (value item)).

Definition emptyColumnHTML : string :=
  "<div " +:+ attr "class" "tab-content__item" +:+ "></div>".

(** The callback [row => {...}] of [generateContentRows]. *)
Definition content_row (tabConfig : Obj) (prefix : string) (row : list CellSpec)
  : Result string :=
  rbind (rmap (content_column tabConfig prefix) row) (λ cols,
  let columns := join cols in
  let emptyColumns := Z.to_nat (Z.max 0 (3 - Z.of_nat (length row))) in
  Ok (line 16 ("<div " +:+ attr "class" "tab-content__row" +:+ ">") +:+
      line 20 columns +:+
      line 20 (repeat_str emptyColumnHTML emptyColumns) +:+
      line 16 "</div>" +:+
      line 12 EmptyString)).

Definition generateContentRows (config : Config) (tabConfig : Obj) (prefix : string)
  : Result string :=
  rbind (rmap (content_row tabConfig prefix) (contentRows config)) (λ rows,
  Ok (join rows)).

(** The callback [item => {...}] of [generateSectionRows]. It reads one
    property of [tabConfig] itself and cannot throw. *)
Definition section_column (tabConfig : Obj) (prefix : string) (item : CellSpec)
  : string :=
  if isAddressType item then
    item_html (prefix +:+ "Address Type") (to_str (field tabConfig "addressType"))
  else
    item_html (prefix +:+ heading item) (value item).

Definition section_row (tabConfig : Obj) (prefix : string) (row : list CellSpec)
  : string :=
  let columns := join (map (section_column tabConfig prefix) row) in
  line 16 ("<div " +:+ attr "class" "tab-content__row" +:+ ">") +:+
  line 20 columns +:+
  line 16 "</div>" +:+
  line 12 EmptyString.

Definition generateSectionRows (config : Config) (tabConfig : Obj) (prefix : string)
  : string :=
  join (map (section_row tabConfig prefix) (sectionRows config)).

(** [const prefix = tabConfig.id === 1 ? '' : `Tab ${tabConfig.id} - `] *)
Definition tab_prefix (tabConfig : Obj) : string :=
  match field tabConfig "id" with
  | VNum 1 => EmptyString
  | id => "Tab " +:+ to_str id +:+ " - "
  end.

(** The opening [h2] of a panel. *)
Definition heading_html (title : string) : string :=
  line 12 ("<h2 " +:+ attr "class" "tab-content__heading" +:+ ">" +:+ title +:+ "</h2>").

(** The [h3] that separates the main rows from the section rows. *)
Definition section_heading_html (prefix : string) : string :=
  line 16 "<!-- Section Heading -->" +:+
  line 16 ("<div " +:+ attr "class" "tab-content__section-heading" +:+ ">") +:+
  line 20 ("<h3 " +:+ attr "class" "tab-content__section-title" +:+ ">"
           +:+ prefix +:+ "Lorem Ipsum</h3>") +:+
  line 16 "</div>".

(** The string that [populateTabContent] assigns to [panel.innerHTML]. The
    template literal evaluates [generateContentRows] before
    [generateSectionRows]; only the former can throw. *)
Definition panel_html (config : Config) (tabConfig : Obj) : Result string :=
  let prefix := tab_prefix tabConfig in
  rbind (generateContentRows config tabConfig prefix) (λ contentHTML,
  Ok (heading_html (to_str (field tabConfig "title")) +:+
      line 12 ("<div " +:+ attr "class" "tab-content__rows" +:+ ">") +:+
      line 16 contentHTML +:+
      line 16 EmptyString +:+
      section_heading_html prefix +:+
      line 16 EmptyString +:+
      line 16 (generateSectionRows config tabConfig prefix) +:+
      line 12 "</div>" +:+
      line 8 EmptyString)).

End Render.
Export Render.

(** The configuration literal of the constructor. *)
Module Defaults.

Definition tab (id : Z) (title code name addressType : string) : Obj :=
  <["id" := VNum id]> (
  <["title" := VStr title]> (
  <["country" := VObj (<["code" := VStr code]> (<["name" := VStr name]> ∅))]> (
  <["addressType" := VStr addressType]> ∅))).

Definition lorem : CellSpec := cell "Lorem Ipsum" "Simply dummy text".

Definition config : Config := {|
  tabs := [
    tab 1 "Lorem Ipsum" "gb" "United Kingdom" "Residential";
    tab 2 "Tab 2 Content" "us" "United States" "Commercial";
    tab 3 "Tab 3 Content" "ca" "Canada" "Industrial";
    tab 4 "Tab 4 Content" "au" "Australia" "Mixed";
    tab 5 "Tab 5 Content" "de" "Germany" "Rural";
    tab 6 "Tab 6 Content" "fr" "France" "Urban" ];
  contentRows := [
    [ lorem; cell "Dummy text" "-" ];
    [ lorem; lorem ];
    [ lorem; lorem ];
    [ lorem; lorem;
      {| heading := "Country"; value := EmptyString;
         isCountry := true; isAddressType := false |} ];
    [ lorem; lorem; lorem ] ];
  sectionRows := [
    [ lorem;
      {| heading := "Address Type"; value := EmptyString;
         isCountry := false; isAddressType := true |};
      lorem ];
    [ lorem; lorem; lorem ];
    [ lorem; lorem; lorem ] ]
|}.

End Defaults.

(** ** The page *)

Module Dom.

(** An element of the page. [node] is the identity of the DOM object, by
    which the source's local variables refer to it; [content] is the markup
    or text assigned through [innerHTML] or [textContent]. Markup assigned
    that way is kept as text: it contributes no element of its own. The
    child elements that an element held before such an assignment stay in
    the tree, where the browser detaches them. *)
Record Element := {
  node : nat;
  el_id : string;
  classList : list string;
  attrs : gmap string string;
  content : string
}.

Definition set_id (i : string) (e : Element) : Element :=
  {| node := node e; el_id := i; classList := classList e;
     attrs := attrs e; content := content e |}.
Definition set_classList (l : list string) (e : Element) : Element :=
  {| node := node e; el_id := el_id e; classList := l;
     attrs := attrs e; content := content e |}.
Definition set_attrs (a : gmap string string) (e : Element) : Element :=
  {| node := node e; el_id := el_id e; classList := classList e;
     attrs := a; content := content e |}.
Definition set_content (c : string) (e : Element) : Element :=
  {| node := node e; el_id := el_id e; classList := classList e;
     attrs := attrs e; content := c |}.

(** [classList.contains], [classList.add], [classList.remove] *)
Definition has_class (c : string) (e : Element) : bool :=
  bool_decide (c ∈ classList e).
Definition add_class (c : string) (e : Element) : Element :=
  if has_class c e then e else set_classList (classList e ++ [c]) e.
Definition remove_class (c : string) (e : Element) : Element :=
  set_classList (filter (λ x, x ≠ c) (classList e)) e.

(** [setAttribute] *)
Definition set_attr (k v : string) (e : Element) : Element :=
  set_attrs (<[k := v]> (attrs e)) e.

Definition has_id (i : string) (e : Element) : bool :=
  bool_decide (el_id e = i).

(** The page is a forest of elements. *)
#[warnings="-register-all"] Inductive Node := Elem (e : Element) (children : list Node).

Definition root (t : Node) : Element := match t with Elem e _ => e end.

(** The elements of a tree in document order. *)
Fixpoint elements (t : Node) : list Element :=
  match t with
  | Elem e kids => e :: concat (map elements kids)
  end.

Definition all_elements (d : list Node) : list Element :=
  concat (map elements d).

(** Apply [f] to the element whose identity is [n]. *)
Definition at_node (n : nat) (f : Element → Element) (e : Element) : Element :=
  if bool_decide (node e = n) then f e else e.

Fixpoint update (n : nat) (f : Element → Element) (t : Node) : Node :=
  match t with
  | Elem e kids => Elem (at_node n f e) (map (update n f) kids)
  end.

(** Whether every element with identity [n] is childless. *)
Fixpoint leaf_at (n : nat) (t : Node) : bool :=
  match t with
  | Elem e kids =>
      (if bool_decide (node e = n) then bool_decide (kids = []) else true)
      && forallb (leaf_at n) kids
  end.

(** Detach the element whose identity is [n], with its subtree. *)
Fixpoint prune (n : nat) (t : Node) : Node :=
  match t with
  | Elem e kids =>
      Elem e (concat (map (λ k, if bool_decide (node (root k) = n) then []
                                else [prune n k]) kids))
  end.

Definition prune_all (n : nat) (d : list Node) : list Node :=
  concat (map (λ k, if bool_decide (node (root k) = n) then []
                    else [prune n k]) d).

(** Make [c] the last child of the element whose identity is [n]. *)
Fixpoint graft (n : nat) (c : Node) (t : Node) : Node :=
  match t with
  | Elem e kids =>
      let kids' := map (graft n c) kids in
      Elem e (if bool_decide (node e = n) then kids' ++ [c] else kids')
  end.

End Dom.
Export Dom.

(** ** Events *)

(** The [detail] of a dispatched event. Time stamps, the stack trace and the
    user agent are supplied by the environment and are left out. *)
Inductive Detail :=
  | TabChanged (tabId tabTitle : Value)
  | TabAdded (tabId : Value) (tabConfig : Obj)
  | TabRemoved (tabId : Value)
  | TabContentUpdated (tabId : Value) (newConfig : Obj)
  | ErrorInfo (error : JsError) (context : string)
  | TimerStarted (startTime : Z)
  | TimerStopped (startTime : option Z) (stopTime : Z)
  | Stamp.

Record Event := { name : string; detail : Detail }.

(** ** State and effects *)

(** What the methods of the class read and write: the configuration, the
    page, the elements created but not yet attached, the next free element
    identity, the element that holds focus, [document.body.style.overflow]
    and the events dispatched so far, oldest first. *)
Record State := {
  config : Config;
  document : list Node;
  detached : list Element;
  next_node : nat;
  activeElement : option nat;
  bodyOverflow : string;
  events : list Event
}.

Definition set_config (c : Config) (s : State) : State :=
  {| config := c; document := document s; detached := detached s;
     next_node := next_node s; activeElement := activeElement s;
     bodyOverflow := bodyOverflow s; events := events s |}.
Definition set_document (d : list Node) (s : State) : State :=
  {| config := config s; document := d; detached := detached s;
     next_node := next_node s; activeElement := activeElement s;
     bodyOverflow := bodyOverflow s; events := events s |}.
Definition set_detached (l : list Element) (s : State) : State :=
  {| config := config s; document := document s; detached := l;
     next_node := next_node s; activeElement := activeElement s;
     bodyOverflow := bodyOverflow s; events := events s |}.
Definition set_next_node (n : nat) (s : State) : State :=
  {| config := config s; document := document s; detached := detached s;
     next_node := n; activeElement := activeElement s;
     bodyOverflow := bodyOverflow s; events := events s |}.
Definition set_activeElement (a : option nat) (s : State) : State :=
  {| config := config s; document := document s; detached := detached s;
     next_node := next_node s; activeElement := a;
     bodyOverflow := bodyOverflow s; events := events s |}.
Definition set_bodyOverflow (o : string) (s : State) : State :=
  {| config := config s; document := document s; detached := detached s;
     next_node := next_node s; activeElement := activeElement s;
     bodyOverflow := o; events := events s |}.
Definition set_events (l : list Event) (s : State) : State :=
  {| config := config s; document := document s; detached := detached s;
     next_node := next_node s; activeElement := activeElement s;
     bodyOverflow := bodyOverflow s; events := l |}.

Definition set_tabs (l : list Obj) (c : Config) : Config :=
  {| tabs := l; contentRows := contentRows c; sectionRows := sectionRows c |}.

(** A computation that reads and writes the state and may throw. A throw
    keeps the writes made before it. *)
Definition M (A : Type) : Type := State → Result A * State.

#[global] Instance M_ret : MRet M := λ A a s, (Ok a, s).
#[global] Instance M_bind : MBind M := λ A B k m s,
  match m s with
  | (Ok a, s') => k a s'
  | (Throw e, s') => (Throw e, s')
  end.

Definition throw {A} (e : JsError) : M A := λ s, (Throw e, s).
Definition lift {A} (r : Result A) : M A := λ s, (r, s).
Definition gets {A} (f : State → A) : M A := λ s, (Ok (f s), s).
Definition modify (f : State → State) : M unit := λ s, (Ok (), f s).

(** [try { body } catch (error) { handler }] *)
Definition try_catch (body : M unit) (handler : JsError → M unit) : M unit :=
  λ s, match body s with
       | (Ok _, s') => (Ok (), s')
       | (Throw e, s') => handler e s'
       end.

(** [Array.prototype.forEach] *)
Fixpoint forEach {A} (l : list A) (f : A → M unit) : M unit :=
  match l with
  | [] => mret ()
  | a :: r => f a ;; forEach r f
  end.

(** The state a call leaves behind. *)
Definition exec {A} (m : M A) (s : State) : State := (m s).2.
Definition outcome {A} (m : M A) (s : State) : Result A := (m s).1.

(** ** The DOM interface used by the class *)

Module Api.

Definition nodes (d : list Node) : list nat := map node (all_elements d).

(** The elements of a page that carry class [c], in document order, and the
    first element whose id is [i]. *)
Definition by_class (c : string) (d : list Node) : list Element :=
  filter (λ e, has_class c e = true) (all_elements d).
Definition by_id (i : string) (d : list Node) : option Element :=
  head (filter (λ e, has_id i e = true) (all_elements d)).

(** [document.querySelectorAll('.c')] *)
Definition querySelectorAll (c : string) : M (list Element) :=
  gets (λ s, by_class c (document s)).

(** [document.querySelector('.c')] *)
Definition querySelector (c : string) : M (option Element) :=
  l ← querySelectorAll c; mret (head l).

(** [document.getElementById(i)] *)
Definition getElementById (i : string) : M (option Element) :=
  gets (λ s, by_id i (document s)).

(** A write through a reference to an element: it reaches the element
    wherever it lives, in the page or among the detached ones. *)
Definition on_element (e : Element) (f : Element → Element) : M unit :=
  modify (λ s,
    set_detached (map (at_node (node e) f) (detached s))
      (set_document (map (update (node e) f) (document s)) s)).

(** [document.createElement]: a fresh element, not attached to the page. *)
Definition createElement : M Element :=
  λ s, let e := {| node := next_node s; el_id := EmptyString; classList := [];
                   attrs := ∅; content := EmptyString |} in
       (Ok e, set_next_node (S (next_node s)) (set_detached (e :: detached s) s)).

(** [parent.appendChild(child)] for a detached [child]. *)
Definition appendChild (parent child : Element) : M unit :=
  modify (λ s,
    match head (filter (λ x, node x = node child) (detached s)) with
    | Some c =>
        set_detached (filter (λ x, node x ≠ node child) (detached s))
          (set_document (map (graft (node parent) (Elem c [])) (document s)) s)
    | None => s
    end).

(** [e.remove()]: the element leaves the page with its subtree; focus does
    not stay on an element that left. *)
Definition remove (e : Element) : M unit :=
  modify (λ s,
    let d := prune_all (node e) (document s) in
    let a := match activeElement s with
             | Some n => if bool_decide (n ∈ nodes d) then Some n else None
             | None => None
             end in
    set_activeElement a (set_document d s)).

(** [e.focus()]. Every call site passes an element it has just found in the
    page. *)
Definition focus (e : Element) : M unit :=
  modify (set_activeElement (Some (node e))).

End Api.
Export Api.

(** ** Values as the class compares and tests them *)

(** [a === b] on primitive values. Object identity is not represented: two
    object values compare unequal. *)
Definition strict_eq (a b : Value) : bool :=
  match a, b with
  | VUndefined, VUndefined => true
  | VNull, VNull => true
  | VBool x, VBool y => bool_decide (x = y)
  | VNum x, VNum y => bool_decide (x = y)
  | VStr x, VStr y => bool_decide (x = y)
  | _, _ => false
  end.

(** Truthiness, as tested by [if (v)] and [!v]. *)
Definition truthy (v : Value) : bool :=
  match v with
  | VUndefined | VNull => false
  | VBool b => b
  | VNum z => negb (bool_decide (z = 0))
  | VStr s => negb (bool_decide (s = EmptyString))
  | VObj _ => true
  end.

(** [\d] *)
Definition is_digit (c : ascii) : bool :=
  (48 <=? nat_of_ascii c)%nat && (nat_of_ascii c <=? 57)%nat.

(** The text matched by [/(\d+)$/]: the longest run of digits that ends the
    string (empty when the string does not end in a digit). *)
Fixpoint digit_suffix (s : string) : string :=
  match s with
  | EmptyString => EmptyString
  | String c r =>
      let t := digit_suffix r in
      if is_digit c && bool_decide (t = r) then String c t else t
  end.

(** [extractTabId(elementId)]: [parseInt] of the trailing digits, or [null]. *)
Definition extractTabId (elementId : string) : Value :=
  match digit_suffix elementId with
  | EmptyString => VNull
  | ds => match NilEmpty.uint_of_string ds with
          | Some u => VNum (Z.of_uint u)
          | None => VNull
          end
  end.

(** [tabs.find(tab => tab.id === tabId)] and [tabs.findIndex(...)] *)
Definition has_tab_id (tabId : Value) (tab : Obj) : Prop :=
  strict_eq (field tab "id") tabId = true.

#[global] Instance has_tab_id_dec tabId tab : Decision (has_tab_id tabId tab).
Proof. unfold has_tab_id. apply _. Defined.

Definition find_tab (tabId : Value) (l : list Obj) : option Obj :=
  snd <$> list_find (has_tab_id tabId) l.
Definition findIndex (tabId : Value) (l : list Obj) : option nat :=
  fst <$> list_find (has_tab_id tabId) l.

(** The ids of the two elements that belong to a tab. *)
Definition button_id (tabId : Value) : string := "tab-" +:+ to_str tabId.
Definition panel_id (tabId : Value) : string := "tab-panel-" +:+ to_str tabId.

(** ** The dashboard class *)

Module Dashboard.

Definition dispatchCustomEvent (eventName : string) (detail : Detail) : M unit :=
  modify (λ s, set_events (events s ++ [{| name := eventName; detail := detail |}]) s).

Definition handleError (error : JsError) (context : string) : M unit :=
  dispatchCustomEvent "dashboardError" (ErrorInfo error context).

Definition populateTabContent (panel : Element) (tabConfig : Obj) : M unit :=
  cfg ← gets config;
  html ← lift (panel_html cfg tabConfig);
  on_element panel (set_content html).

Definition createTabPanel (tabConfig : Obj) : M Element :=
  panel ← createElement;
  on_element panel (set_classList ["tab-content"]);;
  on_element panel (set_id (panel_id (field tabConfig "id")));;
  on_element panel (set_attr "role" "tabpanel");;
  on_element panel (set_attr "aria-labelledby" (button_id (field tabConfig "id")));;
  populateTabContent panel tabConfig;;
  mret panel.

(** [bindEvents] attaches listeners, which are not part of the state: the
    handlers are the functions below, called by the environment. What is
    left of it is its check that the page has tab buttons. *)
Definition bindEvents : M unit :=
  tabButtons ← querySelectorAll "tab-navigation__button";
  if bool_decide (length tabButtons = 0%nat)
  then throw (Error "No tab buttons found")
  else mret ().

Definition activateTab (tabId : Value) : M unit :=
  try_catch (
    tabButtons ← querySelectorAll "tab-navigation__button";
    tabContents ← querySelectorAll "tab-content";
    forEach tabButtons (λ btn,
      on_element btn (remove_class "tab-navigation__button--active");;
      on_element btn (set_attr "aria-selected" "false"));;
    forEach tabContents (λ content,
      on_element content (remove_class "tab-content--active"));;
    activeButton ← getElementById (button_id tabId);
    activeContent ← getElementById (panel_id tabId);
    match activeButton, activeContent with
    | Some activeButton, Some activeContent =>
        on_element activeButton (add_class "tab-navigation__button--active");;
        on_element activeButton (set_attr "aria-selected" "true");;
        on_element activeContent (add_class "tab-content--active");;
        l ← gets (λ s, tabs (config s));
        dispatchCustomEvent "tabChanged"
          (TabChanged tabId
             (match find_tab tabId l with
              | Some tab => field tab "title"
              | None => VUndefined
              end))
    | _, _ => throw (Error ("Tab elements not found for ID: " +:+ to_str tabId))
    end)
  (λ error, handleError error "tab-activation").

Definition getActiveTabId : M Value :=
  activeButton ← querySelector "tab-navigation__button--active";
  match activeButton with
  | Some activeButton => mret (extractTabId (el_id activeButton))
  | None => mret VNull
  end.

Definition updateTabContent (tabId : Value) (newConfig : Obj) : M unit :=
  try_catch (
    panel ← getElementById (panel_id tabId);
    match panel with
    | None => throw (Error ("Tab panel not found for ID: " +:+ to_str tabId))
    | Some panel =>
        l ← gets (λ s, tabs (config s));
        match list_find (has_tab_id tabId) l with
        | None => throw (Error ("Tab configuration not found for ID: " +:+ to_str tabId))
        | Some (tabIndex, old) =>
            let merged := newConfig ∪ old in
            modify (λ s, set_config (set_tabs (<[tabIndex := merged]> l) (config s)) s);;
            populateTabContent panel merged;;
            dispatchCustomEvent "tabContentUpdated" (TabContentUpdated tabId newConfig)
        end
    end)
  (λ error, handleError error "tab-update").

Definition addTab (tabConfig : Obj) : M unit :=
  try_catch (
    (if negb (truthy (field tabConfig "id")) || negb (truthy (field tabConfig "title"))
     then throw (Error "Tab configuration must include id and title")
     else mret ());;
    l ← gets (λ s, tabs (config s));
    match find_tab (field tabConfig "id") l with
    | Some _ =>
        throw (Error ("Tab with ID " +:+ to_str (field tabConfig "id") +:+ " already exists"))
    | None =>
        modify (λ s, set_config (set_tabs (l ++ [tabConfig]) (config s)) s);;
        tabNav ← querySelector "tab-navigation";
        match tabNav with
        | Some tabNav =>
            newButton ← createElement;
            on_element newButton (set_classList ["tab-navigation__button"]);;
            on_element newButton (set_attr "type" "button");;
            on_element newButton (set_attr "role" "tab");;
            on_element newButton (set_attr "aria-selected" "false");;
            on_element newButton
              (set_attr "aria-controls" (panel_id (field tabConfig "id")));;
            on_element newButton (set_id (button_id (field tabConfig "id")));;
            on_element newButton
              (set_content ("Tab " +:+ to_str (field tabConfig "id")));;
            appendChild tabNav newButton
        | None => mret ()
        end;;
        container ← querySelector "tab-content-container";
        match container with
        | Some container =>
            tabPanel ← createTabPanel tabConfig;
            appendChild container tabPanel
        | None => mret ()
        end;;
        bindEvents;;
        dispatchCustomEvent "tabAdded" (TabAdded (field tabConfig "id") tabConfig)
    end)
  (λ error, handleError error "tab-add").

Definition removeTab (tabId : Value) : M unit :=
  try_catch (
    l ← gets (λ s, tabs (config s));
    (if bool_decide (length l ≤ 1)%nat
     then throw (Error "Cannot remove the last remaining tab")
     else mret ());;
    match findIndex tabId l with
    | None => throw (Error ("Tab with ID " +:+ to_str tabId +:+ " not found"))
    | Some tabIndex =>
        modify (λ s, set_config (set_tabs (delete tabIndex l) (config s)) s);;
        button ← getElementById (button_id tabId);
        panel ← getElementById (panel_id tabId);
        from_option remove (mret ()) button;;
        from_option remove (mret ()) panel;;
        active ← getActiveTabId;
        (if strict_eq active tabId
         then
           l' ← gets (λ s, tabs (config s));
           match l' !! 0%nat with
           | Some first => activateTab (field first "id")
           | None => throw (TypeError "id")
           end
         else mret ());;
        dispatchCustomEvent "tabRemoved" (TabRemoved tabId)
    end)
  (λ error, handleError error "tab-remove").

End Dashboard.
Export Dashboard.

(** ** Keyboard navigation over the tab buttons *)

Module Keys.

(** [Array.prototype.indexOf] on elements compares object identity; [-1]
    when absent. *)
Definition indexOf (l : list Element) (e : Element) : Z :=
  match list_find (λ x, node x = node e) l with
  | Some (i, _) => Z.of_nat i
  | None => -1
  end.

(** [l[i].focus()]: indexing outside the array yields [undefined], and
    calling a method of [undefined] throws. *)
Definition focus_at (l : list Element) (i : Z) : M unit :=
  match (if bool_decide (0 ≤ i) then l !! Z.to_nat i else None) with
  | Some target => focus target
  | None => throw (TypeError "focus")
  end.

(** [handleTabKeyNavigation(e, currentButton)]. The result tells whether
    [e.preventDefault()] was called. *)
Definition handleTabKeyNavigation (key : string) (currentButton : Element) : M bool :=
  tabButtons ← querySelectorAll "tab-navigation__button";
  let currentIndex := indexOf tabButtons currentButton in
  let len := Z.of_nat (length tabButtons) in
  if bool_decide (key = "ArrowLeft") then
    let targetIndex := if bool_decide (0 < currentIndex) then currentIndex - 1
                       else len - 1 in
    focus_at tabButtons targetIndex;; mret true
  else if bool_decide (key = "ArrowRight") then
    let targetIndex := if bool_decide (currentIndex < len - 1) then currentIndex + 1
                       else 0 in
    focus_at tabButtons targetIndex;; mret true
  else if bool_decide (key = "Home") then
    focus_at tabButtons 0;; mret true
  else if bool_decide (key = "End") then
    focus_at tabButtons (len - 1);; mret true
  else if bool_decide (key = "Enter") || bool_decide (key = " ") then
    let tabId := extractTabId (el_id currentButton) in
    (if truthy tabId then activateTab tabId else mret ());;
    mret true
  else mret false.

(** The click listener that [bindEvents] puts on every tab button. *)
Definition handleTabClick (button : Element) : M unit :=
  let tabId := extractTabId (el_id button) in
  if truthy tabId then activateTab tabId else mret ().

End Keys.
Export Keys.

(** ** Overlay surfaces *)

Module Overlay.

Definition openNotificationModal : M unit :=
  notificationModal ← getElementById "notification-modal";
  match notificationModal with
  | None => mret ()
  | Some notificationModal =>
      on_element notificationModal (add_class "notification-modal--active");;
      on_element notificationModal (set_attr "aria-hidden" "false");;
      dispatchCustomEvent "notificationModalOpened" Stamp
  end.

Definition closeNotificationModal : M unit :=
  notificationModal ← getElementById "notification-modal";
  match notificationModal with
  | None => mret ()
  | Some notificationModal =>
      on_element notificationModal (remove_class "notification-modal--active");;
      on_element notificationModal (set_attr "aria-hidden" "true");;
      notificationBtn ← getElementById "notification-btn";
      from_option focus (mret ()) notificationBtn;;
      dispatchCustomEvent "notificationModalClosed" Stamp
  end.

Definition toggleNotificationModal : M unit :=
  notificationModal ← getElementById "notification-modal";
  match notificationModal with
  | None => throw (TypeError "classList")
  | Some notificationModal =>
      if has_class "notification-modal--active" notificationModal
      then closeNotificationModal
      else openNotificationModal
  end.

(** The focus that [openUserDropdown] and [openEmailModal] request is
    deferred by [setTimeout] and is not part of the call. *)
Definition openUserDropdown : M unit :=
  userDropdown ← querySelector "user-dropdown";
  dropdownMenu ← getElementById "user-dropdown-menu";
  match userDropdown, dropdownMenu with
  | Some userDropdown, Some dropdownMenu =>
      on_element userDropdown (add_class "user-dropdown--active");;
      on_element dropdownMenu (set_attr "aria-hidden" "false");;
      dispatchCustomEvent "userDropdownOpened" Stamp
  | _, _ => mret ()
  end.

Definition closeUserDropdown : M unit :=
  userDropdown ← querySelector "user-dropdown";
  dropdownMenu ← getElementById "user-dropdown-menu";
  match userDropdown, dropdownMenu with
  | Some userDropdown, Some dropdownMenu =>
      on_element userDropdown (remove_class "user-dropdown--active");;
      on_element dropdownMenu (set_attr "aria-hidden" "true");;
      dropdownTrigger ← getElementById "user-dropdown-trigger";
      from_option focus (mret ()) dropdownTrigger;;
      dispatchCustomEvent "userDropdownClosed" Stamp
  | _, _ => mret ()
  end.

Definition toggleUserDropdown : M unit :=
  userDropdown ← querySelector "user-dropdown";
  match userDropdown with
  | None => throw (TypeError "classList")
  | Some userDropdown =>
      if has_class "user-dropdown--active" userDropdown
      then closeUserDropdown
      else openUserDropdown
  end.

Definition openEmailModal : M unit :=
  emailModal ← getElementById "email-modal";
  match emailModal with
  | None => mret ()
  | Some emailModal =>
      on_element emailModal (add_class "email-modal--active");;
      on_element emailModal (set_attr "aria-hidden" "false");;
      modify (set_bodyOverflow "hidden");;
      dispatchCustomEvent "emailModalOpened" Stamp
  end.

Definition closeEmailModal : M unit :=
  emailModal ← getElementById "email-modal";
  match emailModal with
  | None => mret ()
  | Some emailModal =>
      on_element emailModal (remove_class "email-modal--active");;
      on_element emailModal (set_attr "aria-hidden" "true");;
      modify (set_bodyOverflow EmptyString);;
      emailButton ← getElementById "email-notifications-btn";
      from_option focus (mret ()) emailButton;;
      dispatchCustomEvent "emailModalClosed" Stamp
  end.

End Overlay.
Export Overlay.

(** ** The start-timer button *)

Module Timer.

(** The display of an elapsed time given in milliseconds, as computed by the
    interval callback. [Math.floor] of a quotient by a positive number is
    [Z.div]; [%] is the remainder that takes the sign of the dividend. *)
Definition formatElapsed (elapsed : Z) : string :=
  let seconds := elapsed / 1000 in
  let minutes := seconds / 60 in
  let hours := minutes / 60 in
  padStart 2 "0" (num_to_string hours) +:+ ":" +:+
  padStart 2 "0" (num_to_string (Z.rem minutes 60)) +:+ ":" +:+
  padStart 2 "0" (num_to_string (Z.rem seconds 60)).

(** The variables captured by the click listener. *)
Record Closure := {
  timerInterval : bool;
  startTime : option Z;
  isRunning : bool
}.

Definition initial : Closure :=
  {| timerInterval := false; startTime := None; isRunning := false |}.

(** The interval callback, run by the environment once a second while
    [timerInterval] is set; [now] is the reading of the clock. *)
Definition tick (startTimerButton : Element) (now : Z) (c : Closure) : M unit :=
  let elapsed := now - default 0 (startTime c) in
  on_element startTimerButton (set_content (formatElapsed elapsed)).

(** The click listener of the button. *)
Definition click (startTimerButton : Element) (now : Z) (c : Closure) : M Closure :=
  if negb (isRunning c) then
    on_element startTimerButton (add_class "btn--active");;
    dispatchCustomEvent "timerStarted" (TimerStarted now);;
    mret {| timerInterval := true; startTime := Some now; isRunning := true |}
  else
    on_element startTimerButton (remove_class "btn--active");;
    on_element startTimerButton (set_content "Start Timer");;
    dispatchCustomEvent "timerStopped" (TimerStopped (startTime c) now);;
    mret {| timerInterval := false; startTime := startTime c; isRunning := false |}.

End Timer.

(** ** A page of the shape the class expects *)

Module Sample.

Definition el (n : nat) (i : string) (cl : list string) : Element :=
  {| node := n; el_id := i; classList := cl; attrs := ∅; content := EmptyString |}.

Definition tab_button (n : nat) (tabId : Z) (active : bool) : Node :=
  Elem {| node := n; el_id := button_id (VNum tabId);
          classList := if active
                       then ["tab-navigation__button"; "tab-navigation__button--active"]
                       else ["tab-navigation__button"];
          attrs := {[ "aria-selected" := if active then "true" else "false" ]};
          content := EmptyString |} [].

Definition tab_panel (n : nat) (tabId : Z) (active : bool) : Node :=
  Elem {| node := n; el_id := panel_id (VNum tabId);
          classList := if active then ["tab-content"; "tab-content--active"]
                       else ["tab-content"];
          attrs := ∅; content := EmptyString |} [].

(** Header controls, then the tab buttons, then the tab panels; tab 1 is the
    active one. *)
Definition page : list Node := [
  Elem (el 0 "header" []) [
    Elem (el 1 EmptyString ["btn"; "btn--primary"]) [];
    Elem (el 2 "email-notifications-btn" []) [];
    Elem (el 3 "notification-btn" []) [];
    Elem (el 4 "notification-modal" ["notification-modal"]) [
      Elem (el 5 "notification-close-btn" []) [] ];
    Elem (el 6 EmptyString ["user-dropdown"]) [
      Elem (el 7 "user-dropdown-trigger" []) [];
      Elem (el 8 "user-dropdown-menu" []) [] ];
    Elem (el 9 "email-modal" ["email-modal"]) [
      Elem (el 10 "email-modal-close" []) [] ] ];
  Elem (el 20 EmptyString ["tab-navigation"]) [
    tab_button 21 1 true; tab_button 22 2 false; tab_button 23 3 false;
    tab_button 24 4 false; tab_button 25 5 false; tab_button 26 6 false ];
  Elem (el 30 EmptyString ["tab-content-container"]) [
    tab_panel 31 1 true; tab_panel 32 2 false; tab_panel 33 3 false;
    tab_panel 34 4 false; tab_panel 35 5 false; tab_panel 36 6 false ] ].

Definition state : State := {|
  config := Defaults.config;
  document := page;
  detached := [];
  next_node := 100;
  activeElement := None;
  bodyOverflow := EmptyString;
  events := []
|}.

End Sample.

(** * Notions used in the statements *)

(** Whether a string consists of decimal digits. *)
Fixpoint all_digits (s : string) : bool :=
  match s with
  | EmptyString => true
  | String c r => is_digit c && all_digits r
  end.

(** A number below one hundred written with two decimal digits; larger
    numbers keep all their digits. *)
Definition two_digits (n : Z) : string :=
  if bool_decide (n < 10) then "0" +:+ num_to_string n else num_to_string n.

(** HH:MM:SS of a duration in milliseconds, in the words of the
    specification: hours, minutes modulo 60 and seconds modulo 60. *)
Definition hhmmss (elapsed : Z) : string :=
  two_digits (elapsed / 3600000) +:+ ":" +:+
  two_digits ((elapsed / 60000) mod 60) +:+ ":" +:+
  two_digits ((elapsed / 1000) mod 60).

(** Whether an evaluation completed without throwing. *)
Definition is_ok {A} (r : Result A) : bool :=
  match r with Ok _ => true | Throw _ => false end.

(** [undefined] and [null], whose properties cannot be read. *)
Definition nullish (v : Value) : bool :=
  match v with VUndefined | VNull => true | _ => false end.

(** Whether the main-row template holds a country cell. *)
Definition has_country_cell (cfg : Config) : bool :=
  existsb (existsb isCountry) (contentRows cfg).

(** A descriptor with an id and a title and no attribute data, as in
    [addTab({id: 7, title: 'X', attributes: {}})]. *)
Definition bare_tab : Obj :=
  <["id" := VNum 7]> (<["title" := VStr "X"]> (<["attributes" := VObj ∅]> ∅)).

(** The two marker cells of the default templates. *)
Definition address_cell : CellSpec :=
  {| heading := "Address Type"; value := EmptyString;
     isCountry := false; isAddressType := true |}.

Definition country_cell : CellSpec :=
  {| heading := "Country"; value := EmptyString;
     isCountry := true; isAddressType := false |}.

(** What [getActiveTabId] reads off a page. *)
Definition active_tab (d : list Node) : Value :=
  match head (by_class "tab-navigation__button--active" d) with
  | Some activeButton => extractTabId (el_id activeButton)
  | None => VNull
  end.

(** The sample page's tab buttons and the first of them. *)
Definition sample_buttons : list Element :=
  by_class "tab-navigation__button" (document Sample.state).
Definition sample_first_button : Element := root (Sample.tab_button 21 1 true).

(** The three overlay surfaces of the page. *)
Inductive Surface := NotificationPanel | AccountMenu | SettingsDialog.

(** [close()] of a surface. *)
Definition close (x : Surface) : M unit :=
  match x with
  | NotificationPanel => closeNotificationModal
  | AccountMenu => closeUserDropdown
  | SettingsDialog => closeEmailModal
  end.

(** Whether the surface carries its open marker; [None] when the page lacks
    the elements of the surface. *)
Definition is_open (x : Surface) (d : list Node) : option bool :=
  match x with
  | NotificationPanel =>
      has_class "notification-modal--active" <$> by_id "notification-modal" d
  | AccountMenu =>
      match head (by_class "user-dropdown" d), by_id "user-dropdown-menu" d with
      | Some userDropdown, Some _ => Some (has_class "user-dropdown--active" userDropdown)
      | _, _ => None
      end
  | SettingsDialog =>
      has_class "email-modal--active" <$> by_id "email-modal" d
  end.

(** The control that opens the surface, and the event its closing publishes. *)
Definition trigger_id (x : Surface) : string :=
  match x with
  | NotificationPanel => "notification-btn"
  | AccountMenu => "user-dropdown-trigger"
  | SettingsDialog => "email-notifications-btn"
  end.

Definition closed_event (x : Surface) : Event :=
  {| name := match x with
             | NotificationPanel => "notificationModalClosed"
             | AccountMenu => "userDropdownClosed"
             | SettingsDialog => "emailModalClosed"
             end;
     detail := Stamp |}.

(** The page after [e.classList.remove(c); e'.setAttribute(k, v)]. *)
Definition hidden (e : Element) (c : string) (e' : Element) (d : list Node) : list Node :=
  map (update (node e') (set_attr "aria-hidden" "true"))
      (map (update (node e) (remove_class c)) d).

(** The state after [e.remove()] for an element that may be missing. *)
Definition remove_opt (o : option Element) (s : State) : State :=
  match o with
  | Some e => exec (remove e) s
  | None => s
  end.

(** The identities of the button and the panel that [removeTab] takes off
    the page. *)
Definition removed_nodes (tabId : Value) (d : list Node) : list nat :=
  option_list (node <$> by_id (button_id tabId) d) ++
  option_list (node <$> by_id (panel_id tabId) d).

(** [l.forEach(e => write(e))] as a function on elements: every element is
    rewritten once for each entry of [l] that is the same object. *)
Definition sweep (l : list Element) (f : Element → Element) (x : Element) : Element :=
  fold_left (λ acc e, at_node (node e) f acc) l x.

(** What the first loop of [activateTab] does to a button. *)
Definition clear_button (e : Element) : Element :=
  set_attr "aria-selected" "false" (remove_class "tab-navigation__button--active" e).

(** The state in which [activateTab] looks for its target: the two loops
    have run over the buttons and the panels. *)
Definition cleared (s : State) : State :=
  exec (forEach (by_class "tab-content" (document s))
          (λ e, on_element e (remove_class "tab-content--active")))
    (exec (forEach (by_class "tab-navigation__button" (document s))
             (λ e, on_element e clear_button)) s).

(** ** Notions used in the further properties *)

(** Whether the last character of a string is a decimal digit. *)
Fixpoint ends_with_digit (s : string) : bool :=
  match s with
  | EmptyString => false
  | String c r =>
      match r with
      | EmptyString => is_digit c
      | _ => ends_with_digit r
      end
  end.

(** A call of one of the four methods that change the tabs. *)
Inductive Operation :=
  | Activate (tabId : Value)
  | Add (tabConfig : Obj)
  | Remove (tabId : Value)
  | Update (tabId : Value) (newConfig : Obj).

Definition run (op : Operation) : M unit :=
  match op with
  | Activate tabId => activateTab tabId
  | Add tabConfig => addTab tabConfig
  | Remove tabId => removeTab tabId
  | Update tabId newConfig => updateTabContent tabId newConfig
  end.

(** Every run of [m] takes a state to one related to it by [R]. *)
Definition steps {A} (R : relation State) (m : M A) : Prop :=
  ∀ s, R s (exec m s).

(** The states that agree with [s] on the observation [f]. *)
Definition same {X} (f : State → X) : relation State := λ s s', f s' = f s.

(** What no tab operation undoes: the row templates and the scroll lock
    stay, and the log of events only grows. *)
Definition evolves : relation State := λ s s',
  contentRows (config s') = contentRows (config s) ∧
  sectionRows (config s') = sectionRows (config s) ∧
  bodyOverflow s' = bodyOverflow s ∧
  events s `prefix_of` events s'.

(** The relations that the writes to the page, to focus and to the log
    respect. *)
Class Tolerant (R : relation State) := {
  tolerant_preorder :: PreOrder R;
  tolerant_document : ∀ d s, R s (set_document d s);
  tolerant_detached : ∀ l s, R s (set_detached l s);
  tolerant_next_node : ∀ n s, R s (set_next_node n s);
  tolerant_activeElement : ∀ a s, R s (set_activeElement a s);
  tolerant_events : ∀ l s, R s (set_events (events s ++ l) s)
}.

(** The state with one more entry in the log. *)
Definition logged (e : Event) (s : State) : State := set_events (events s ++ [e]) s.

(** The entry that [handleError] writes. *)
Definition error_event (message context : string) : Event :=
  {| name := "dashboardError"; detail := ErrorInfo (Error message) context |}.

(** What the second half of [activateTab] writes, as a function on
    elements: the button with identity [b] is marked active and selected,
    the panel with identity [p] is marked active. *)
Definition mark_active (b p : nat) (x : Element) : Element :=
  at_node p (add_class "tab-content--active")
    (at_node b (set_attr "aria-selected" "true")
       (at_node b (add_class "tab-navigation__button--active") x)).

(** The title that [activateTab] publishes with [tabChanged]. *)
Definition title_of (tabId : Value) (l : list Obj) : Value :=
  match find_tab tabId l with
  | Some tab => field tab "title"
  | None => VUndefined
  end.

(** [open()] of a surface, the class that marks it open, and the event its
    opening publishes. *)
Definition open (x : Surface) : M unit :=
  match x with
  | NotificationPanel => openNotificationModal
  | AccountMenu => openUserDropdown
  | SettingsDialog => openEmailModal
  end.

Definition marker (x : Surface) : string :=
  match x with
  | NotificationPanel => "notification-modal--active"
  | AccountMenu => "user-dropdown--active"
  | SettingsDialog => "email-modal--active"
  end.

Definition opened_event (x : Surface) : Event :=
  {| name := match x with
             | NotificationPanel => "notificationModalOpened"
             | AccountMenu => "userDropdownOpened"
             | SettingsDialog => "emailModalOpened"
             end;
     detail := Stamp |}.

(** The two elements that the methods of a surface look up before they
    write: the one that carries the marker and the one that carries
    [aria-hidden]. The methods return at once when one is missing. *)
Definition parts (x : Surface) (d : list Node) : option (Element * Element) :=
  match x with
  | NotificationPanel => (λ m, (m, m)) <$> by_id "notification-modal" d
  | AccountMenu =>
      match head (by_class "user-dropdown" d), by_id "user-dropdown-menu" d with
      | Some userDropdown, Some dropdownMenu => Some (userDropdown, dropdownMenu)
      | _, _ => None
      end
  | SettingsDialog => (λ m, (m, m)) <$> by_id "email-modal" d
  end.

(** Only the settings dialog locks the scrolling of the page. *)
Definition scroll_lock (x : Surface) (v : string) (s : State) : State :=
  match x with
  | SettingsDialog => set_bodyOverflow v s
  | _ => s
  end.

(** What opening and closing write to an element, given the identities of
    the two parts. *)
Definition show_parts (x : Surface) (n n' : nat) (z : Element) : Element :=
  at_node n' (set_attr "aria-hidden" "false") (at_node n (add_class (marker x)) z).
Definition hide_parts (x : Surface) (n n' : nat) (z : Element) : Element :=
  at_node n' (set_attr "aria-hidden" "true") (at_node n (remove_class (marker x)) z).

(** ** Listeners bound on the document and on the triggers *)

Module Listeners.

(** The present state of an element that a listener captured when it was
    bound: the page and the detached elements are searched by identity. No
    method removes the elements that the listeners below capture; for an
    element that is gone the captured state is used. *)
Definition current (e : Element) : M Element :=
  gets (λ s, default e (head (filter (λ x, node x = node e)
                                (all_elements (document s) ++ detached s)))).

(** The elements of the subtree whose root has identity [n]. *)
Fixpoint below (n : nat) (t : Node) : list Element :=
  match t with
  | Elem e kids =>
      if bool_decide (node e = n) then elements t else concat (map (below n) kids)
  end.

(** [e.contains(target)]: whether [target] is [e] or one of its
    descendants. *)
Definition inside (n target : nat) (d : list Node) : bool :=
  bool_decide (target = n)
  || bool_decide (target ∈ map node (concat (map (below n) d))).

Definition contains (e : Element) (target : nat) : M bool :=
  gets (λ s, inside (node e) target (document s)).

(** The [click] listener that [bindNotificationModal] puts on the
    document; [target] is the element that was clicked. *)
Definition notificationOutsideClick (notificationModal notificationBtn : Element)
    (target : nat) : M unit :=
  modal ← current notificationModal;
  inModal ← contains notificationModal target;
  inBtn ← contains notificationBtn target;
  if has_class "notification-modal--active" modal && negb inModal && negb inBtn
  then closeNotificationModal
  else mret ().

(** The [click] listener that [bindUserDropdown] puts on the document. *)
Definition dropdownOutsideClick (userDropdown : Element) (target : nat) : M unit :=
  dropdown ← current userDropdown;
  inDropdown ← contains userDropdown target;
  if has_class "user-dropdown--active" dropdown && negb inDropdown
  then closeUserDropdown
  else mret ().

(** The [keydown] listener that [bindEmailModal] puts on the document. *)
Definition emailKeydown (emailModal : Element) (key : string) : M unit :=
  modal ← current emailModal;
  if has_class "email-modal--active" modal && bool_decide (key = "Escape")
  then closeEmailModal
  else mret ().

(** [handleProfileSettings()] *)
Definition handleProfileSettings : M unit :=
  closeUserDropdown;;
  dispatchCustomEvent "profileSettingsClicked" Stamp.

(** [performLogout()]; the reload it schedules is deferred by
    [setTimeout] and is not part of the call. *)
Definition performLogout : M unit :=
  dispatchCustomEvent "logoutConfirmed" Stamp.

(** [handleLogout()]; [confirmed] is the answer of the user to
    [confirm('Are you sure you want to logout?')]. *)
Definition handleLogout (confirmed : bool) : M unit :=
  closeUserDropdown;;
  dispatchCustomEvent "logoutClicked" Stamp;;
  if confirmed then performLogout else mret ().

End Listeners.
Export Listeners.

(** The three listeners that dismiss a surface on an event of the
    document, with what they captured and what the event carries. *)
Inductive Dismissal :=
  | OutsideNotification (notificationModal notificationBtn : Element) (target : nat)
  | OutsideDropdown (userDropdown : Element) (target : nat)
  | EscapeEmail (emailModal : Element) (key : string).

Definition listener (l : Dismissal) : M unit :=
  match l with
  | OutsideNotification notificationModal notificationBtn target =>
      notificationOutsideClick notificationModal notificationBtn target
  | OutsideDropdown userDropdown target => dropdownOutsideClick userDropdown target
  | EscapeEmail emailModal key => emailKeydown emailModal key
  end.

(** The surface a listener dismisses, the element whose marker it tests,
    and the condition it puts on the event. *)
Definition surface_of (l : Dismissal) : Surface :=
  match l with
  | OutsideNotification _ _ _ => NotificationPanel
  | OutsideDropdown _ _ => AccountMenu
  | EscapeEmail _ _ => SettingsDialog
  end.

Definition holder_of (l : Dismissal) : Element :=
  match l with
  | OutsideNotification notificationModal _ _ => notificationModal
  | OutsideDropdown userDropdown _ => userDropdown
  | EscapeEmail emailModal _ => emailModal
  end.

Definition applies (l : Dismissal) (d : list Node) : bool :=
  match l with
  | OutsideNotification notificationModal notificationBtn target =>
      negb (inside (node notificationModal) target d)
      && negb (inside (node notificationBtn) target d)
  | OutsideDropdown userDropdown target => negb (inside (node userDropdown) target d)
  | EscapeEmail _ key => bool_decide (key = "Escape")
  end.

(** The button and the panel that [addTab] builds for a descriptor, as
    they are when they are attached: [n] is the identity the element got
    from [document.createElement]. *)
Definition new_button (n : nat) (tabConfig : Obj) : Element :=
  {| node := n;
     el_id := button_id (field tabConfig "id");
     classList := ["tab-navigation__button"];
     attrs := <["aria-controls" := panel_id (field tabConfig "id")]>
                (<["aria-selected" := "false"]>
                   (<["role" := "tab"]> (<["type" := "button"]> ∅)));
     content := "Tab " +:+ to_str (field tabConfig "id") |}.

Definition new_panel (n : nat) (tabConfig : Obj) (html : string) : Element :=
  {| node := n;
     el_id := panel_id (field tabConfig "id");
     classList := ["tab-content"];
     attrs := <["aria-labelledby" := button_id (field tabConfig "id")]>
                (<["role" := "tabpanel"]> ∅);
     content := html |}.

(** The identities in use are below the next one that
    [document.createElement] hands out. *)
Definition well_numbered (s : State) : Prop :=
  (∀ m, m ∈ nodes (document s) → (m < next_node s)%nat) ∧
  (∀ e, e ∈ detached s → (node e < next_node s)%nat).

(** ** Content generation on the page *)

Module Generation.

(** The elements strictly below the element with identity [n]: what
    [querySelectorAll] called on that element ranges over. *)
Fixpoint inner (n : nat) (t : Node) : list Element :=
  match t with
  | Elem e kids =>
      if bool_decide (node e = n) then concat (map elements kids)
      else concat (map (inner n) kids)
  end.

Definition descendants (n : nat) (d : list Node) : list Element :=
  concat (map (inner n) d).

(** [Array.prototype.forEach] with the callback [(item, index) => ...] *)
Definition forEach_indexed {A} (l : list A) (f : A → nat → M unit) : M unit :=
  forEach (imap (λ index item, (item, index)) l) (λ p, f p.1 p.2).

(** [generateTabContent()] *)
Definition generateTabContent : M unit :=
  container ← querySelector "tab-content-container";
  match container with
  | None => throw (Error "Tab content container not found")
  | Some container =>
      existingTabs ← gets (λ s,
        filter (λ e, has_class "tab-content" e = true ∧ el_id e ≠ "tab-panel-1")
               (descendants (node container) (document s)));
      forEach existingTabs remove;;
      l ← gets (λ s, tabs (config s));
      forEach_indexed l (λ tab index,
        if bool_decide (index = 0%nat) then
          firstTab ← getElementById "tab-panel-1";
          from_option (λ firstTab, populateTabContent firstTab tab) (mret ()) firstTab
        else
          tabPanel ← createTabPanel tab;
          appendChild container tabPanel)
  end.

End Generation.
Export Generation.

(** The callback of the loop of [generateTabContent] over the descriptors,
    for the container it found. *)
Definition panel_for (container : Element) (tab : Obj) (index : nat) : M unit :=
  if bool_decide (index = 0%nat) then
    firstTab ← getElementById "tab-panel-1";
    from_option (λ firstTab, populateTabContent firstTab tab) (mret ()) firstTab
  else
    tabPanel ← createTabPanel tab;
    appendChild container tabPanel.

(** A page on which the tab row is in order: no two elements are the same
    object, and only tab buttons carry the active-button class. *)
Definition tab_row_ok (d : list Node) : Prop :=
  NoDup (nodes d) ∧
  ∀ e, e ∈ all_elements d →
       has_class "tab-navigation__button--active" e = true →
       has_class "tab-navigation__button" e = true.

(** The tab with id [z] has its button, which is a tab button, and its
    panel on the page. *)
Definition tab_on_page (z : Z) (d : list Node) : Prop :=
  ∃ b p, by_id (button_id (VNum z)) d = Some b ∧
         has_class "tab-navigation__button" b = true ∧
         by_id (panel_id (VNum z)) d = Some p.

(** ** Subtrees *)

(** The elements that leave the page with the element whose identity is
    [n]: the element itself and its descendants, in document order. *)
Definition subtree (n : nat) (d : list Node) : list Element :=
  concat (map (below n) d).

(** Whether an element lies outside the subtree of [n]. *)
Definition outside (n : nat) (d : list Node) (x : Element) : Prop :=
  node x ∉ node <$> subtree n d.

#[global] Instance outside_dec n d x : Decision (outside n d x).
Proof. unfold outside. apply _. Defined.

(** The elements that [removeTab] takes off the page: the button and the
    panel of the tab, each with its descendants. *)
Definition removed (tabId : Value) (d : list Node) : list Element :=
  concat (map (λ n, subtree n d) (removed_nodes tabId d)).

(** ** Markup as the source writes it *)

(** [<tag class="cls">text</tag>] *)
Definition tagged (tag cls text : string) : string :=
  "<" +:+ tag +:+ " class=" +:+ dq +:+ cls +:+ dq +:+ ">" +:+ text +:+
  "</" +:+ tag +:+ ">".

(** Whether [needle] occurs in [hay]. *)
Fixpoint occurs (needle hay : string) : bool :=
  String.prefix needle hay ||
  match hay with
  | EmptyString => false
  | String _ r => occurs needle r
  end.

(** A string without the line breaks and spaces it starts with. *)
Fixpoint trim_start (s : string) : string :=
  match s with
  | EmptyString => EmptyString
  | String c r =>
      if bool_decide (c = " "%char ∨ c = ascii_of_nat 10) then trim_start r else s
  end.

(** * Properties *)

(** ** Element ids and tab ids *)

Section TabIds.

Lemma digit_suffix_all_digits s : all_digits s = true → digit_suffix s = s.
Proof.
  induction s as [|c r IH]; simpl; [done|].
  intros [Hc Hr]%andb_prop. rewrite (IH Hr), Hc.
  by rewrite bool_decide_eq_true_2.
Qed.

Lemma digit_suffix_skip c r :
  is_digit c = false → digit_suffix (String c r) = digit_suffix r.
Proof. intros Hc. simpl. by rewrite Hc. Qed.

Lemma all_digits_string_of_uint d :
  all_digits (NilEmpty.string_of_uint d) = true.
Proof. induction d; simpl; auto. Qed.

Lemma string_of_uint_nonempty p :
  NilEmpty.string_of_uint (Pos.to_uint p) ≠ EmptyString.
Proof.
  pose proof (DecimalPos.Unsigned.to_uint_nonnil p) as Hn.
  destruct (Pos.to_uint p); simpl; congruence.
Qed.

(** The decimal text of a non-negative number reads back as that number. *)
Lemma extract_decimal z :
  0 ≤ z →
  digit_suffix (num_to_string z) = num_to_string z ∧
  match num_to_string z with
  | EmptyString => VNull
  | ds => match NilEmpty.uint_of_string ds with
          | Some u => VNum (Z.of_uint u)
          | None => VNull
          end
  end = VNum z.
Proof.
  intros Hz. unfold num_to_string. destruct z as [|p|p]; [| |lia].
  - split; reflexivity.
  - change (NilEmpty.string_of_int (Z.to_int (Z.pos p)))
      with (NilEmpty.string_of_uint (Pos.to_uint p)).
    split.
    + apply digit_suffix_all_digits, all_digits_string_of_uint.
    + pose proof (string_of_uint_nonempty p) as Hne.
      pose proof (NilEmpty.usu (Pos.to_uint p)) as Hu.
      destruct (NilEmpty.string_of_uint (Pos.to_uint p)) as [|c r]; [done|].
      rewrite Hu. unfold Z.of_uint.
      by rewrite DecimalPos.Unsigned.of_to.
Qed.

Lemma extractTabId_button_id z : 0 ≤ z → extractTabId (button_id (VNum z)) = VNum z.
Proof.
  intros Hz. destruct (extract_decimal z Hz) as [H1 H2].
  unfold extractTabId, button_id. simpl to_str.
  change ("tab-" +:+ num_to_string z) with
    (String "t" (String "a" (String "b" (String "-" (num_to_string z))))).
  rewrite !digit_suffix_skip by reflexivity. by rewrite H1.
Qed.

Lemma extractTabId_panel_id z : 0 ≤ z → extractTabId (panel_id (VNum z)) = VNum z.
Proof.
  intros Hz. destruct (extract_decimal z Hz) as [H1 H2].
  unfold extractTabId, panel_id. simpl to_str.
  change ("tab-panel-" +:+ num_to_string z) with
    (String "t" (String "a" (String "b" (String "-" (String "p" (String "a"
      (String "n" (String "e" (String "l" (String "-" (num_to_string z))))))))))).
  rewrite !digit_suffix_skip by reflexivity. by rewrite H1.
Qed.

End TabIds.

(** ** The timer display *)

Section TimerFacts.

Lemma num_to_string_long n : 10 ≤ n → (2 ≤ String.length (num_to_string n))%nat.
Proof.
  intros Hn. destruct n as [|p|p]; [lia| |lia].
  change (num_to_string (Z.pos p)) with (NilEmpty.string_of_uint (Pos.to_uint p)).
  pose proof (DecimalPos.Unsigned.of_to p) as Hp.
  destruct (Pos.to_uint p) as [|d|d|d|d|d|d|d|d|d|d];
    try (destruct d; simpl in *; first [lia | discriminate Hp
         | (injection Hp as Hp; lia)]).
  discriminate Hp.
Qed.

Lemma padStart_two_digits n : 0 ≤ n → padStart 2 "0" (num_to_string n) = two_digits n.
Proof.
  intros Hn. unfold two_digits. case_bool_decide as Hlt.
  - assert (n = 0 ∨ n = 1 ∨ n = 2 ∨ n = 3 ∨ n = 4 ∨ n = 5 ∨ n = 6 ∨ n = 7
            ∨ n = 8 ∨ n = 9) as Hcases by lia.
    repeat (destruct Hcases as [->|Hcases]; [reflexivity|]). by subst.
  - pose proof (num_to_string_long n ltac:(lia)) as Hlen.
    unfold padStart. replace (2 - String.length (num_to_string n))%nat with 0%nat by lia.
    reflexivity.
Qed.

Lemma formatElapsed_hhmmss elapsed : 0 ≤ elapsed → Timer.formatElapsed elapsed = hhmmss elapsed.
Proof.
  intros He. unfold Timer.formatElapsed, hhmmss.
  assert (elapsed / 1000 / 60 = elapsed / 60000) as Hm
    by (rewrite Z.div_div by lia; reflexivity).
  assert (elapsed / 1000 / 60 / 60 = elapsed / 3600000) as Hh
    by (rewrite !Z.div_div by lia; reflexivity).
  rewrite Hh, Hm.
  assert (0 ≤ elapsed / 1000) by (apply Z.div_pos; lia).
  assert (0 ≤ elapsed / 60000) by (apply Z.div_pos; lia).
  assert (0 ≤ elapsed / 3600000) by (apply Z.div_pos; lia).
  rewrite !Z.rem_mod_nonneg by lia.
  rewrite !padStart_two_digits; try done; apply Z.mod_pos_bound; lia.
Qed.

End TimerFacts.

(** ** The rendered panel *)

Section RenderFacts.

Lemma string_prefix_app a b : String.prefix a (a +:+ b) = true.
Proof.
  induction a as [|c a IH]; simpl; [by destruct b|].
  destruct (ascii_dec c c); [done|congruence].
Qed.

Lemma tab_prefix_spec tabConfig :
  tab_prefix tabConfig =
    if strict_eq (field tabConfig "id") (VNum 1) then EmptyString
    else "Tab " +:+ to_str (field tabConfig "id") +:+ " - ".
Proof.
  unfold tab_prefix. destruct (field tabConfig "id") as [| |[]|z|?|?]; try reflexivity.
  simpl. case_bool_decide as Hz; [by subst|].
  destruct z as [|[]|]; try reflexivity. congruence.
Qed.

(** A row of cells renders unless it holds a country cell and the
    descriptor has no country to read from. *)
Lemma content_column_ok tabConfig prefix item :
  is_ok (content_column tabConfig prefix item)
  = negb (isCountry item && nullish (field tabConfig "country")).
Proof.
  unfold content_column. destruct (isCountry item); [|done].
  by destruct (field tabConfig "country").
Qed.

Lemma content_column_throw tabConfig prefix item e :
  content_column tabConfig prefix item = Throw e → e = TypeError "code".
Proof.
  unfold content_column. destruct (isCountry item); [|done].
  destruct (field tabConfig "country"); simpl; congruence.
Qed.

Lemma rmap_ok {A B} (f : A → Result B) l :
  is_ok (rmap f l) = forallb (λ a, is_ok (f a)) l.
Proof.
  induction l as [|a l IH]; simpl; [done|].
  destruct (f a); simpl; [|done]. rewrite <- IH. by destruct (rmap f l).
Qed.

Lemma rmap_throw {A B} (f : A → Result B) l e e0 :
  (∀ a e', f a = Throw e' → e' = e0) → rmap f l = Throw e → e = e0.
Proof.
  intros Hf. induction l as [|a l IH]; simpl; [done|].
  destruct (f a) eqn:Ea; simpl.
  - destruct (rmap f l); simpl; [done|]. intros [= <-]. by apply IH.
  - intros [= <-]. by apply (Hf a).
Qed.

Lemma is_ok_rbind {A B} (r : Result A) (k : A → Result B) :
  (∀ a, is_ok (k a) = true) → is_ok (rbind r k) = is_ok r.
Proof. intros Hk. destruct r; simpl; [apply Hk|done]. Qed.

Lemma content_row_ok tabConfig prefix row :
  is_ok (content_row tabConfig prefix row)
  = negb (existsb isCountry row && nullish (field tabConfig "country")).
Proof.
  unfold content_row. rewrite is_ok_rbind by done. rewrite rmap_ok.
  induction row as [|item row IH]; simpl; [done|].
  rewrite content_column_ok, IH.
  by destruct (isCountry item), (existsb isCountry row),
    (nullish (field tabConfig "country")).
Qed.

Lemma content_row_throw tabConfig prefix row e :
  content_row tabConfig prefix row = Throw e → e = TypeError "code".
Proof.
  unfold content_row.
  destruct (rmap (content_column tabConfig prefix) row) eqn:E; simpl; [done|].
  intros [= <-]. eapply rmap_throw; [|exact E].
  intros a e'. apply content_column_throw.
Qed.

Lemma generateContentRows_ok cfg tabConfig prefix :
  is_ok (generateContentRows cfg tabConfig prefix)
  = negb (has_country_cell cfg && nullish (field tabConfig "country")).
Proof.
  unfold generateContentRows, has_country_cell.
  rewrite is_ok_rbind by done. rewrite rmap_ok.
  induction (contentRows cfg) as [|row rows IH]; simpl; [done|].
  rewrite content_row_ok, IH.
  by destruct (existsb isCountry row), (existsb (existsb isCountry) rows),
    (nullish (field tabConfig "country")).
Qed.

Lemma panel_html_ok cfg tabConfig :
  is_ok (panel_html cfg tabConfig)
  = negb (has_country_cell cfg && nullish (field tabConfig "country")).
Proof.
  unfold panel_html. rewrite is_ok_rbind by done. apply generateContentRows_ok.
Qed.

Lemma panel_html_throw cfg tabConfig e :
  panel_html cfg tabConfig = Throw e → e = TypeError "code".
Proof.
  unfold panel_html, generateContentRows.
  destruct (rmap (content_row tabConfig (tab_prefix tabConfig)) (contentRows cfg)) eqn:E;
    simpl; [done|].
  intros [= <-]. eapply rmap_throw; [|exact E].
  intros a e'. apply content_row_throw.
Qed.

End RenderFacts.




Section Markup.

Lemma append_assoc_string (a b c : string) : (a +:+ b) +:+ c = a +:+ (b +:+ c).
Proof.
  induction a as [|x a IH]; [done|].
  change (String x ((a +:+ b) +:+ c) = String x (a +:+ (b +:+ c))). by rewrite IH.
Qed.

Lemma string_prefix_refl (a : string) : String.prefix a a = true.
Proof.
  induction a as [|c a IH]; simpl; [done|].
  destruct (ascii_dec c c); [done|congruence].
Qed.

Lemma string_prefix_app_l (n a b : string) :
  String.prefix n a = true → String.prefix n (a +:+ b) = true.
Proof.
  revert a. induction n as [|c n IH]; intros a; [intros _; by destruct (a +:+ b)|].
  destruct a as [|c' a]; [discriminate|].
  change (String c' a +:+ b) with (String c' (a +:+ b)). simpl.
  destruct (ascii_dec c c'); [apply IH|done].
Qed.

Lemma occurs_prefix (n h : string) : String.prefix n h = true → occurs n h = true.
Proof. intros H. destruct h; cbn [occurs]; by rewrite H. Qed.

Lemma occurs_app_r (n a b : string) : occurs n b = true → occurs n (a +:+ b) = true.
Proof.
  intros H. induction a as [|c a IH]; [done|].
  change (String c a +:+ b) with (String c (a +:+ b)). cbn [occurs].
  rewrite IH. apply orb_true_r.
Qed.

Lemma occurs_app_l (n a b : string) : occurs n a = true → occurs n (a +:+ b) = true.
Proof.
  induction a as [|c a IH].
  - cbn [occurs]. rewrite orb_false_r. intros H. apply occurs_prefix.
    by apply (string_prefix_app_l n EmptyString b).
  - change (String c a +:+ b) with (String c (a +:+ b)). cbn [occurs].
    intros [H|H]%orb_prop.
    + pose proof (string_prefix_app_l n (String c a) b H) as H'.
      change (String c a +:+ b) with (String c (a +:+ b)) in H'. by rewrite H'.
    + rewrite IH by done. apply orb_true_r.
Qed.

Lemma occurs_line (n : string) (k : nat) (s : string) :
  occurs n s = true → occurs n (line k s) = true.
Proof. intros H. unfold line. by do 2 apply occurs_app_r. Qed.

Lemma occurs_join (n s : string) (l : list string) :
  s ∈ l → occurs n s = true → occurs n (join l) = true.
Proof.
  intros Hs Hn. induction l as [|x l IH]; [by apply elem_of_nil in Hs|].
  cbn [join]. apply elem_of_cons in Hs as [->|Hs].
  - by apply occurs_app_l.
  - apply occurs_app_r. by apply IH.
Qed.

Lemma rmap_elem {A B} (f : A → Result B) (l : list A) (bs : list B) (a : A) :
  rmap f l = Ok bs → a ∈ l → ∃ b, f a = Ok b ∧ b ∈ bs.
Proof.
  revert bs. induction l as [|x l IH]; intros bs Hr Ha; [by apply elem_of_nil in Ha|].
  simpl in Hr. destruct (f x) as [y|] eqn:Ex; [|done]. simpl in Hr.
  destruct (rmap f l) as [ys|] eqn:El; [|done]. simpl in Hr.
  injection Hr as <-. apply elem_of_cons in Ha as [->|Ha].
  - exists y. split; [done|]. by left.
  - destruct (IH ys eq_refl Ha) as (b & Hb & Hin). exists b. split; [done|]. by right.
Qed.

Lemma trim_start_line (k : nat) (c : ascii) (s r : string) :
  c ≠ " "%char → c ≠ ascii_of_nat 10 →
  trim_start (line k (String c s) +:+ r) = String c s +:+ r.
Proof.
  intros H1 H2. unfold line. rewrite !append_assoc_string.
  change (nl +:+ ?x) with (String (ascii_of_nat 10) x). cbn [trim_start].
  rewrite bool_decide_eq_true_2 by (by right).
  induction k as [|k IH].
  - change (trim_start (String c (s +:+ r)) = String c (s +:+ r)).
    cbn [trim_start]. rewrite bool_decide_eq_false_2; [done|]. by intros [|].
  - change (spaces (S k) +:+ ?x) with (String " " (spaces k +:+ x)). cbn [trim_start].
    rewrite bool_decide_eq_true_2 by (by left). exact IH.
Qed.

(** The label of a cell stands in the cell's markup. *)
Lemma item_html_label (h v : string) :
  occurs (tagged "div" "tab-content__item-heading" h) (item_html h v) = true.
Proof.
  unfold item_html. apply occurs_app_r, occurs_app_l, occurs_line, occurs_prefix.
  apply string_prefix_refl.
Qed.

Lemma section_heading_title (prefix : string) :
  occurs (tagged "h3" "tab-content__section-title" (prefix +:+ "Lorem Ipsum"))
    (section_heading_html prefix) = true.
Proof.
  unfold section_heading_html.
  apply occurs_app_r, occurs_app_r, occurs_app_l, occurs_line, occurs_prefix.
  unfold tagged. rewrite (append_assoc_string prefix).
  apply string_prefix_refl.
Qed.

Lemma content_column_label tabConfig prefix item col :
  content_column tabConfig prefix item = Ok col →
  occurs (tagged "div" "tab-content__item-heading"
            (prefix +:+ (if isCountry item then "Country" else heading item))) col = true.
Proof.
  unfold content_column. destruct (isCountry item).
  - destruct (get_prop _ "code") as [code|]; [|done]. simpl.
    destruct (get_prop _ "name") as [name|]; [|done]. simpl.
    intros [= <-]. apply item_html_label.
  - intros [= <-]. apply item_html_label.
Qed.

Lemma content_row_label tabConfig prefix row item html :
  content_row tabConfig prefix row = Ok html → item ∈ row →
  occurs (tagged "div" "tab-content__item-heading"
            (prefix +:+ (if isCountry item then "Country" else heading item))) html = true.
Proof.
  unfold content_row. intros Hr Hi.
  destruct (rmap (content_column tabConfig prefix) row) as [cols|] eqn:E; [|done].
  simpl in Hr. injection Hr as <-.
  destruct (rmap_elem _ _ _ _ E Hi) as (col & Hcol & Hin).
  apply occurs_app_r, occurs_app_l, occurs_line.
  eapply occurs_join; [exact Hin|]. by eapply content_column_label.
Qed.

Lemma generateContentRows_label cfg tabConfig prefix row item html :
  generateContentRows cfg tabConfig prefix = Ok html →
  row ∈ contentRows cfg → item ∈ row →
  occurs (tagged "div" "tab-content__item-heading"
            (prefix +:+ (if isCountry item then "Country" else heading item))) html = true.
Proof.
  unfold generateContentRows. intros Hr Hrow Hi.
  destruct (rmap (content_row tabConfig prefix) (contentRows cfg)) as [rows|] eqn:E;
    [|done].
  simpl in Hr. injection Hr as <-.
  destruct (rmap_elem _ _ _ _ E Hrow) as (r & Hr & Hin).
  eapply occurs_join; [exact Hin|]. by eapply content_row_label.
Qed.

Lemma generateSectionRows_label cfg tabConfig prefix row item :
  row ∈ sectionRows cfg → item ∈ row →
  occurs (tagged "div" "tab-content__item-heading"
            (prefix +:+ (if isAddressType item then "Address Type" else heading item)))
    (generateSectionRows cfg tabConfig prefix) = true.
Proof.
  intros Hrow Hi. unfold generateSectionRows.
  apply (occurs_join _ (section_row tabConfig prefix row));
    [apply list_elem_of_fmap; by exists row|].
  unfold section_row. apply occurs_app_r, occurs_app_l, occurs_line.
  apply (occurs_join _ (section_column tabConfig prefix item));
    [apply list_elem_of_fmap; by exists item|].
  unfold section_column. destruct (isAddressType item); apply item_html_label.
Qed.

Lemma strict_eq_num v z : strict_eq v (VNum z) = true ↔ v = VNum z.
Proof.
  destruct v; simpl; try (split; [done|discriminate]).
  rewrite bool_decide_eq_true. split; congruence.
Qed.

End Markup.

(** C4, as stated, fails: the panel of the second tab opens with the
    heading [<h2 class="tab-content__heading">Tab 2 Content</h2>], the bare
    title; the prefix [Tab 2 - ] that the code computes for that tab is not
    part of the heading, and the prefixed title occurs nowhere in the
    panel. *)
Lemma second_tab_heading_has_no_prefix :
  let tab2 := Defaults.tab 2 "Tab 2 Content" "us" "United States" "Commercial" in
  tabs Defaults.config !! 1%nat = Some tab2 ∧
  tab_prefix tab2 = "Tab 2 - " ∧
  ∃ html, panel_html Defaults.config tab2 = Ok html ∧
    String.prefix (tagged "h2" "tab-content__heading" "Tab 2 Content")
      (trim_start html) = true ∧
    String.prefix (tagged "h2" "tab-content__heading" "Tab 2 - Tab 2 Content")
      (trim_start html) = false ∧
    occurs "Tab 2 - Tab 2 Content" html = false.
Proof.
  intros tab2. split; [reflexivity|]. split; [by vm_compute|].
  destruct (panel_html Defaults.config tab2) as [html|e] eqn:E;
    [|by vm_compute in E].
  exists html. split; [done|].
  vm_compute in E. injection E as <-. split_and!; vm_compute; reflexivity.
Qed.

(** C4, amended. Every rendered panel opens with the heading
    [<h2 class="tab-content__heading">title</h2>], whose text is the
    descriptor's title itself with nothing before it. The per-tab prefix
    [Tab <id> - ] is empty exactly for the descriptor whose id is 1,
    whatever its position; it stands before the text of the section title
    and before the label of every cell of both templates. *)
Theorem panel_opens_with_bare_title (cfg : Config) (tabConfig : Obj) (html : string) :
  panel_html cfg tabConfig = Ok html →
  let id := field tabConfig "id" in
  let title := to_str (field tabConfig "title") in
  let prefix := if strict_eq id (VNum 1) then EmptyString
                else "Tab " +:+ to_str id +:+ " - " in
  String.prefix (tagged "h2" "tab-content__heading" title) (trim_start html) = true ∧
  (prefix = EmptyString ↔ id = VNum 1) ∧
  occurs (tagged "h3" "tab-content__section-title" (prefix +:+ "Lorem Ipsum")) html
    = true ∧
  (∀ row item, row ∈ contentRows cfg → item ∈ row →
     occurs (tagged "div" "tab-content__item-heading"
               (prefix +:+ (if isCountry item then "Country" else heading item)))
       html = true) ∧
  (∀ row item, row ∈ sectionRows cfg → item ∈ row →
     occurs (tagged "div" "tab-content__item-heading"
               (prefix +:+ (if isAddressType item then "Address Type"
                            else heading item)))
       html = true).
Proof.
  unfold panel_html. cbv zeta. rewrite tab_prefix_spec.
  set (prefix := if strict_eq (field tabConfig "id") (VNum 1) then EmptyString
                 else "Tab " +:+ to_str (field tabConfig "id") +:+ " - ").
  destruct (generateContentRows cfg tabConfig prefix) as [c|e] eqn:E; simpl; [|done].
  intros [= <-]. split_and!.
  - unfold heading_html.
    match goal with |- String.prefix _ (trim_start (line 12 ?h +:+ ?r)) = true =>
      replace (trim_start (line 12 h +:+ r)) with (h +:+ r)
        by (symmetry;
            apply (trim_start_line 12 "<"
                     ("h2 " +:+ attr "class" "tab-content__heading" +:+ ">" +:+
                      to_str (field tabConfig "title") +:+ "</h2>") r); done)
    end.
    apply (string_prefix_app (tagged "h2" "tab-content__heading"
                                (to_str (field tabConfig "title")))).
  - unfold prefix. destruct (strict_eq _ _) eqn:Es.
    + apply strict_eq_num in Es. done.
    + split; [done|]. intros Hid. apply strict_eq_num in Hid. congruence.
  - do 4 apply occurs_app_r. apply occurs_app_l, section_heading_title.
  - intros row item Hrow Hi. do 2 apply occurs_app_r.
    apply occurs_app_l, occurs_line.
    by apply (generateContentRows_label cfg tabConfig prefix row).
  - intros row item Hrow Hi. do 6 apply occurs_app_r.
    apply occurs_app_l, occurs_line.
    by apply (generateSectionRows_label cfg tabConfig prefix row).
Qed.

Lemma panel_opens_with_bare_title_witness :
  let tab3 := Defaults.tab 3 "Tab 3 Content" "ca" "Canada" "Industrial" in
  ∃ html, panel_html Defaults.config tab3 = Ok html ∧
    String.prefix (tagged "h2" "tab-content__heading" "Tab 3 Content")
      (trim_start html) = true ∧
    occurs (tagged "h3" "tab-content__section-title" "Tab 3 - Lorem Ipsum") html = true ∧
    occurs (tagged "div" "tab-content__item-heading" "Tab 3 - Country") html = true ∧
    occurs (tagged "div" "tab-content__item-heading" "Tab 3 - Address Type") html = true.
Proof.
  intros tab3.
  destruct (panel_html Defaults.config tab3) as [html|e] eqn:E;
    [|by vm_compute in E].
  exists html. split; [done|].
  destruct (panel_opens_with_bare_title Defaults.config tab3 html E)
    as (H1 & _ & H3 & H4 & H5).
  split; [exact H1|]. split; [exact H3|]. split.
  - apply (H4 [Defaults.lorem; Defaults.lorem; country_cell] country_cell).
    + by apply (list_elem_of_lookup_2 _ 3%nat).
    + by apply (list_elem_of_lookup_2 _ 2%nat).
  - apply (H5 [Defaults.lorem; address_cell; Defaults.lorem] address_cell).
    + by apply (list_elem_of_lookup_2 _ 0%nat).
    + by apply (list_elem_of_lookup_2 _ 1%nat).
Defined.

(** ** Facts about the page *)

Section DomFacts.

Lemma Node_rect_forall (P : Node → Prop) :
  (∀ e kids, Forall P kids → P (Elem e kids)) → ∀ t, P t.
Proof.
  intros step. fix IH 1. intros [e kids]. apply step.
  induction kids as [|k kids IHk]; constructor; [apply IH|apply IHk].
Qed.

Lemma elements_update n f t :
  elements (update n f t) = map (at_node n f) (elements t).
Proof.
  induction t as [e kids IH] using Node_rect_forall. simpl. f_equal.
  induction IH as [|k kids Hk _ IHk]; simpl; [done|].
  by rewrite map_app, Hk, IHk.
Qed.

Lemma all_elements_update n f d :
  all_elements (map (update n f) d) = map (at_node n f) (all_elements d).
Proof.
  unfold all_elements. induction d as [|t d IH]; simpl; [done|].
  by rewrite map_app, elements_update, IH.
Qed.

Lemma at_node_idemp n f e :
  (∀ x, node (f x) = node x) → (∀ x, f (f x) = f x) →
  at_node n f (at_node n f e) = at_node n f e.
Proof.
  intros Hn Hf. unfold at_node. destruct (decide (node e = n)) as [H1|H1].
  - rewrite (bool_decide_eq_true_2 _ H1).
    assert (node (f e) = n) as H2 by (by rewrite Hn).
    rewrite (bool_decide_eq_true_2 _ H2). apply Hf.
  - rewrite (bool_decide_eq_false_2 _ H1). by rewrite (bool_decide_eq_false_2 _ H1).
Qed.

Lemma update_idemp n f t :
  (∀ x, node (f x) = node x) → (∀ x, f (f x) = f x) →
  update n f (update n f t) = update n f t.
Proof.
  intros Hn Hf. induction t as [e kids IH] using Node_rect_forall. simpl.
  rewrite at_node_idemp by done. f_equal.
  induction IH as [|k kids Hk _ IHk]; simpl; [done|]. by rewrite Hk, IHk.
Qed.

Lemma prune_leaf_elements n kids :
  forallb (leaf_at n) kids = true →
  Forall (λ t, leaf_at n t = true →
               node (root t) ≠ n →
               elements (prune n t) = filter (λ e, node e ≠ n) (elements t)) kids →
  concat (map elements
    (concat (map (λ k, if bool_decide (node (root k) = n) then [] else [prune n k]) kids)))
  = filter (λ e, node e ≠ n) (concat (map elements kids)).
Proof.
  intros Hl IH. induction IH as [|k kids Hk _ IHk]; simpl; [done|].
  simpl in Hl. apply andb_prop in Hl as [Hlk Hlr].
  rewrite filter_app, <- IHk by done. case_bool_decide as Hroot; simpl.
  - destruct k as [e ks]. simpl in *. rewrite bool_decide_eq_true_2 in Hlk by done.
    apply andb_prop in Hlk as [Hks _]. apply bool_decide_eq_true_1 in Hks. subst ks.
    simpl. rewrite filter_cons_False by (intros ?; done). done.
  - by rewrite Hk.
Qed.

Lemma elements_prune n t :
  leaf_at n t = true → node (root t) ≠ n →
  elements (prune n t) = filter (λ e, node e ≠ n) (elements t).
Proof.
  induction t as [e kids IH] using Node_rect_forall. simpl.
  intros [_ Hl]%andb_prop Hroot.
  rewrite filter_cons_True by done. f_equal. by apply prune_leaf_elements.
Qed.

Lemma all_elements_prune n d :
  forallb (leaf_at n) d = true →
  all_elements (prune_all n d) = filter (λ e, node e ≠ n) (all_elements d).
Proof.
  intros Hl. unfold all_elements, prune_all. apply prune_leaf_elements; [done|].
  apply Forall_forall. intros t _. apply elements_prune.
Qed.

End DomFacts.

(** ** Subtrees and writes to one element *)

Section Subtrees.

Lemma below_elements n t x : x ∈ below n t → x ∈ elements t.
Proof.
  induction t as [e kids IH] using Node_rect_forall. cbn [below].
  case_bool_decide; [done|]. intros Hx. cbn [elements]. right.
  induction IH as [|k kids Hk _ IHk]; [done|].
  cbn [map concat] in *. apply elem_of_app in Hx as [Hx|Hx]; apply elem_of_app; auto.
Qed.

Lemma subtree_elements n d x : x ∈ subtree n d → x ∈ all_elements d.
Proof.
  unfold subtree, all_elements. induction d as [|t d IH]; [done|].
  cbn [map concat]. intros [Hx|Hx]%elem_of_app; apply elem_of_app;
    [left; by eapply below_elements|right; by apply IH].
Qed.

Lemma below_self n t x : x ∈ elements t → node x = n → x ∈ below n t.
Proof.
  induction t as [e kids IH] using Node_rect_forall. intros Hx Hn. cbn [below].
  case_bool_decide as He; [done|]. cbn [elements] in Hx.
  apply elem_of_cons in Hx as [->|Hx]; [done|].
  induction IH as [|k kids Hk _ IHk]; [done|].
  cbn [map concat] in *. apply elem_of_app in Hx as [Hx|Hx]; apply elem_of_app; auto.
Qed.

Lemma subtree_self n d x : x ∈ all_elements d → node x = n → x ∈ subtree n d.
Proof.
  unfold subtree, all_elements. induction d as [|t d IH]; [done|].
  cbn [map concat]. intros [Hx|Hx]%elem_of_app Hn; apply elem_of_app;
    [left; by apply below_self|right; by apply IH].
Qed.

Lemma filter_ext_in {A} (P Q : A → Prop) `{!∀ x, Decision (P x)} `{!∀ x, Decision (Q x)}
    (l : list A) :
  (∀ x, x ∈ l → P x ↔ Q x) → filter P l = filter Q l.
Proof.
  induction l as [|x l IH]; [done|]. intros Hext.
  rewrite !filter_cons, IH by (intros y Hy; apply Hext; by right).
  assert (P x ↔ Q x) as Hx by (apply Hext; by left).
  destruct (decide (P x)) as [HP|HP], (decide (Q x)) as [HQ|HQ]; tauto || done.
Qed.

(** A write to the element [n] that keeps identities is not seen outside
    any set of identities that holds [n] whenever [n] is on the page. *)
Lemma filter_outside_at_node n f (R : list nat) (l : list Element) :
  (∀ x, node (f x) = node x) →
  (n ∈ map node l → n ∈ R) →
  filter (λ x, node x ∉ R) (map (at_node n f) l) = filter (λ x, node x ∉ R) l.
Proof.
  intros Hf HR. induction l as [|x l IH]; [done|].
  cbn [map]. rewrite !filter_cons, IH by (intros H; apply HR; by right).
  unfold at_node. case_bool_decide as Hx; [|done].
  assert (n ∈ R) as Hn by (apply HR; subst n; by left).
  rewrite !decide_False; [done|..]; rewrite ?Hf, Hx; by intros [].
Qed.

Lemma nodes_on_element e f s :
  (∀ x, node (f x) = node x) →
  nodes (document (exec (on_element e f) s)) = nodes (document s).
Proof.
  intros Hf.
  change (document (exec (on_element e f) s)) with (map (update (node e) f) (document s)).
  unfold nodes. rewrite all_elements_update, map_map. apply map_ext. intros x.
  unfold at_node. by case_bool_decide.
Qed.

Lemma on_element_outside e f s (R : list nat) :
  (∀ x, node (f x) = node x) →
  (node e ∈ nodes (document s) → node e ∈ R) →
  filter (λ x, node x ∉ R) (all_elements (document (exec (on_element e f) s)))
  = filter (λ x, node x ∉ R) (all_elements (document s)).
Proof.
  intros Hf HR.
  change (document (exec (on_element e f) s)) with (map (update (node e) f) (document s)).
  rewrite all_elements_update. by apply filter_outside_at_node.
Qed.

Lemma subtree_holds_root n d : n ∈ nodes d → n ∈ node <$> subtree n d.
Proof.
  unfold nodes. intros (x & Hn & Hx)%list_elem_of_fmap.
  apply list_elem_of_fmap. exists x. split; [done|]. by apply subtree_self.
Qed.

Lemma below_update n m f t :
  (∀ x, node (f x) = node x) →
  below n (update m f t) = map (at_node m f) (below n t).
Proof.
  intros Hf. induction t as [e kids IH] using Node_rect_forall.
  assert (node (at_node m f e) = node e) as He
    by (unfold at_node; by case_bool_decide).
  change (update m f (Elem e kids)) with (Elem (at_node m f e) (map (update m f) kids)).
  cbn [below]. rewrite He. case_bool_decide.
  - apply (elements_update m f (Elem e kids)).
  - induction IH as [|k kids Hk _ IHk]; [done|].
    cbn [map concat]. by rewrite map_app, Hk, IHk.
Qed.

(** A write that keeps identities keeps the identities of every subtree. *)
Lemma subtree_on_element n e f s :
  (∀ x, node (f x) = node x) →
  node <$> subtree n (document (exec (on_element e f) s)) = node <$> subtree n (document s).
Proof.
  intros Hf.
  change (document (exec (on_element e f) s)) with (map (update (node e) f) (document s)).
  unfold subtree. induction (document s) as [|t d IH]; [done|].
  cbn [map concat]. rewrite !fmap_app, IH. f_equal.
  rewrite (below_update n (node e) f t Hf).
  change (map node (map (at_node (node e) f) (below n t)) = map node (below n t)).
  rewrite map_map. apply map_ext. intros x. unfold at_node. by case_bool_decide.
Qed.

(** What lies outside the written element after the write is what lay
    outside it before. *)
Lemma on_element_outside_self e f s :
  (∀ x, node (f x) = node x) →
  filter (outside (node e) (document (exec (on_element e f) s)))
    (all_elements (document (exec (on_element e f) s)))
  = filter (outside (node e) (document s)) (all_elements (document s)).
Proof.
  intros Hf.
  transitivity (filter (λ x, node x ∉ node <$> subtree (node e) (document s))
                  (all_elements (document (exec (on_element e f) s)))).
  - apply filter_ext_in. intros x _. unfold outside. by rewrite subtree_on_element.
  - apply on_element_outside; [done|]. apply subtree_holds_root.
Qed.

Lemma on_element_sets e f s x :
  x ∈ all_elements (document s) → node x = node e →
  f x ∈ all_elements (document (exec (on_element e f) s)).
Proof.
  intros Hx Hn.
  change (document (exec (on_element e f) s)) with (map (update (node e) f) (document s)).
  rewrite all_elements_update. apply list_elem_of_fmap. exists x. split; [|done].
  unfold at_node. by rewrite bool_decide_eq_true_2.
Qed.

Lemma on_element_hit e f s x :
  x ∈ all_elements (document (exec (on_element e f) s)) →
  node x = node e → (∀ y, node (f y) = node y) →
  ∃ y, y ∈ all_elements (document s) ∧ x = f y.
Proof.
  unfold exec, on_element, modify. simpl. rewrite all_elements_update.
  intros (y & -> & Hy)%list_elem_of_fmap Hn Hf. exists y. split; [done|].
  unfold at_node in *. case_bool_decide; [done|]. congruence.
Qed.

End Subtrees.

(** ** What the interval callback shows *)

Section TimerDisplay.

Lemma tick_run button now c s :
  Timer.tick button now c s
  = on_element button
      (set_content (Timer.formatElapsed (now - default 0 (Timer.startTime c)))) s.
Proof. reflexivity. Qed.

Lemma hhmmss_61 elapsed : 61000 ≤ elapsed < 62000 → hhmmss elapsed = "00:01:01".
Proof.
  intros Hr. unfold hhmmss.
  replace (elapsed / 3600000) with 0 by (symmetry; apply Z.div_small; lia).
  replace (elapsed / 60000) with 1
    by (apply Z.div_unique with (r := elapsed - 60000); lia).
  replace (elapsed / 1000) with 61
    by (apply Z.div_unique with (r := elapsed - 61000); lia).
  reflexivity.
Qed.

End TimerDisplay.

(** C7. While the timer runs, the interval callback shows the elapsed time
    as hours, minutes modulo 60 and seconds modulo 60, each padded with a
    zero to two digits and joined with colons: after the callback the
    button is on the page with that text as its content and is otherwise as
    before, and every element that is the button shows that text. 61
    seconds after the start (and until the next full second) the text shown
    is 00:01:01. *)
Theorem timer_shows_hhmmss (elapsed : Z) (button : Element) (t0 : Z)
    (c : Timer.Closure) (s : State) :
  0 ≤ elapsed → safe_integer elapsed →
  Timer.startTime c = Some t0 →
  let s' := exec (Timer.tick button (t0 + elapsed) c) s in
  Timer.formatElapsed elapsed = hhmmss elapsed ∧
  outcome (Timer.tick button (t0 + elapsed) c) s = Ok () ∧
  (∀ b, b ∈ all_elements (document s) → node b = node button →
     set_content (hhmmss elapsed) b ∈ all_elements (document s')) ∧
  (∀ e, e ∈ all_elements (document s') → node e = node button →
     content e = hhmmss elapsed) ∧
  (61000 ≤ elapsed < 62000 →
     Timer.formatElapsed elapsed = "00:01:01" ∧
     ∀ e, e ∈ all_elements (document s') → node e = node button →
          content e = "00:01:01").
Proof.
  intros He _ Hc s'.
  assert (s' = exec (on_element button (set_content (hhmmss elapsed))) s) as Hs'.
  { unfold s', exec. rewrite tick_run, Hc. simpl.
    replace (t0 + elapsed - t0) with elapsed by lia.
    by rewrite formatElapsed_hhmmss. }
  assert (∀ e, e ∈ all_elements (document s') → node e = node button →
               content e = hhmmss elapsed) as Hshown.
  { intros e Hin Hn. rewrite Hs' in Hin.
    destruct (on_element_hit _ _ _ _ Hin Hn ltac:(done)) as (y & _ & ->). done. }
  split; [by apply formatElapsed_hhmmss|]. split; [done|]. split; [|split; [exact Hshown|]].
  - intros b Hb Hn. rewrite Hs'. by apply on_element_sets.
  - intros Hr. rewrite formatElapsed_hhmmss by done. split; [by apply hhmmss_61|].
    intros e Hin Hn. rewrite <- (hhmmss_61 elapsed Hr). by apply Hshown.
Qed.

Lemma timer_shows_hhmmss_witness :
  let c := {| Timer.timerInterval := true; Timer.startTime := Some 5000;
              Timer.isRunning := true |} in
  let button := Sample.el 1 EmptyString ["btn"; "btn--primary"] in
  let s' := exec (Timer.tick button (5000 + 61000) c) Sample.state in
  0 ≤ 61000 ∧ safe_integer 61000 ∧ Timer.startTime c = Some 5000 ∧
  button ∈ all_elements (document Sample.state) ∧
  Timer.formatElapsed 61000 = "00:01:01" ∧
  set_content "00:01:01" button ∈ all_elements (document s') ∧
  (∀ e, e ∈ all_elements (document s') → node e = 1%nat → content e = "00:01:01").
Proof.
  intros c button s'.
  assert (button ∈ all_elements (document Sample.state)) as Hb
    by (by apply (list_elem_of_lookup_2 _ 1%nat)).
  split; [lia|]. split; [by split|]. split; [reflexivity|]. split; [exact Hb|].
  destruct (timer_shows_hhmmss 61000 button 5000 c Sample.state
              ltac:(lia) ltac:(by split) eq_refl) as (_ & _ & Hset & _ & Hshown).
  destruct (Hshown ltac:(lia)) as [Hfmt Hall].
  split; [exact Hfmt|]. split; [|exact Hall].
  exact (Hset button Hb eq_refl).
Defined.

(** ** Determinism of the renderer *)

Section RenderState.

Lemma populateTabContent_unfold panel tabConfig s :
  populateTabContent panel tabConfig s =
    match panel_html (config s) tabConfig with
    | Ok html => on_element panel (set_content html) s
    | Throw e => (Throw e, s)
    end.
Proof.
  unfold populateTabContent, mbind, M_bind, gets, lift. simpl.
  by destruct (panel_html (config s) tabConfig).
Qed.

Lemma panel_html_templates c1 c2 tabConfig :
  contentRows c1 = contentRows c2 → sectionRows c1 = sectionRows c2 →
  panel_html c1 tabConfig = panel_html c2 tabConfig.
Proof.
  intros Hc Hs. unfold panel_html, generateContentRows, generateSectionRows.
  by rewrite Hc, Hs.
Qed.

Lemma on_element_twice e f s :
  (∀ x, node (f x) = node x) → (∀ x, f (f x) = f x) →
  on_element e f (on_element e f s).2 = on_element e f s.
Proof.
  intros Hn Hf. unfold on_element, modify. simpl. f_equal.
  destruct s as [cfg d det nn ae bo ev]. unfold set_detached, set_document. simpl.
  f_equal.
  - induction d as [|t d IH]; simpl; [done|]. by rewrite update_idemp, IH.
  - induction det as [|x det IH]; simpl; [done|]. by rewrite at_node_idemp, IH.
Qed.

End RenderState.

(** C6. What the renderer produces for a descriptor depends on the two row
    templates and the descriptor only: two states that agree on the
    templates give the same markup (or the same failure), whatever else they
    hold; the markup ends up as the content of the panel; and rendering the
    same panel again changes nothing. *)
Theorem renderer_is_deterministic (s1 s2 : State) (panel : Element) (tabConfig : Obj) :
  contentRows (config s1) = contentRows (config s2) →
  sectionRows (config s1) = sectionRows (config s2) →
  panel_html (config s1) tabConfig = panel_html (config s2) tabConfig ∧
  outcome (populateTabContent panel tabConfig) s1
    = outcome (populateTabContent panel tabConfig) s2 ∧
  (∀ html, panel_html (config s1) tabConfig = Ok html →
     ∀ s e, s = s1 ∨ s = s2 →
       e ∈ all_elements (document (exec (populateTabContent panel tabConfig) s)) →
       node e = node panel → content e = html) ∧
  populateTabContent panel tabConfig (exec (populateTabContent panel tabConfig) s1)
    = populateTabContent panel tabConfig s1.
Proof.
  intros Hc Hs.
  pose proof (panel_html_templates _ _ tabConfig Hc Hs) as Heq.
  split; [done|]. split; [|split].
  - unfold outcome. rewrite !populateTabContent_unfold, <- Heq.
    by destruct (panel_html (config s1) tabConfig).
  - intros html Hhtml s e Hs12 He Hnode.
    assert (panel_html (config s) tabConfig = Ok html) as Hh
      by (destruct Hs12 as [->| ->]; congruence).
    unfold exec in He. rewrite populateTabContent_unfold, Hh in He.
    simpl in He. rewrite all_elements_update in He.
    apply list_elem_of_fmap in He as (x & -> & _).
    unfold at_node in *. destruct (decide (node x = node panel)) as [Hx|Hx].
    + by rewrite (bool_decide_eq_true_2 _ Hx).
    + by rewrite (bool_decide_eq_false_2 _ Hx) in Hnode.
  - unfold exec. rewrite (populateTabContent_unfold _ _ s1).
    destruct (panel_html (config s1) tabConfig) as [html|e] eqn:E.
    + rewrite populateTabContent_unfold.
      replace (config (on_element panel (set_content html) s1).2) with (config s1)
        by reflexivity.
      rewrite E. by apply on_element_twice.
    + simpl. by rewrite populateTabContent_unfold, E.
Qed.

Lemma renderer_is_deterministic_witness :
  let panel := Sample.el 32 "tab-panel-2" ["tab-content"] in
  let tab2 := Defaults.tab 2 "Tab 2 Content" "us" "United States" "Commercial" in
  let s2 := set_config (set_tabs [] Defaults.config)
              (set_events [{| name := "tabRemoved"; detail := TabRemoved (VNum 9) |}]
                 Sample.state) in
  contentRows (config Sample.state) = contentRows (config s2) ∧
  sectionRows (config Sample.state) = sectionRows (config s2) ∧
  panel_html (config Sample.state) tab2 = panel_html (config s2) tab2 ∧
  outcome (populateTabContent panel tab2) Sample.state
    = outcome (populateTabContent panel tab2) s2.
Proof.
  intros panel tab2 s2. split; [reflexivity|]. split; [reflexivity|].
  destruct (renderer_is_deterministic Sample.state s2 panel tab2 eq_refl eq_refl)
    as (H1 & H2 & _).
  by split.
Defined.

(** ** Updating a descriptor *)

(** C9, as stated, fails: after [addTab] of a descriptor without attribute
    data the configuration holds tab 7, but the page has no panel for it,
    and [updateTabContent] then reports an error and merges nothing. *)
Lemma update_without_panel_merges_nothing :
  let s1 := exec (addTab bare_tab) Sample.state in
  let s2 := exec (updateTabContent (VNum 7) {[ "title" := VStr "Y" ]}) s1 in
  (λ tab, field tab "id") <$> find_tab (VNum 7) (tabs (config s1))
    = Some (VNum 7) ∧
  by_id (panel_id (VNum 7)) (document s1) = None ∧
  map (λ tab, (field tab "id", field tab "title")) (tabs (config s2))
    = map (λ tab, (field tab "id", field tab "title")) (tabs (config s1)) ∧
  (λ tab, field tab "title") <$> find_tab (VNum 7) (tabs (config s2))
    = Some (VStr "X") ∧
  events s2 = events s1 ++
    [{| name := "dashboardError";
        detail := ErrorInfo (Error "Tab panel not found for ID: 7") "tab-update" |}].
Proof.
  intros s1 s2. split; [by vm_compute|]. split; [by vm_compute|].
  split; [by vm_compute|]. split; by vm_compute.
Qed.

Section UpdateFacts.

(** The state after a call of [updateTabContent] that passes both checks. *)
Lemma updateTabContent_run s tabId newConfig panel i old :
  by_id (panel_id tabId) (document s) = Some panel →
  list_find (has_tab_id tabId) (tabs (config s)) = Some (i, old) →
  exec (updateTabContent tabId newConfig) s =
    let merged := newConfig ∪ old in
    let s0 := set_config (set_tabs (<[i := merged]> (tabs (config s))) (config s)) s in
    match panel_html (config s0) merged with
    | Ok html =>
        exec (dispatchCustomEvent "tabContentUpdated" (TabContentUpdated tabId newConfig))
          (exec (on_element panel (set_content html)) s0)
    | Throw e => exec (handleError e "tab-update") s0
    end.
Proof.
  intros Hpanel Hfind.
  unfold exec, updateTabContent, try_catch, mbind, M_bind, getElementById, gets, modify.
  rewrite Hpanel, Hfind. rewrite populateTabContent_unfold.
  cbv zeta. match goal with |- context [panel_html ?c ?t] =>
    by destruct (panel_html c t) end.
Qed.

End UpdateFacts.

(** C9, amended. When [tabId] resolves to a panel of the page and to a
    descriptor of the configuration, [updateTabContent] puts the shallow
    merge in the place of the first descriptor with that id: a field named
    in the partial descriptor takes its new value, any other field keeps its
    old one, and all other descriptors and both templates stay as they
    were. *)
Theorem updateTabContent_shallow_merge (s : State) (tabId : Value) (newConfig : Obj)
    (panel : Element) (i : nat) (old : Obj) :
  by_id (panel_id tabId) (document s) = Some panel →
  list_find (has_tab_id tabId) (tabs (config s)) = Some (i, old) →
  let s' := exec (updateTabContent tabId newConfig) s in
  tabs (config s') = <[i := newConfig ∪ old]> (tabs (config s)) ∧
  tabs (config s') !! i = Some (newConfig ∪ old) ∧
  (∀ k v, newConfig !! k = Some v → (newConfig ∪ old) !! k = Some v) ∧
  (∀ k, newConfig !! k = None → (newConfig ∪ old) !! k = old !! k) ∧
  (∀ j, j ≠ i → tabs (config s') !! j = tabs (config s) !! j) ∧
  contentRows (config s') = contentRows (config s) ∧
  sectionRows (config s') = sectionRows (config s).
Proof.
  intros Hpanel Hfind s'.
  assert (tabs (config s') = <[i := newConfig ∪ old]> (tabs (config s)) ∧
          contentRows (config s') = contentRows (config s) ∧
          sectionRows (config s') = sectionRows (config s)) as (Htabs & Hc & Hs).
  { subst s'. rewrite (updateTabContent_run _ _ _ _ _ _ Hpanel Hfind).
    cbv zeta. match goal with |- context [panel_html ?c ?t] =>
      by destruct (panel_html c t) end. }
  apply list_find_Some in Hfind as (Hi & _ & _).
  split; [done|]. rewrite Htabs. split; [|split; [|split; [|split]]]; try done.
  - apply list_lookup_insert_eq. by eapply lookup_lt_Some.
  - intros k v Hk. by apply lookup_union_Some_l.
  - intros k Hk. by apply lookup_union_r.
  - intros j Hj. by apply list_lookup_insert_ne.
Qed.

Lemma updateTabContent_shallow_merge_witness :
  let tab1 := Defaults.tab 1 "Lorem Ipsum" "gb" "United Kingdom" "Residential" in
  let newConfig : Obj := {[ "title" := VStr "Updated Title" ]} in
  let s' := exec (updateTabContent (VNum 1) newConfig) Sample.state in
  by_id (panel_id (VNum 1)) (document Sample.state)
    = Some (Sample.el 31 "tab-panel-1" ["tab-content"; "tab-content--active"]) ∧
  list_find (has_tab_id (VNum 1)) (tabs (config Sample.state)) = Some (0%nat, tab1) ∧
  tabs (config s') !! 0%nat = Some (newConfig ∪ tab1) ∧
  (newConfig ∪ tab1) !! "title" = Some (VStr "Updated Title") ∧
  (newConfig ∪ tab1) !! "addressType" = tab1 !! "addressType".
Proof.
  intros tab1 newConfig s'.
  assert (by_id (panel_id (VNum 1)) (document Sample.state)
    = Some (Sample.el 31 "tab-panel-1" ["tab-content"; "tab-content--active"])) as H1
    by (by vm_compute).
  assert (list_find (has_tab_id (VNum 1)) (tabs (config Sample.state))
    = Some (0%nat, tab1)) as H2 by (by vm_compute).
  split; [exact H1|]. split; [exact H2|].
  destruct (updateTabContent_shallow_merge Sample.state (VNum 1) newConfig _ _ _ H1 H2)
    as (_ & Hi & Hnew & Hold & _).
  split; [exact Hi|]. split.
  - apply Hnew. by vm_compute.
  - apply Hold. by vm_compute.
Defined.

(** ** Keyboard navigation *)

Section KeyFacts.

Lemma getActiveTabId_run s : getActiveTabId s = (Ok (active_tab (document s)), s).
Proof.
  unfold getActiveTabId, active_tab, querySelector, querySelectorAll, mbind, M_bind,
    gets, mret, M_ret.
  by destruct (head _).
Qed.

Lemma run_gets {A B} (f : State → A) (k : A → M B) s :
  (x ← gets f; k x) s = k (f s) s.
Proof. reflexivity. Qed.

Lemma indexOf_lookup (l : list Element) i e :
  NoDup (map node l) → l !! i = Some e → indexOf l e = Z.of_nat i.
Proof.
  intros Hnd Hi. unfold indexOf.
  assert (list_find (λ x, node x = node e) l = Some (i, e)) as ->; [|done].
  apply list_find_Some. split; [done|]. split; [done|].
  intros j y Hj Hlt Hy.
  assert (j = i); [|lia].
  eapply NoDup_lookup; [exact Hnd| |].
  - by rewrite list_lookup_fmap, Hj.
  - by rewrite list_lookup_fmap, Hi, Hy.
Qed.

Lemma focus_at_in_range (l : list Element) (k : Z) target s :
  0 ≤ k → l !! Z.to_nat k = Some target →
  focus_at l k s = (Ok (), set_activeElement (Some (node target)) s).
Proof.
  intros Hk Ht. unfold focus_at. rewrite bool_decide_eq_true_2 by done.
  by rewrite Ht.
Qed.

End KeyFacts.

(** Decide the comparisons between key names. *)
Ltac decide_keys :=
  repeat match goal with
  | |- context [bool_decide (@eq string ?a ?b)] =>
      first [ rewrite (bool_decide_eq_true_2 (a = b)) by reflexivity
            | rewrite (bool_decide_eq_false_2 (a = b)) by discriminate ]
  end.

(** C8. On a tab button of the page, the Left and Right arrows move focus
    to the previous and the next tab button, wrapping around at both ends,
    and Home and End move it to the first and the last one; these four keys
    change nothing but the focus owner, so the active tab stays what it was.
    Enter and the space key activate the tab of the button, as a click does,
    and any other key does nothing. *)
Theorem tab_key_navigation (s : State) (cur : Element) (i : nat) :
  let btns := by_class "tab-navigation__button" (document s) in
  let n := Z.of_nat (length btns) in
  NoDup (map node btns) →
  btns !! i = Some cur →
  (∃ target, btns !! Z.to_nat ((Z.of_nat i - 1) mod n) = Some target ∧
     handleTabKeyNavigation "ArrowLeft" cur s
       = (Ok true, set_activeElement (Some (node target)) s)) ∧
  (∃ target, btns !! Z.to_nat ((Z.of_nat i + 1) mod n) = Some target ∧
     handleTabKeyNavigation "ArrowRight" cur s
       = (Ok true, set_activeElement (Some (node target)) s)) ∧
  (∃ target, btns !! 0%nat = Some target ∧
     handleTabKeyNavigation "Home" cur s
       = (Ok true, set_activeElement (Some (node target)) s)) ∧
  (∃ target, btns !! (length btns - 1)%nat = Some target ∧
     handleTabKeyNavigation "End" cur s
       = (Ok true, set_activeElement (Some (node target)) s)) ∧
  (∀ key, key ∈ ["ArrowLeft"; "ArrowRight"; "Home"; "End"] →
     let s' := exec (handleTabKeyNavigation key cur) s in
     document s' = document s ∧ config s' = config s ∧ events s' = events s ∧
     outcome getActiveTabId s' = outcome getActiveTabId s) ∧
  (∀ key z, key = "Enter" ∨ key = " " →
     el_id cur = button_id (VNum z) → 0 < z → safe_integer z →
     exec (handleTabKeyNavigation key cur) s = exec (activateTab (VNum z)) s ∧
     exec (handleTabClick cur) s = exec (activateTab (VNum z)) s) ∧
  (∀ key, key ∉ ["ArrowLeft"; "ArrowRight"; "Home"; "End"; "Enter"; " "] →
     handleTabKeyNavigation key cur s = (Ok false, s)).
Proof.
  intros btns n Hnd Hi.
  pose proof (lookup_lt_Some _ _ _ Hi) as Hlt.
  pose proof (indexOf_lookup _ _ _ Hnd Hi) as Hidx.
  assert (∀ k : Z, 0 ≤ k < n → ∃ target, btns !! Z.to_nat k = Some target) as Hget.
  { intros k Hk. apply lookup_lt_is_Some. unfold n in Hk. lia. }
  assert (∀ k target, 0 ≤ k → btns !! Z.to_nat k = Some target →
            (focus_at btns k ;; mret true) s
              = (Ok true, set_activeElement (Some (node target)) s)) as Hfocus.
  { intros k target Hk Ht. unfold mbind, M_bind.
    by rewrite (focus_at_in_range _ _ _ _ Hk Ht). }
  assert (∃ target, btns !! Z.to_nat ((Z.of_nat i - 1) mod n) = Some target ∧
     handleTabKeyNavigation "ArrowLeft" cur s
       = (Ok true, set_activeElement (Some (node target)) s)) as HL.
  { destruct (Hget ((Z.of_nat i - 1) mod n)) as [target Ht];
      [apply Z.mod_pos_bound; unfold n; lia|].
    exists target. split; [done|].
    unfold handleTabKeyNavigation, querySelectorAll. rewrite run_gets.
    fold btns. rewrite Hidx. decide_keys.
    assert ((if bool_decide (0 < Z.of_nat i) then Z.of_nat i - 1
             else Z.of_nat (length btns) - 1) = (Z.of_nat i - 1) mod n) as ->.
    { case_bool_decide.
      - symmetry. apply Z.mod_small. unfold n. lia.
      - replace (Z.of_nat i) with 0 by lia. fold n.
        apply Z.mod_unique with (q := -1); lia. }
    apply Hfocus; [apply Z.mod_pos_bound; unfold n; lia|done]. }
  assert (∃ target, btns !! Z.to_nat ((Z.of_nat i + 1) mod n) = Some target ∧
     handleTabKeyNavigation "ArrowRight" cur s
       = (Ok true, set_activeElement (Some (node target)) s)) as HR.
  { destruct (Hget ((Z.of_nat i + 1) mod n)) as [target Ht];
      [apply Z.mod_pos_bound; unfold n; lia|].
    exists target. split; [done|].
    unfold handleTabKeyNavigation, querySelectorAll. rewrite run_gets.
    fold btns. rewrite Hidx. decide_keys.
    assert ((if bool_decide (Z.of_nat i < Z.of_nat (length btns) - 1)
             then Z.of_nat i + 1 else 0) = (Z.of_nat i + 1) mod n) as ->.
    { case_bool_decide.
      - symmetry. apply Z.mod_small. unfold n. lia.
      - replace (Z.of_nat i + 1) with n by (unfold n; lia).
        apply Z.mod_unique with (q := 1); lia. }
    apply Hfocus; [apply Z.mod_pos_bound; unfold n; lia|done]. }
  assert (∃ target, btns !! 0%nat = Some target ∧
     handleTabKeyNavigation "Home" cur s
       = (Ok true, set_activeElement (Some (node target)) s)) as HH.
  { destruct (Hget 0) as [target Ht]; [unfold n; lia|].
    exists target. split; [done|].
    unfold handleTabKeyNavigation, querySelectorAll. rewrite run_gets.
    fold btns. decide_keys.
    by apply Hfocus. }
  assert (∃ target, btns !! (length btns - 1)%nat = Some target ∧
     handleTabKeyNavigation "End" cur s
       = (Ok true, set_activeElement (Some (node target)) s)) as HE.
  { destruct (Hget (n - 1)) as [target Ht]; [unfold n; lia|].
    replace (Z.to_nat (n - 1)) with (length btns - 1)%nat in Ht by (unfold n; lia).
    exists target. split; [done|].
    unfold handleTabKeyNavigation, querySelectorAll. rewrite run_gets.
    fold btns. decide_keys.
    apply Hfocus; [unfold n; lia|].
    by replace (Z.to_nat (Z.of_nat (length btns) - 1)) with (length btns - 1)%nat by lia. }
  split; [done|]. split; [done|]. split; [done|]. split; [done|]. split; [|split].
  - intros key Hkey s'. subst s'. unfold exec.
    assert (∃ t, handleTabKeyNavigation key cur s
                   = (Ok true, set_activeElement (Some t) s)) as (t & ->).
    { rewrite !elem_of_cons, elem_of_nil in Hkey.
      destruct Hkey as [->|[->|[->|[->|[]]]]];
        [destruct HL as (t & _ & ->) | destruct HR as (t & _ & ->)
        |destruct HH as (t & _ & ->) | destruct HE as (t & _ & ->)];
        by eexists. }
    unfold outcome. rewrite !getActiveTabId_run. by split_and!.
  - intros key z Hkey Hid Hz _.
    assert (extractTabId (el_id cur) = VNum z) as Hx
      by (rewrite Hid; apply extractTabId_button_id; lia).
    assert (truthy (VNum z) = true) as Htr
      by (simpl; rewrite bool_decide_eq_false_2 by lia; done).
    split.
    + unfold exec, handleTabKeyNavigation, querySelectorAll. rewrite run_gets.
      destruct Hkey as [-> | ->]; decide_keys;
        rewrite Hx, Htr; unfold mbind, M_bind, mret, M_ret; cbn [orb];
        by destruct (activateTab (VNum z) s) as [[[]|] ?].
    + unfold exec, handleTabClick. by rewrite Hx, Htr.
  - intros key Hkey.
    unfold handleTabKeyNavigation, querySelectorAll. rewrite run_gets.
    rewrite !bool_decide_eq_false_2; [done|..]; intros ->; apply Hkey;
      repeat constructor.
Qed.


Lemma sample_buttons_NoDup : NoDup (map node sample_buttons).
Proof. apply (bool_decide_unpack _). vm_compute. exact I. Qed.

Lemma sample_first_button_lookup : sample_buttons !! 0%nat = Some sample_first_button.
Proof. vm_compute. reflexivity. Qed.

Lemma tab_key_navigation_witness :
  NoDup (map node sample_buttons) ∧
  sample_buttons !! 0%nat = Some sample_first_button ∧
  handleTabKeyNavigation "ArrowLeft" sample_first_button Sample.state
    = (Ok true, set_activeElement (Some 26%nat) Sample.state) ∧
  handleTabKeyNavigation "ArrowRight" sample_first_button Sample.state
    = (Ok true, set_activeElement (Some 22%nat) Sample.state) ∧
  exec (handleTabKeyNavigation "Enter" sample_first_button) Sample.state
    = exec (activateTab (VNum 1)) Sample.state.
Proof.
  split; [exact sample_buttons_NoDup|]. split; [exact sample_first_button_lookup|].
  destruct (tab_key_navigation Sample.state sample_first_button 0
              sample_buttons_NoDup sample_first_button_lookup)
    as ((tl & Htl & HL) & (tr & Htr & HR) & _ & _ & _ & HEnter & _).
  split; [|split].
  - rewrite HL. vm_compute in Htl. by injection Htl as <-.
  - rewrite HR. vm_compute in Htr. by injection Htr as <-.
  - assert (el_id sample_first_button = button_id (VNum 1)) as Hid
      by (vm_compute; reflexivity).
    destruct (HEnter "Enter" 1 (or_introl eq_refl) Hid ltac:(lia) ltac:(by split))
      as [H _].
    exact H.
Defined.

(** ** Queries after a write *)

Section QueryFacts.

Lemma filter_map_invariant {A} (P : A → Prop) `{!∀ x, Decision (P x)} (f : A → A) l :
  (∀ x, P (f x) ↔ P x) → filter P (map f l) = map f (filter P l).
Proof.
  intros Hf. induction l as [|x l IH]; simpl; [done|].
  rewrite !filter_cons. destruct (decide (P x)) as [Hx|Hx].
  - rewrite decide_True by (by apply Hf). simpl. by rewrite IH.
  - rewrite decide_False by (by rewrite Hf). done.
Qed.

Lemma head_map {A B} (f : A → B) l : head (map f l) = f <$> head l.
Proof. by destruct l. Qed.

Lemma at_node_node n f e : (∀ x, node (f x) = node x) → node (at_node n f e) = node e.
Proof. intros Hn. unfold at_node. by case_bool_decide. Qed.

Lemma at_node_el_id n f e : (∀ x, el_id (f x) = el_id x) → el_id (at_node n f e) = el_id e.
Proof. intros Hn. unfold at_node. by case_bool_decide. Qed.

Lemma by_id_update i n f d :
  (∀ x, el_id (f x) = el_id x) →
  by_id i (map (update n f) d) = at_node n f <$> by_id i d.
Proof.
  intros Hf. unfold by_id. rewrite all_elements_update, filter_map_invariant, head_map; [done|].
  intros x. unfold has_id. by rewrite at_node_el_id.
Qed.

Lemma by_class_update c n f d :
  (∀ x, has_class c (f x) = has_class c x) →
  by_class c (map (update n f) d) = map (at_node n f) (by_class c d).
Proof.
  intros Hf. unfold by_class. rewrite all_elements_update, filter_map_invariant; [done|].
  intros x. unfold at_node. case_bool_decide; [by rewrite Hf|done].
Qed.

Lemma has_class_remove_class c c' e :
  has_class c (remove_class c' e) = has_class c e && negb (bool_decide (c = c')).
Proof.
  unfold has_class, remove_class. simpl.
  destruct (decide (c = c')) as [->|Hne].
  - rewrite (bool_decide_eq_true_2 (c' = c')) by done. rewrite andb_false_r.
    apply bool_decide_eq_false_2. rewrite list_elem_of_filter. by intros [Hne _].
  - rewrite (bool_decide_eq_false_2 (c = c')) by done. rewrite andb_true_r.
    apply bool_decide_ext. rewrite list_elem_of_filter. split; [by intros [_ ?]|done].
Qed.

Lemma has_class_set_attr c k v e : has_class c (set_attr k v e) = has_class c e.
Proof. reflexivity. Qed.

Lemma remove_class_absent c e : has_class c e = false → remove_class c e = e.
Proof.
  unfold has_class, remove_class, set_classList. intros Hc%bool_decide_eq_false_1.
  destruct e as [n i cl a co]. simpl in *. f_equal.
  induction cl as [|x cl IH]; [done|].
  rewrite filter_cons_True.
  - f_equal. apply IH. intros ?. apply Hc. by right.
  - intros ->. apply Hc. by left.
Qed.

End QueryFacts.

(** ** Closing an overlay surface *)

Section OverlayFacts.

Lemma at_node_self f e : at_node (node e) f e = f e.
Proof. unfold at_node. by rewrite bool_decide_eq_true_2. Qed.

Lemma has_class_at_node c n f e :
  (∀ x, has_class c (f x) = has_class c x) →
  has_class c (at_node n f e) = has_class c e.
Proof. intros Hf. unfold at_node. by case_bool_decide. Qed.

Lemma node_set_attr k v e : node (set_attr k v e) = node e.
Proof. reflexivity. Qed.
Lemma node_remove_class c e : node (remove_class c e) = node e.
Proof. reflexivity. Qed.
Lemma el_id_set_attr k v e : el_id (set_attr k v e) = el_id e.
Proof. reflexivity. Qed.
Lemma el_id_remove_class c e : el_id (remove_class c e) = el_id e.
Proof. reflexivity. Qed.

Lemma by_id_hidden i e c e' d :
  by_id i (hidden e c e' d)
  = at_node (node e') (set_attr "aria-hidden" "true")
      <$> (at_node (node e) (remove_class c) <$> by_id i d).
Proof. unfold hidden. by rewrite !by_id_update. Qed.

Lemma node_by_id_hidden i e c e' d :
  node <$> by_id i (hidden e c e' d) = node <$> by_id i d.
Proof.
  rewrite by_id_hidden. destruct (by_id i d) as [b|]; simpl; [|done].
  by rewrite !at_node_node.
Qed.

Lemma closeNotificationModal_run s m :
  by_id "notification-modal" (document s) = Some m →
  closeNotificationModal s =
    (Ok (),
     set_events (events s ++ [closed_event NotificationPanel])
       (set_activeElement
          (match by_id "notification-btn" (document s) with
           | Some b => Some (node b)
           | None => activeElement s
           end)
          (set_detached
             (map (at_node (node m) (set_attr "aria-hidden" "true"))
                (map (at_node (node m) (remove_class "notification-modal--active"))
                   (detached s)))
             (set_document
                (hidden m "notification-modal--active" m (document s)) s)))).
Proof.
  intros Hm. unfold closeNotificationModal, getElementById. rewrite run_gets, Hm.
  unfold mbind, M_bind, on_element, modify, gets, dispatchCustomEvent. simpl.
  fold (hidden m "notification-modal--active" m (document s)).
  pose proof (node_by_id_hidden "notification-btn" m "notification-modal--active" m
                (document s)) as Hb.
  destruct (by_id "notification-btn" (hidden _ _ _ _)) as [b'|],
    (by_id "notification-btn" (document s)) as [b|]; simpl in Hb; try done.
  injection Hb as Hb. simpl. unfold focus, modify. simpl. by rewrite Hb.
Qed.

Lemma closeUserDropdown_run s u menu :
  head (by_class "user-dropdown" (document s)) = Some u →
  by_id "user-dropdown-menu" (document s) = Some menu →
  closeUserDropdown s =
    (Ok (),
     set_events (events s ++ [closed_event AccountMenu])
       (set_activeElement
          (match by_id "user-dropdown-trigger" (document s) with
           | Some b => Some (node b)
           | None => activeElement s
           end)
          (set_detached
             (map (at_node (node menu) (set_attr "aria-hidden" "true"))
                (map (at_node (node u) (remove_class "user-dropdown--active"))
                   (detached s)))
             (set_document
                (hidden u "user-dropdown--active" menu (document s)) s)))).
Proof.
  intros Hu Hm. unfold closeUserDropdown, querySelector, querySelectorAll, getElementById.
  unfold mbind at 1. unfold M_bind at 1. unfold mbind at 1. unfold M_bind at 1.
  unfold gets at 1. unfold mret, M_ret. rewrite Hu. rewrite run_gets, Hm.
  unfold mbind, M_bind, on_element, modify, gets, dispatchCustomEvent. simpl.
  fold (hidden u "user-dropdown--active" menu (document s)).
  pose proof (node_by_id_hidden "user-dropdown-trigger" u "user-dropdown--active" menu
                (document s)) as Hb.
  destruct (by_id "user-dropdown-trigger" (hidden _ _ _ _)) as [b'|],
    (by_id "user-dropdown-trigger" (document s)) as [b|]; simpl in Hb; try done.
  injection Hb as Hb. simpl. unfold focus, modify. simpl. by rewrite Hb.
Qed.

Lemma closeEmailModal_run s m :
  by_id "email-modal" (document s) = Some m →
  closeEmailModal s =
    (Ok (),
     set_events (events s ++ [closed_event SettingsDialog])
       (set_activeElement
          (match by_id "email-notifications-btn" (document s) with
           | Some b => Some (node b)
           | None => activeElement s
           end)
          (set_bodyOverflow EmptyString
             (set_detached
                (map (at_node (node m) (set_attr "aria-hidden" "true"))
                   (map (at_node (node m) (remove_class "email-modal--active"))
                      (detached s)))
                (set_document (hidden m "email-modal--active" m (document s)) s))))).
Proof.
  intros Hm. unfold closeEmailModal, getElementById. rewrite run_gets, Hm.
  unfold mbind, M_bind, on_element, modify, gets, dispatchCustomEvent. simpl.
  fold (hidden m "email-modal--active" m (document s)).
  pose proof (node_by_id_hidden "email-notifications-btn" m "email-modal--active" m
                (document s)) as Hb.
  destruct (by_id "email-notifications-btn" (hidden _ _ _ _)) as [b'|],
    (by_id "email-notifications-btn" (document s)) as [b|]; simpl in Hb; try done.
  injection Hb as Hb. simpl. unfold focus, modify. simpl. by rewrite Hb.
Qed.

Lemma by_class_hidden c e c' e' d :
  c ≠ c' →
  by_class c (hidden e c' e' d)
  = map (at_node (node e') (set_attr "aria-hidden" "true"))
      (map (at_node (node e) (remove_class c')) (by_class c d)).
Proof.
  intros Hne. unfold hidden. rewrite !by_class_update; [done|..].
  - intros x. rewrite has_class_remove_class.
    by rewrite (bool_decide_eq_false_2 (c = c')), andb_true_r.
  - intros x. apply has_class_set_attr.
Qed.

Lemma closed_after_hide c e e' :
  has_class c (at_node (node e') (set_attr "aria-hidden" "true")
                 (at_node (node e) (remove_class c) e)) = false.
Proof.
  rewrite has_class_at_node by (intros; apply has_class_set_attr).
  rewrite at_node_self, has_class_remove_class.
  by rewrite (bool_decide_eq_true_2 (c = c)), andb_false_r.
Qed.

End OverlayFacts.

(** C5, as stated, fails: closing the notification panel of the sample
    page, which is closed and where nothing holds focus, puts focus on the
    panel's button and publishes [notificationModalClosed]; likewise for the
    account menu. *)
Lemma close_when_closed_is_not_a_no_op :
  is_open NotificationPanel (document Sample.state) = Some false ∧
  activeElement Sample.state = None ∧
  activeElement (exec (close NotificationPanel) Sample.state) = Some 3%nat ∧
  events Sample.state = [] ∧
  events (exec (close NotificationPanel) Sample.state)
    = [{| name := "notificationModalClosed"; detail := Stamp |}] ∧
  is_open AccountMenu (document Sample.state) = Some false ∧
  activeElement (exec (close AccountMenu) Sample.state) = Some 7%nat ∧
  events (exec (close AccountMenu) Sample.state)
    = [{| name := "userDropdownClosed"; detail := Stamp |}].
Proof. split_and!; vm_compute; reflexivity. Qed.

(** C5, amended. Closing a surface that is already closed raises no error
    and leaves the surface closed and the configuration untouched, but it is
    not a no-op: it still publishes the surface's Closed event and, when the
    control that opens the surface is on the page, moves focus to it. *)
Theorem close_when_closed (x : Surface) (s : State) :
  is_open x (document s) = Some false →
  let s' := exec (close x) s in
  outcome (close x) s = Ok () ∧
  is_open x (document s') = Some false ∧
  config s' = config s ∧
  events s' = events s ++ [closed_event x] ∧
  activeElement s' = match by_id (trigger_id x) (document s) with
                     | Some trigger => Some (node trigger)
                     | None => activeElement s
                     end.
Proof.
  intros Hclosed s'. subst s'. unfold exec, outcome. destruct x; simpl in Hclosed |- *.
  - destruct (by_id "notification-modal" (document s)) as [m|] eqn:Hm; [|done].
    rewrite (closeNotificationModal_run _ _ Hm). simpl. split_and!; try done.
    rewrite by_id_hidden, Hm. simpl. by rewrite closed_after_hide.
  - destruct (head (by_class "user-dropdown" (document s))) as [u|] eqn:Hu; [|done].
    destruct (by_id "user-dropdown-menu" (document s)) as [menu|] eqn:Hmenu; [|done].
    rewrite (closeUserDropdown_run _ _ _ Hu Hmenu). simpl. split_and!; try done.
    rewrite by_id_hidden, Hmenu, by_class_hidden by done. simpl.
    rewrite !head_map, Hu. simpl. by rewrite closed_after_hide.
  - destruct (by_id "email-modal" (document s)) as [m|] eqn:Hm; [|done].
    rewrite (closeEmailModal_run _ _ Hm). simpl. split_and!; try done.
    rewrite by_id_hidden, Hm. simpl. by rewrite closed_after_hide.
Qed.

Lemma close_when_closed_witness :
  is_open AccountMenu (document Sample.state) = Some false ∧
  outcome (close AccountMenu) Sample.state = Ok () ∧
  is_open AccountMenu (document (exec (close AccountMenu) Sample.state)) = Some false ∧
  events (exec (close AccountMenu) Sample.state)
    = events Sample.state ++ [closed_event AccountMenu].
Proof.
  assert (is_open AccountMenu (document Sample.state) = Some false) as H
    by (vm_compute; reflexivity).
  split; [exact H|].
  destruct (close_when_closed AccountMenu Sample.state H) as (H1 & H2 & _ & H4 & _).
  split; [exact H1|]. split; [exact H2|exact H4].
Defined.

(** ** Activation and removal *)

(** C1. Activating an id that resolves to no button or no panel is
    reported as [dashboardError] with context [tab-activation] and throws
    nothing, but the selection is not left as it was: [activateTab] clears
    the active markers before it looks for the target, so a failed
    activation leaves no tab active. On the sample page, where tab 1 is
    active, activating the unknown tab 99 ends with one error event and
    without any active marker. *)
Theorem failed_activation_clears_selection :
  let s' := exec (activateTab (VNum 99)) Sample.state in
  by_id (button_id (VNum 99)) (document Sample.state) = None ∧
  by_id (panel_id (VNum 99)) (document Sample.state) = None ∧
  outcome getActiveTabId Sample.state = Ok (VNum 1) ∧
  outcome (activateTab (VNum 99)) Sample.state = Ok () ∧
  events s' = [{| name := "dashboardError";
                  detail := ErrorInfo (Error "Tab elements not found for ID: 99")
                                      "tab-activation" |}] ∧
  outcome getActiveTabId s' = Ok VNull ∧
  by_class "tab-navigation__button--active" (document s') = [] ∧
  by_class "tab-content--active" (document s') = [].
Proof. intros s'. split_and!; vm_compute; reflexivity. Qed.

Section RemoveFacts.

(** With one descriptor left, [removeTab] reports an error and changes
    nothing else. *)
Lemma removeTab_last s tabId :
  (length (tabs (config s)) ≤ 1)%nat →
  removeTab tabId s =
    (Ok (), set_events
       (events s ++ [{| name := "dashboardError";
                        detail := ErrorInfo (Error "Cannot remove the last remaining tab")
                                            "tab-remove" |}]) s).
Proof.
  intros Hlen. unfold removeTab, try_catch. rewrite run_gets.
  rewrite bool_decide_eq_true_2 by done. reflexivity.
Qed.

End RemoveFacts.

(** C3. With one descriptor left, [removeTab] reports an error and changes
    nothing else. With several left, removing the active tab does not make
    the first remaining tab active: [removeTab] asks which tab is active
    only after it has taken the button of the removed tab off the page, so
    the answer is never the removed tab. On the sample page, removing the
    active tab 1 leaves tabs 2 to 6 with no active tab and publishes no
    [tabChanged]. *)
Theorem removing_active_tab_leaves_none_active :
  let single := set_config (set_tabs (take 1 (tabs Defaults.config)) Defaults.config)
                  Sample.state in
  let s1 := exec (removeTab (VNum 1)) single in
  let s' := exec (removeTab (VNum 1)) Sample.state in
  (map (λ tab, field tab "id") (tabs (config s1)) = [VNum 1] ∧
   by_class "tab-navigation__button--active" (document s1)
     = by_class "tab-navigation__button--active" (document single) ∧
   events s1 = [{| name := "dashboardError";
                   detail := ErrorInfo (Error "Cannot remove the last remaining tab")
                                       "tab-remove" |}]) ∧
  outcome getActiveTabId Sample.state = Ok (VNum 1) ∧
  map (λ tab, field tab "id") (tabs (config s'))
    = [VNum 2; VNum 3; VNum 4; VNum 5; VNum 6] ∧
  events s' = [{| name := "tabRemoved"; detail := TabRemoved (VNum 1) |}] ∧
  outcome getActiveTabId s' = Ok VNull ∧
  by_class "tab-navigation__button--active" (document s') = [] ∧
  by_class "tab-content--active" (document s') = [].
Proof. intros single s1 s'. split_and!; vm_compute; reflexivity. Qed.

(** ** Removing a tab that is not the active one *)

Section RemoveInactive.

Lemma leaf_at_prune n m t : leaf_at n t = true → leaf_at n (prune m t) = true.
Proof.
  induction t as [e kids IH] using Node_rect_forall. simpl.
  intros [He Hk]%andb_prop. apply andb_true_intro. split.
  - case_bool_decide; [|done]. apply bool_decide_eq_true_1 in He. by subst kids.
  - clear He. induction IH as [|k kids Hk1 _ IHk]; simpl; [done|].
    simpl in Hk. apply andb_prop in Hk as [Hk2 Hk3].
    case_bool_decide; simpl; [by apply IHk|].
    rewrite Hk1 by done. by apply IHk.
Qed.

Lemma leaf_at_prune_all n m d :
  forallb (leaf_at n) d = true → forallb (leaf_at n) (prune_all m d) = true.
Proof.
  unfold prune_all. induction d as [|t d IH]; simpl; [done|].
  intros [Ht Hd]%andb_prop. case_bool_decide; simpl; [by apply IH|].
  rewrite leaf_at_prune by done. by apply IH.
Qed.

Lemma node_inj (l : list Element) a b :
  NoDup (map node l) → a ∈ l → b ∈ l → node a = node b → a = b.
Proof.
  intros Hnd [i Hi]%list_elem_of_lookup [j Hj]%list_elem_of_lookup Hab.
  assert (i = j) as ->; [|congruence].
  eapply NoDup_lookup; [exact Hnd| |].
  - by rewrite list_lookup_fmap, Hi.
  - by rewrite list_lookup_fmap, Hj, Hab.
Qed.

Lemma by_class_prune c n d :
  forallb (leaf_at n) d = true →
  by_class c (prune_all n d) = filter (λ e, node e ≠ n) (by_class c d).
Proof.
  intros Hl. unfold by_class. rewrite all_elements_prune by done.
  rewrite !list_filter_filter. apply list_filter_iff. intros x. tauto.
Qed.

Lemma by_id_elem i d e : by_id i d = Some e → e ∈ all_elements d ∧ el_id e = i.
Proof.
  unfold by_id. intros [l Hl]%head_Some.
  assert (e ∈ filter (λ e, has_id i e = true) (all_elements d)) as He
    by (rewrite Hl; by left).
  apply list_elem_of_filter in He as [Hid He]. split; [done|].
  unfold has_id in Hid. by apply bool_decide_eq_true_1 in Hid.
Qed.

Lemma by_class_head_elem c d e : head (by_class c d) = Some e → e ∈ all_elements d.
Proof.
  unfold by_class. intros [l Hl]%head_Some.
  assert (e ∈ filter (λ e, has_class c e = true) (all_elements d)) as He
    by (rewrite Hl; by left).
  by apply list_elem_of_filter in He as [_ He].
Qed.

(** An element whose id is that of the tab's button or panel is not the
    first active button unless the tab is the active one. *)
Lemma first_active_is_other (d : list Node) (z : Z) (b a : Element) :
  0 ≤ z → NoDup (nodes d) →
  active_tab d ≠ VNum z →
  b ∈ all_elements d →
  el_id b = button_id (VNum z) ∨ el_id b = panel_id (VNum z) →
  head (by_class "tab-navigation__button--active" d) = Some a →
  node a ≠ node b.
Proof.
  intros Hz Hnd Hact Hb Hid Ha Hab.
  assert (a = b) as -> by (eapply node_inj; [exact Hnd|by eapply by_class_head_elem|done..]).
  apply Hact. unfold active_tab. rewrite Ha.
  destruct Hid as [-> | ->]; [by apply extractTabId_button_id|by apply extractTabId_panel_id].
Qed.

Lemma removeTab_run s tabId i :
  (1 < length (tabs (config s)))%nat →
  findIndex tabId (tabs (config s)) = Some i →
  let s0 := set_config (set_tabs (delete i (tabs (config s))) (config s)) s in
  let s2 := remove_opt (by_id (panel_id tabId) (document s))
              (remove_opt (by_id (button_id tabId) (document s)) s0) in
  strict_eq (active_tab (document s2)) tabId = false →
  removeTab tabId s =
    (Ok (), set_events (events s2 ++ [{| name := "tabRemoved";
                                          detail := TabRemoved tabId |}]) s2).
Proof.
  intros Hlen Hfind s0 s2 Hact. unfold removeTab, try_catch. rewrite run_gets.
  rewrite bool_decide_eq_false_2 by lia.
  unfold mbind at 1. unfold M_bind at 1. unfold mret at 1. unfold M_ret at 1.
  rewrite Hfind.
  unfold mbind at 1. unfold M_bind at 1. unfold modify at 1.
  fold s0.
  unfold getElementById. rewrite run_gets, run_gets.
  change (document s0) with (document s).
  assert (∀ (o : option Element) (k : M unit) st,
            (from_option remove (mret ()) o ;; k) st = k (remove_opt o st)) as Hrm
    by (by intros [e|] k st).
  rewrite !Hrm. fold s2.
  unfold mbind at 1. unfold M_bind at 1. rewrite getActiveTabId_run, Hact.
  reflexivity.
Qed.

Lemma document_remove_opt o s :
  document (remove_opt o s) = from_option (λ e, prune_all (node e)) id o (document s).
Proof. by destruct o. Qed.

Lemma events_remove_opt o s : events (remove_opt o s) = events s.
Proof. by destruct o. Qed.

Lemma config_remove_opt o s : config (remove_opt o s) = config s.
Proof. by destruct o. Qed.

End RemoveInactive.

Section RemoveInactiveMain.

Lemma strict_eq_num_false v z : v ≠ VNum z → strict_eq v (VNum z) = false.
Proof.
  intros Hv. destruct v; try done. simpl. apply bool_decide_eq_false_2. congruence.
Qed.

End RemoveInactiveMain.

(** ** Taking a subtree off the page *)

#[global] Instance Element_eq_dec : EqDecision Element.
Proof. solve_decision. Defined.

Section Pruning.

Lemma prune_sublist n t : elements (prune n t) `sublist_of` elements t.
Proof.
  induction t as [e kids IH] using Node_rect_forall. cbn [prune elements].
  apply sublist_skip.
  induction IH as [|k kids Hk _ IHk]; [done|].
  cbn [map concat]. case_bool_decide.
  - cbn [concat app]. by apply sublist_inserts_l.
  - cbn [concat app map]. by apply sublist_app.
Qed.

Lemma prune_all_sublist n d :
  all_elements (prune_all n d) `sublist_of` all_elements d.
Proof.
  unfold all_elements, prune_all. induction d as [|t d IH]; [done|].
  cbn [map concat]. case_bool_decide.
  - cbn [concat app]. by apply sublist_inserts_l.
  - cbn [concat app map]. apply sublist_app; [apply prune_sublist|done].
Qed.

(** The page is made of what stays and what leaves. *)
Lemma prune_split n t :
  node (root t) ≠ n → elements t ≡ₚ elements (prune n t) ++ below n t.
Proof.
  induction t as [e kids IH] using Node_rect_forall. cbn [root]. intros Hroot.
  cbn [prune elements below]. rewrite bool_decide_eq_false_2 by done.
  cbn [app]. apply Permutation_skip.
  clear Hroot. induction IH as [|k kids Hk _ IHk]; [done|].
  cbn [map concat]. rewrite IHk. case_bool_decide as Hk'.
  - cbn [concat app]. destruct k as [e' ks]. cbn [root] in Hk'. cbn [below].
    rewrite bool_decide_eq_true_2 by done.
    rewrite !app_assoc. apply Permutation_app_tail, Permutation_app_comm.
  - cbn [concat app map]. rewrite (Hk Hk'), <- !app_assoc.
    apply Permutation_app_head. rewrite !app_assoc.
    apply Permutation_app_tail, Permutation_app_comm.
Qed.

Lemma prune_all_split n d :
  all_elements d ≡ₚ all_elements (prune_all n d) ++ subtree n d.
Proof.
  unfold all_elements, prune_all, subtree. induction d as [|t d IH]; [done|].
  cbn [map concat]. rewrite IH. case_bool_decide as Ht.
  - cbn [concat app]. destruct t as [e ks]. cbn [root] in Ht. cbn [below].
    rewrite bool_decide_eq_true_2 by done.
    rewrite !app_assoc. apply Permutation_app_tail, Permutation_app_comm.
  - cbn [concat app map]. rewrite (prune_split n t Ht), <- !app_assoc.
    apply Permutation_app_head. rewrite !app_assoc.
    apply Permutation_app_tail, Permutation_app_comm.
Qed.

Lemma sublist_filter_elem {A} `{!EqDecision A} (l' l : list A) :
  l' `sublist_of` l → NoDup l → l' = filter (λ x, x ∈ l') l.
Proof.
  induction 1 as [|x l1 l2 Hs IH|x l1 l2 Hs IH]; intros Hnd.
  - done.
  - apply NoDup_cons in Hnd as [Hx Hnd].
    rewrite filter_cons_True by (by left). f_equal.
    rewrite (IH Hnd) at 1. apply filter_ext_in. intros y Hy.
    rewrite elem_of_cons. split; [by right|]. intros [->|Hy']; [done|done].
  - apply NoDup_cons in Hnd as [Hx Hnd].
    rewrite filter_cons_False; [by apply IH|].
    intros Hx'. apply Hx. by eapply elem_of_sublist.
Qed.

Lemma all_elements_prune_all n d :
  NoDup (nodes d) →
  all_elements (prune_all n d) = filter (outside n d) (all_elements d).
Proof.
  intros Hnd. unfold nodes in Hnd.
  pose proof (prune_all_split n d) as Hp.
  assert (NoDup (all_elements d)) as Hnd' by (by eapply NoDup_fmap_1).
  rewrite (sublist_filter_elem _ _ (prune_all_sublist n d) Hnd') at 1.
  apply filter_ext_in. intros x Hx. unfold outside.
  assert (NoDup (map node (all_elements (prune_all n d)) ++ map node (subtree n d)))
    as Hsplit by (rewrite <- map_app, <- Hp; exact Hnd).
  apply NoDup_app in Hsplit as (_ & Hdisj & _). split.
  - intros Hk. apply Hdisj, list_elem_of_fmap. by exists x.
  - intros Hout. rewrite Hp in Hx. apply elem_of_app in Hx as [Hx|Hx]; [done|].
    destruct Hout. apply list_elem_of_fmap. by exists x.
Qed.

Lemma nodes_prune_all n d : NoDup (nodes d) → NoDup (nodes (prune_all n d)).
Proof.
  unfold nodes. intros Hnd. eapply sublist_NoDup; [exact Hnd|].
  apply (fmap_sublist node), prune_all_sublist.
Qed.

(** What lies below [n] after [m] was taken off lay below [n] before. *)
Lemma below_prune n m t x : x ∈ below n (prune m t) → x ∈ below n t.
Proof.
  induction t as [e kids IH] using Node_rect_forall.
  cbn [prune below]. case_bool_decide as He.
  - intros Hx. eapply elem_of_sublist; [exact Hx|].
    apply (prune_sublist m (Elem e kids)).
  - induction IH as [|k kids Hk _ IHk]; [done|].
    cbn [map concat]. case_bool_decide.
    + cbn [concat app]. intros Hx. apply elem_of_app. right. by apply IHk.
    + cbn [concat app map]. intros [Hx|Hx]%elem_of_app; apply elem_of_app;
        [left; by apply Hk|right; by apply IHk].
Qed.

Lemma subtree_prune_all n m d x : x ∈ subtree n (prune_all m d) → x ∈ subtree n d.
Proof.
  unfold subtree, prune_all. induction d as [|t d IH]; [done|].
  cbn [map concat]. case_bool_decide.
  - cbn [concat app]. intros Hx. apply elem_of_app. right. by apply IH.
  - cbn [concat app map]. intros [Hx|Hx]%elem_of_app; apply elem_of_app;
      [left; by eapply below_prune|right; by apply IH].
Qed.

(** What lay below [n] and not below [m] still lies below [n] after [m]
    was taken off. *)
Lemma below_cover n m t x :
  node (root t) ≠ m → x ∈ below n t → x ∈ below m t ∨ x ∈ below n (prune m t).
Proof.
  induction t as [e kids IH] using Node_rect_forall. cbn [root]. intros Hroot.
  cbn [prune below]. rewrite (bool_decide_eq_false_2 (node e = m)) by done.
  case_bool_decide as He.
  - intros Hx.
    assert (elements (Elem e kids) ≡ₚ elements (prune m (Elem e kids)) ++
                                      below m (Elem e kids)) as Hp
      by (by apply prune_split).
    rewrite Hp in Hx. cbn [prune below] in Hx.
    rewrite (bool_decide_eq_false_2 (node e = m)) in Hx by done.
    apply elem_of_app in Hx as [Hx|Hx]; [by right|by left].
  - clear Hroot. induction IH as [|k kids Hk _ IHk]; [intros Hx; by left|].
    cbn [map concat]. intros [Hx|Hx]%elem_of_app.
    + case_bool_decide as Hk'.
      * left. apply elem_of_app. left. destruct k as [e' ks]. cbn [root] in Hk'.
        cbn [below]. rewrite bool_decide_eq_true_2 by done.
        by eapply below_elements.
      * destruct (Hk Hk' Hx) as [Hm|Hn].
        -- left. apply elem_of_app. by left.
        -- right. cbn [concat app map]. apply elem_of_app. by left.
    + destruct (IHk Hx) as [Hm|Hn].
      * left. apply elem_of_app. by right.
      * right. case_bool_decide; cbn [concat app map]; [done|].
        apply elem_of_app. by right.
Qed.

Lemma subtree_cover n m d x :
  x ∈ subtree n d → x ∈ subtree m d ∨ x ∈ subtree n (prune_all m d).
Proof.
  unfold subtree, prune_all. induction d as [|t d IH]; [intros Hx; by left|].
  cbn [map concat]. intros [Hx|Hx]%elem_of_app.
  - case_bool_decide as Ht.
    + left. apply elem_of_app. left. destruct t as [e ks]. cbn [root] in Ht.
      cbn [below]. rewrite bool_decide_eq_true_2 by done. by eapply below_elements.
    + destruct (below_cover n m t x Ht Hx) as [Hm|Hn].
      * left. apply elem_of_app. by left.
      * right. cbn [concat app map]. apply elem_of_app. by left.
  - destruct (IH Hx) as [Hm|Hn].
    + left. apply elem_of_app. by right.
    + right. case_bool_decide; cbn [concat app map]; [done|].
      apply elem_of_app. by right.
Qed.

(** Two removals in a row take off the two subtrees of the page they
    started from. *)
Lemma all_elements_prune_twice n m d :
  NoDup (nodes d) →
  all_elements (prune_all n (prune_all m d))
  = filter (λ x, node x ∉ node <$> (subtree m d ++ subtree n d)) (all_elements d).
Proof.
  intros Hnd.
  rewrite all_elements_prune_all by (by apply nodes_prune_all).
  rewrite (all_elements_prune_all m d Hnd), list_filter_filter.
  apply filter_ext_in. intros x Hx. unfold outside.
  rewrite fmap_app, not_elem_of_app.
  assert (node x ∉ node <$> subtree m d →
          node x ∈ node <$> subtree n (prune_all m d) ↔ node x ∈ node <$> subtree n d)
    as Hiff; [|tauto].
  intros Hm. split.
  - intros (y & Hy & Hin)%list_elem_of_fmap. apply list_elem_of_fmap.
    exists y. split; [done|]. by eapply subtree_prune_all.
  - intros (y & Hy & Hin)%list_elem_of_fmap.
    assert (y = x) as ->.
    { eapply (node_inj (all_elements d)); [exact Hnd|by eapply subtree_elements|done..]. }
    destruct (subtree_cover n m d x Hin) as [Hin'|Hin'].
    + destruct Hm. apply list_elem_of_fmap. by exists x.
    + apply list_elem_of_fmap. by exists x.
Qed.

Lemma head_filter_filter {A} (P Q : A → Prop) `{!∀ x, Decision (P x)}
    `{!∀ x, Decision (Q x)} (l : list A) :
  (∀ a, head (filter Q l) = Some a → P a) →
  head (filter Q (filter P l)) = head (filter Q l).
Proof.
  induction l as [|x l IH]; [done|]. intros Ha.
  rewrite (filter_cons Q x l) in *. destruct (decide (Q x)) as [HQ|HQ].
  - rewrite filter_cons_True by (by apply Ha). by rewrite filter_cons_True.
  - rewrite filter_cons. destruct (decide (P x)); [rewrite filter_cons_False by done|];
      by apply IH.
Qed.

End Pruning.

Section RemoveSubtrees.

Lemma all_elements_remove_opt_subtree o s :
  NoDup (nodes (document s)) →
  all_elements (document (remove_opt o s))
  = filter (λ x, node x ∉ node <$> from_option (λ e, subtree (node e) (document s)) [] o)
      (all_elements (document s)).
Proof.
  intros Hnd. destruct o as [e|]; cbn [from_option].
  - by apply all_elements_prune_all.
  - symmetry. cbn [remove_opt]. induction (all_elements (document s)) as [|x l IH]; [done|].
    rewrite filter_cons_True by apply not_elem_of_nil. by rewrite IH.
Qed.

Lemma removed_unfold tabId d :
  removed tabId d
  = from_option (λ e, subtree (node e) d) [] (by_id (button_id tabId) d) ++
    from_option (λ e, subtree (node e) d) [] (by_id (panel_id tabId) d).
Proof.
  unfold removed, removed_nodes.
  destruct (by_id (button_id tabId) d), (by_id (panel_id tabId) d);
    simpl; by rewrite ?app_nil_r.
Qed.

(** The page after the button and the panel of a tab have been removed. *)
Lemma all_elements_removed tabId s :
  NoDup (nodes (document s)) →
  all_elements (document
    (remove_opt (by_id (panel_id tabId) (document s))
       (remove_opt (by_id (button_id tabId) (document s)) s)))
  = filter (λ x, node x ∉ node <$> removed tabId (document s)) (all_elements (document s)).
Proof.
  intros Hnd. rewrite removed_unfold.
  destruct (by_id (button_id tabId) (document s)) as [b|],
           (by_id (panel_id tabId) (document s)) as [p|]; cbn [from_option].
  - by apply all_elements_prune_twice.
  - rewrite app_nil_r. by apply (all_elements_remove_opt_subtree (Some b)).
  - by apply (all_elements_remove_opt_subtree (Some p)).
  - by apply (all_elements_remove_opt_subtree None).
Qed.

End RemoveSubtrees.

(** C10. When [removeTab] passes its checks (more than one descriptor, a
    descriptor with that id) and the tab is not the active one, the call
    takes the descriptor out of the configuration and the tab's button and
    panel, each with everything inside it, off the page, publishes
    [tabRemoved] and nothing else, and leaves the active tab and every
    remaining element as they were: no tab is activated anew. The page is
    assumed well formed: no two elements are the same object, and the
    active button does not lie inside the button or the panel that is
    removed. *)
Theorem removeTab_inactive_keeps_selection (s : State) (z : Z) (i : nat) :
  0 ≤ z → safe_integer z →
  (1 < length (tabs (config s)))%nat →
  findIndex (VNum z) (tabs (config s)) = Some i →
  NoDup (nodes (document s)) →
  (∀ a, head (by_class "tab-navigation__button--active" (document s)) = Some a →
        a ∈ removed (VNum z) (document s) →
        node a ∈ removed_nodes (VNum z) (document s)) →
  outcome getActiveTabId s ≠ Ok (VNum z) →
  let s' := exec (removeTab (VNum z)) s in
  outcome (removeTab (VNum z)) s = Ok () ∧
  tabs (config s') = delete i (tabs (config s)) ∧
  events s' = events s ++ [{| name := "tabRemoved"; detail := TabRemoved (VNum z) |}] ∧
  outcome getActiveTabId s' = outcome getActiveTabId s ∧
  all_elements (document s')
    = filter (λ e, node e ∉ node <$> removed (VNum z) (document s))
        (all_elements (document s)).
Proof.
  intros Hz _ Hlen Hfind Hnd Hmark Hact s'.
  unfold outcome in Hact. rewrite getActiveTabId_run in Hact. simpl in Hact.
  assert (active_tab (document s) ≠ VNum z) as Hact' by congruence. clear Hact.
  set (s0 := set_config (set_tabs (delete i (tabs (config s))) (config s)) s).
  set (ob := by_id (button_id (VNum z)) (document s)).
  set (op := by_id (panel_id (VNum z)) (document s)).
  set (s2 := remove_opt op (remove_opt ob s0)).
  assert (all_elements (document s2)
          = filter (λ e, node e ∉ node <$> removed (VNum z) (document s))
              (all_elements (document s))) as Hpage
    by (apply (all_elements_removed (VNum z) s0); exact Hnd).
  assert (∀ a, head (by_class "tab-navigation__button--active" (document s)) = Some a →
               node a ∉ node <$> removed (VNum z) (document s)) as Hout.
  { intros a Ha (y & Hy & Hin)%list_elem_of_fmap.
    assert (a ∈ all_elements (document s)) as Hain by (by eapply by_class_head_elem).
    assert (y ∈ all_elements (document s)) as Hyin.
    { rewrite removed_unfold in Hin. apply elem_of_app in Hin as [Hin|Hin];
        [destruct (by_id (button_id (VNum z)) (document s))
        |destruct (by_id (panel_id (VNum z)) (document s))];
        cbn [from_option] in Hin;
        first [by eapply subtree_elements | by apply elem_of_nil in Hin]. }
    assert (y = a) as -> by (by eapply node_inj).
    specialize (Hmark a Ha Hin). unfold removed_nodes in Hmark. fold ob op in Hmark.
    apply elem_of_app in Hmark as [Hm|Hm].
    - destruct ob as [b|] eqn:Eb; [|by apply elem_of_nil in Hm].
      apply list_elem_of_singleton in Hm.
      destruct (by_id_elem _ _ _ Eb) as [Hb Hid].
      exact (first_active_is_other (document s) z b a Hz Hnd Hact' Hb (or_introl Hid) Ha Hm).
    - destruct op as [p|] eqn:Ep; [|by apply elem_of_nil in Hm].
      apply list_elem_of_singleton in Hm.
      destruct (by_id_elem _ _ _ Ep) as [Hp Hid].
      exact (first_active_is_other (document s) z p a Hz Hnd Hact' Hp (or_intror Hid) Ha Hm). }
  assert (active_tab (document s2) = active_tab (document s)) as Hsame.
  { unfold active_tab, by_class. rewrite Hpage.
    by rewrite (head_filter_filter _ _ (all_elements (document s)) Hout). }
  assert (strict_eq (active_tab (document s2)) (VNum z) = false) as Hne
    by (rewrite Hsame; by apply strict_eq_num_false).
  subst s'. unfold outcome, exec.
  rewrite (removeTab_run s (VNum z) i Hlen Hfind Hne). fold s0 ob op s2. simpl.
  split; [done|]. split; [|split; [|split]].
  - unfold s2. by rewrite !config_remove_opt.
  - unfold s2. by rewrite !events_remove_opt.
  - rewrite !getActiveTabId_run. unfold set_events. cbn [document fst]. by rewrite Hsame.
  - exact Hpage.
Qed.

Section SampleFacts.

Lemma sample_page_NoDup : NoDup (nodes (document Sample.state)).
Proof. apply (bool_decide_unpack _). vm_compute. exact I. Qed.

End SampleFacts.

Lemma removeTab_inactive_keeps_selection_witness :
  let s := set_document
             (map (graft 32 (Elem (Sample.el 40 EmptyString ["tab-content__heading"]) []))
                Sample.page) Sample.state in
  let s' := exec (removeTab (VNum 2)) s in
  0 ≤ 2 ∧ safe_integer 2 ∧
  (1 < length (tabs (config s)))%nat ∧
  findIndex (VNum 2) (tabs (config s)) = Some 1%nat ∧
  NoDup (nodes (document s)) ∧
  node <$> removed (VNum 2) (document s) = [22; 32; 40]%nat ∧
  outcome getActiveTabId s ≠ Ok (VNum 2) ∧
  outcome getActiveTabId s' = outcome getActiveTabId s ∧
  events s' = events s ++ [{| name := "tabRemoved"; detail := TabRemoved (VNum 2) |}] ∧
  nodes (document s')
    = [0; 1; 2; 3; 4; 5; 6; 7; 8; 9; 10; 20; 21; 23; 24; 25; 26;
       30; 31; 33; 34; 35; 36]%nat.
Proof.
  intros s s'.
  assert (1 < length (tabs (config s)))%nat as Hlen by (simpl; lia).
  assert (findIndex (VNum 2) (tabs (config s)) = Some 1%nat) as Hfind
    by (vm_compute; reflexivity).
  assert (NoDup (nodes (document s))) as Hnd
    by (apply (bool_decide_unpack _); vm_compute; exact I).
  assert (node <$> removed (VNum 2) (document s) = [22; 32; 40]%nat) as Hrem
    by (vm_compute; reflexivity).
  assert (outcome getActiveTabId s ≠ Ok (VNum 2)) as Hact
    by (vm_compute; discriminate).
  assert (∀ a, head (by_class "tab-navigation__button--active" (document s)) = Some a →
               a ∈ removed (VNum 2) (document s) →
               node a ∈ removed_nodes (VNum 2) (document s)) as Hmark.
  { intros a Ha Hin.
    assert (node <$> head (by_class "tab-navigation__button--active" (document s))
            = Some 21%nat) as Hfirst by (vm_compute; reflexivity).
    rewrite Ha in Hfirst. injection Hfirst as Hfirst.
    apply (list_elem_of_fmap_2 node) in Hin. rewrite Hrem, Hfirst in Hin.
    repeat (apply elem_of_cons in Hin as [Hin|Hin]; [discriminate Hin|]).
    by apply elem_of_nil in Hin. }
  destruct (removeTab_inactive_keeps_selection s 2 1 ltac:(lia) ltac:(by split)
              Hlen Hfind Hnd Hmark Hact) as (_ & _ & Hev & Hsel & Hpage).
  split; [lia|]. split; [by split|]. split; [exact Hlen|]. split; [exact Hfind|].
  split; [exact Hnd|]. split; [exact Hrem|]. split; [exact Hact|].
  split; [exact Hsel|]. split; [exact Hev|].
  unfold nodes, s'. rewrite Hpage. vm_compute. reflexivity.
Defined.

(** ** What a failed activation leaves behind *)

Section ActivationFacts.

Lemma forEach_on_element (l : list Element) (f : Element → Element) s :
  forEach l (λ e, on_element e f) s =
    (Ok (), set_detached (map (sweep l f) (detached s))
              (set_document
                 (fold_left (λ d e, map (update (node e) f) d) l (document s)) s)).
Proof.
  revert s. induction l as [|e l IH]; intros s.
  - simpl. unfold mret, M_ret, sweep. simpl. rewrite map_id. by destruct s.
  - simpl. unfold mbind, M_bind, on_element, modify. rewrite IH. simpl.
    unfold set_detached, set_document. simpl. f_equal. f_equal.
    rewrite map_map. apply map_ext. intros x. reflexivity.
Qed.

Lemma all_elements_sweep (l : list Element) f d :
  all_elements (fold_left (λ d e, map (update (node e) f) d) l d)
  = map (sweep l f) (all_elements d).
Proof.
  revert d. induction l as [|e l IH]; intros d; simpl.
  - unfold sweep. simpl. by rewrite map_id.
  - rewrite IH, all_elements_update, map_map. apply map_ext. intros x. reflexivity.
Qed.

Lemma sweep_preserves (P : Element → Prop) l f x :
  (∀ y, P y → P (f y)) → P x → P (sweep l f x).
Proof.
  intros Hf. unfold sweep. revert x. induction l as [|e l IH]; intros x Hx; simpl; [done|].
  apply IH. unfold at_node. case_bool_decide; [by apply Hf|done].
Qed.

Lemma sweep_node l f x : (∀ y, node (f y) = node y) → node (sweep l f x) = node x.
Proof.
  intros Hf. unfold sweep. revert x. induction l as [|e l IH]; intros x; simpl; [done|].
  by rewrite IH, at_node_node.
Qed.

Lemma sweep_el_id l f x : (∀ y, el_id (f y) = el_id y) → el_id (sweep l f x) = el_id x.
Proof.
  intros Hf. unfold sweep. revert x. induction l as [|e l IH]; intros x; simpl; [done|].
  by rewrite IH, at_node_el_id.
Qed.

Lemma sweep_has_class c l f x :
  (∀ y, has_class c (f y) = has_class c y) → has_class c (sweep l f x) = has_class c x.
Proof.
  intros Hf. unfold sweep. revert x. induction l as [|e l IH]; intros x; simpl; [done|].
  by rewrite IH, has_class_at_node.
Qed.

(** An element that is among the swept ones has been rewritten. *)
Lemma sweep_hits (P : Element → Prop) l f x :
  (∀ y, node (f y) = node y) → (∀ y, P (f y)) → (∀ y, P y → P (f y)) →
  node x ∈ map node l → P (sweep l f x).
Proof.
  intros Hn Hf Hp. unfold sweep. revert x.
  induction l as [|e l IH]; intros x Hx; simpl in *; [by apply elem_of_nil in Hx|].
  destruct (decide (node x = node e)) as [Heq|Hne].
  - apply (sweep_preserves P l f); [done|].
    unfold at_node. by rewrite bool_decide_eq_true_2.
  - apply IH. rewrite at_node_node by done.
    apply elem_of_cons in Hx as [?|?]; [congruence|done].
Qed.

Lemma has_class_clear_button c e :
  has_class c (clear_button e)
  = has_class c e && negb (bool_decide (c = "tab-navigation__button--active")).
Proof. unfold clear_button. by rewrite has_class_set_attr, has_class_remove_class. Qed.


Lemma at_node_compose n f g x :
  (∀ y, node (f y) = node y) → at_node n g (at_node n f x) = at_node n (g ∘ f) x.
Proof.
  intros Hf. unfold at_node. destruct (decide (node x = n)) as [Hx|Hx].
  - rewrite (bool_decide_eq_true_2 _ Hx).
    assert (node (f x) = n) as Hfx by (by rewrite Hf).
    by rewrite (bool_decide_eq_true_2 _ Hfx).
  - rewrite (bool_decide_eq_false_2 _ Hx). by rewrite (bool_decide_eq_false_2 _ Hx).
Qed.

Lemma update_compose n f g t :
  (∀ y, node (f y) = node y) → update n g (update n f t) = update n (g ∘ f) t.
Proof.
  intros Hf. induction t as [e kids IH] using Node_rect_forall. simpl.
  rewrite at_node_compose by done. f_equal.
  induction IH as [|k kids Hk _ IHk]; simpl; [done|]. by rewrite Hk, IHk.
Qed.

Lemma on_element_twice_compose e f g s :
  (∀ y, node (f y) = node y) →
  (on_element e f ;; on_element e g) s = on_element e (g ∘ f) s.
Proof.
  intros Hf. unfold mbind, M_bind, on_element, modify. simpl.
  unfold set_detached, set_document. simpl. f_equal. f_equal.
  - rewrite map_map. apply map_ext. intros t. by apply update_compose.
  - rewrite map_map. apply map_ext. intros x. by apply at_node_compose.
Qed.

Lemma forEach_ext {A} (l : list A) (f g : A → M unit) s :
  (∀ a st, f a st = g a st) → forEach l f s = forEach l g s.
Proof.
  intros Hfg. revert s. induction l as [|a l IH]; intros s; simpl; [done|].
  unfold mbind, M_bind. rewrite Hfg. destruct (g a s) as [[[]|err] st]; [apply IH|done].
Qed.

Lemma activateTab_run tabId s :
  activateTab tabId s =
    match by_id (button_id tabId) (document (cleared s)),
          by_id (panel_id tabId) (document (cleared s)) with
    | Some activeButton, Some activeContent =>
        try_catch (
          on_element activeButton (add_class "tab-navigation__button--active");;
          on_element activeButton (set_attr "aria-selected" "true");;
          on_element activeContent (add_class "tab-content--active");;
          l ← gets (λ s, tabs (config s));
          dispatchCustomEvent "tabChanged"
            (TabChanged tabId
               (match find_tab tabId l with
                | Some tab => field tab "title"
                | None => VUndefined
                end)))
          (λ error, handleError error "tab-activation") (cleared s)
    | _, _ =>
        handleError (Error ("Tab elements not found for ID: " +:+ to_str tabId))
          "tab-activation" (cleared s)
    end.
Proof.
  unfold activateTab, try_catch, querySelectorAll, getElementById.
  rewrite !run_gets.
  unfold mbind at 1. unfold M_bind at 1.
  rewrite (forEach_ext _ _ (λ e, on_element e clear_button))
    by (intros a st; by apply on_element_twice_compose).
  rewrite forEach_on_element.
  unfold mbind at 1. unfold M_bind at 1.
  rewrite forEach_on_element.
  rewrite !run_gets.
  unfold cleared, exec. rewrite !forEach_on_element. cbn [snd].
  match goal with |- context [by_id (button_id tabId) (document ?st)] =>
    generalize st end.
  intros st.
  destruct (by_id (button_id tabId) (document st)),
    (by_id (panel_id tabId) (document st)); reflexivity.
Qed.

Lemma has_class_remove_other c c' e :
  c ≠ c' → has_class c (remove_class c' e) = has_class c e.
Proof.
  intros Hne. rewrite has_class_remove_class.
  by rewrite (bool_decide_eq_false_2 _ Hne), andb_true_r.
Qed.

Lemma has_class_clear_other c e :
  c ≠ "tab-navigation__button--active" → has_class c (clear_button e) = has_class c e.
Proof.
  intros Hne. rewrite has_class_clear_button.
  by rewrite (bool_decide_eq_false_2 _ Hne), andb_true_r.
Qed.

Lemma cleared_frame s :
  config (cleared s) = config s ∧ events (cleared s) = events s ∧
  activeElement (cleared s) = activeElement s.
Proof. unfold cleared, exec. by rewrite !forEach_on_element. Qed.

Lemma cleared_elements s :
  all_elements (document (cleared s))
  = map (λ x, sweep (by_class "tab-content" (document s))
                (remove_class "tab-content--active")
                (sweep (by_class "tab-navigation__button" (document s)) clear_button x))
      (all_elements (document s)).
Proof.
  unfold cleared, exec. rewrite !forEach_on_element. cbn [snd document set_detached
    set_document]. by rewrite !all_elements_sweep, map_map.
Qed.

Lemma cleared_by_id i s :
  by_id i (document (cleared s)) = None ↔ by_id i (document s) = None.
Proof.
  unfold by_id. rewrite cleared_elements, filter_map_invariant, head_map.
  - by destruct (head _).
  - intros x. unfold has_id. by rewrite !sweep_el_id.
Qed.

Lemma cleared_buttons s e :
  e ∈ by_class "tab-navigation__button" (document (cleared s)) →
  has_class "tab-navigation__button--active" e = false.
Proof.
  unfold by_class at 1. rewrite cleared_elements.
  intros [Hc He]%list_elem_of_filter. apply list_elem_of_fmap in He as (x & -> & Hx).
  rewrite sweep_has_class in Hc |- * by (intros y; by apply has_class_remove_other).
  rewrite sweep_has_class in Hc by (intros y; by apply has_class_clear_other).
  apply (sweep_hits (λ y, has_class "tab-navigation__button--active" y = false)).
  - done.
  - intros y. by rewrite has_class_clear_button, andb_false_r.
  - intros y Hy. by rewrite has_class_clear_button, Hy.
  - apply list_elem_of_fmap. exists x. split; [done|].
    unfold by_class. by apply list_elem_of_filter.
Qed.

Lemma cleared_contents s e :
  e ∈ by_class "tab-content" (document (cleared s)) →
  has_class "tab-content--active" e = false.
Proof.
  unfold by_class at 1. rewrite cleared_elements.
  intros [Hc He]%list_elem_of_filter. apply list_elem_of_fmap in He as (x & -> & Hx).
  rewrite sweep_has_class in Hc by (intros y; by apply has_class_remove_other).
  rewrite sweep_has_class in Hc by (intros y; by apply has_class_clear_other).
  apply (sweep_hits (λ y, has_class "tab-content--active" y = false)).
  - done.
  - intros y. by rewrite has_class_remove_class, andb_false_r.
  - intros y Hy. by rewrite has_class_remove_class, Hy.
  - rewrite sweep_node by done. apply list_elem_of_fmap. exists x. split; [done|].
    unfold by_class. by apply list_elem_of_filter.
Qed.

(** A failed activation, on any page: no exception, one [dashboardError]
    with context [tab-activation], the configuration untouched, and no
    button and no panel left with an active marker. *)
Lemma activateTab_unresolved s tabId :
  by_id (button_id tabId) (document s) = None ∨
  by_id (panel_id tabId) (document s) = None →
  let s' := exec (activateTab tabId) s in
  outcome (activateTab tabId) s = Ok () ∧
  events s' = events s ++
    [{| name := "dashboardError";
        detail := ErrorInfo (Error ("Tab elements not found for ID: " +:+ to_str tabId))
                            "tab-activation" |}] ∧
  config s' = config s ∧
  (∀ e, e ∈ by_class "tab-navigation__button" (document s') →
     has_class "tab-navigation__button--active" e = false) ∧
  (∀ e, e ∈ by_class "tab-content" (document s') →
     has_class "tab-content--active" e = false).
Proof.
  intros Hun s'.
  assert (activateTab tabId s =
            handleError (Error ("Tab elements not found for ID: " +:+ to_str tabId))
              "tab-activation" (cleared s)) as Hrun.
  { rewrite activateTab_run.
    destruct Hun as [Hb|Hp].
    - apply cleared_by_id in Hb. by rewrite Hb.
    - apply cleared_by_id in Hp. rewrite Hp. by destruct (by_id (button_id tabId) _). }
  subst s'. unfold outcome, exec. rewrite Hrun.
  destruct (cleared_frame s) as (Hc & He & _).
  unfold handleError, dispatchCustomEvent, modify. simpl.
  rewrite He, Hc. split_and!; try done.
  - apply cleared_buttons.
  - apply cleared_contents.
Qed.

End ActivationFacts.

Section RemoveActive.

(** Removing the active tab, on any well-formed page whose only active
    button is the button of that tab: the question [getActiveTabId() ===
    tabId] is asked after the button has left the page, the answer is
    [null], and no tab is activated in its place. *)
Lemma removeTab_active_not_reactivated (s : State) (z : Z) (i : nat) (b : Element) :
  0 ≤ z →
  (1 < length (tabs (config s)))%nat →
  findIndex (VNum z) (tabs (config s)) = Some i →
  (∀ n, n ∈ removed_nodes (VNum z) (document s) →
     forallb (leaf_at n) (document s) = true) →
  by_id (button_id (VNum z)) (document s) = Some b →
  by_class "tab-navigation__button--active" (document s) = [b] →
  let s' := exec (removeTab (VNum z)) s in
  outcome getActiveTabId s = Ok (VNum z) ∧
  outcome getActiveTabId s' = Ok VNull ∧
  events s' = events s ++ [{| name := "tabRemoved"; detail := TabRemoved (VNum z) |}].
Proof.
  intros Hz Hlen Hfind Hleaf Hb Hact s'.
  set (s0 := set_config (set_tabs (delete i (tabs (config s))) (config s)) s).
  set (op := by_id (panel_id (VNum z)) (document s)).
  set (s1 := remove_opt (Some b) s0).
  set (s2 := remove_opt op s1).
  assert (forallb (leaf_at (node b)) (document s) = true) as Hlb.
  { apply Hleaf. unfold removed_nodes. rewrite Hb. by left. }
  assert (by_class "tab-navigation__button--active" (document s1) = []) as H1.
  { unfold s1. simpl. rewrite by_class_prune by done.
    change (document s0) with (document s). rewrite Hact.
    by rewrite filter_cons_False by (intros ?; done). }
  assert (by_class "tab-navigation__button--active" (document s2) = []) as H2.
  { unfold s2. destruct op as [p|] eqn:Eop; [|done].
    rewrite document_remove_opt. cbn [from_option].
    rewrite by_class_prune, H1; [done|].
    unfold s1. rewrite document_remove_opt. cbn [from_option].
    apply leaf_at_prune_all. apply Hleaf.
    unfold removed_nodes. fold op. rewrite Eop. apply elem_of_app. right. by left. }
  assert (strict_eq (active_tab (document s2)) (VNum z) = false) as Hne
    by (unfold active_tab; by rewrite H2).
  subst s'. unfold outcome, exec.
  rewrite (removeTab_run s (VNum z) i Hlen Hfind); rewrite Hb; fold s0 op s1 s2;
    [|exact Hne].
  rewrite !getActiveTabId_run. unfold set_events. cbn [fst snd document events].
  split; [|split].
  - unfold active_tab. rewrite Hact. simpl. f_equal.
    destruct (by_id_elem _ _ _ Hb) as [_ ->]. by apply extractTabId_button_id.
  - unfold active_tab. by rewrite H2.
  - unfold s2, s1. by rewrite !events_remove_opt.
Qed.

End RemoveActive.

(** * Further properties *)

(** ** Reading tab ids back from element ids *)

Section ExtractFacts.

Lemma digit_suffix_digits s : all_digits (digit_suffix s) = true.
Proof.
  induction s as [|c r IH]; simpl; [done|].
  destruct (is_digit c) eqn:Hc; simpl; [|done].
  case_bool_decide; [|done]. simpl. by rewrite Hc, IH.
Qed.

Lemma digit_suffix_empty s :
  digit_suffix s = EmptyString ↔ ends_with_digit s = false.
Proof.
  induction s as [|c r IH]; [done|].
  assert (ends_with_digit (String c r) =
          match r with EmptyString => is_digit c | _ => ends_with_digit r end) as ->
    by reflexivity.
  cbn [digit_suffix]. cbv zeta.
  destruct (is_digit c) eqn:Hc, (decide (digit_suffix r = r)) as [Ht|Ht];
    [rewrite (bool_decide_eq_true_2 _ Ht)|rewrite (bool_decide_eq_false_2 _ Ht)
    |rewrite (bool_decide_eq_true_2 _ Ht)|rewrite (bool_decide_eq_false_2 _ Ht)];
    simpl andb; cbv iota.
  - split; [done|]. destruct r as [|c' r']; [done|].
    intros He%IH. rewrite He in Ht. done.
  - destruct r as [|c' r']; [done|exact IH].
  - destruct r as [|c' r']; [done|exact IH].
  - destruct r as [|c' r']; [done|exact IH].
Qed.

Lemma uint_of_char_digit c (o : option Decimal.uint) :
  is_digit c = true → is_Some o → is_Some (DecimalString.uint_of_char c o).
Proof.
  intros Hc [u ->].
  destruct c as [[] [] [] [] [] [] [] []]; try discriminate Hc; simpl; eauto.
Qed.

Lemma uint_of_string_digits ds :
  all_digits ds = true → is_Some (NilEmpty.uint_of_string ds).
Proof.
  induction ds as [|c r IH]; simpl; [eauto|].
  intros [Hc Hr]%andb_prop. apply uint_of_char_digit; auto.
Qed.

Lemma extractTabId_cases s :
  match extractTabId s with
  | VNull => ends_with_digit s = false
  | VNum z => ends_with_digit s = true ∧ 0 ≤ z
  | _ => False
  end.
Proof.
  unfold extractTabId.
  pose proof (digit_suffix_empty s) as He.
  pose proof (digit_suffix_digits s) as Hd.
  destruct (digit_suffix s) as [|c r] eqn:E.
  - by apply He.
  - destruct (uint_of_string_digits _ Hd) as [u Hu]. rewrite Hu. split.
    + destruct (ends_with_digit s); [done|]. discriminate (proj2 He eq_refl).
    + unfold Z.of_uint. apply N2Z.is_nonneg.
Qed.


End ExtractFacts.

(** X1. The id that [activateTab], [addTab] and [createTabPanel] give to the
    button and to the panel of a tab reads back, through [extractTabId], as
    the id of the tab, for every id that is a non-negative safe integer. *)
Theorem extractTabId_round_trip (z : Z) :
  0 ≤ z → safe_integer z →
  extractTabId (button_id (VNum z)) = VNum z ∧
  extractTabId (panel_id (VNum z)) = VNum z.
Proof.
  intros Hz _. split; [by apply extractTabId_button_id|by apply extractTabId_panel_id].
Qed.

Lemma extractTabId_round_trip_witness :
  0 ≤ 42 ∧ safe_integer 42 ∧
  extractTabId (button_id (VNum 42)) = VNum 42 ∧
  extractTabId (panel_id (VNum 42)) = VNum 42.
Proof.
  split; [lia|]. split; [by split|].
  apply (extractTabId_round_trip 42); [lia|by split].
Defined.

(** X2. [extractTabId] answers [null] exactly for the strings that do not
    end in a decimal digit; for every other string it answers a number that
    is not negative. *)
Theorem extractTabId_null_or_natural (elementId : string) :
  (ends_with_digit elementId = false ∧ extractTabId elementId = VNull) ∨
  (ends_with_digit elementId = true ∧
   ∃ z, 0 ≤ z ∧ extractTabId elementId = VNum z).
Proof.
  pose proof (extractTabId_cases elementId) as H.
  destruct (extractTabId elementId) as [| | |z| |]; try done.
  - by left.
  - right. destruct H as [H1 H2]. eauto.
Qed.



(** ** What the primitive writes leave alone *)

Section Frames.

Lemma events_dispatch n d s :
  events (exec (dispatchCustomEvent n d) s) = events s ++ [{| name := n; detail := d |}].
Proof. reflexivity. Qed.
Lemma document_dispatch n d s : document (exec (dispatchCustomEvent n d) s) = document s.
Proof. reflexivity. Qed.
Lemma config_dispatch n d s : config (exec (dispatchCustomEvent n d) s) = config s.
Proof. reflexivity. Qed.
Lemma events_on_element e f s : events (exec (on_element e f) s) = events s.
Proof. reflexivity. Qed.
Lemma config_on_element e f s : config (exec (on_element e f) s) = config s.
Proof. reflexivity. Qed.
Lemma document_on_element e f s :
  document (exec (on_element e f) s) = map (update (node e) f) (document s).
Proof. reflexivity. Qed.

End Frames.

Create Rewrite HintDb frame.
#[global] Hint Rewrite events_dispatch document_dispatch config_dispatch
  events_on_element config_on_element : frame.

(** ** The timer button *)

Section TimerCycle.

Lemma num_to_string_three n : 100 ≤ n → (3 ≤ String.length (num_to_string n))%nat.
Proof.
  intros Hn. destruct n as [|p|p]; [lia| |lia].
  change (num_to_string (Z.pos p)) with (NilEmpty.string_of_uint (Pos.to_uint p)).
  pose proof (DecimalPos.Unsigned.of_to p) as Hp.
  destruct (Pos.to_uint p) as [|d|d|d|d|d|d|d|d|d|d]; [discriminate Hp|..];
    (destruct d as [|d|d|d|d|d|d|d|d|d|d];
      [simpl in Hp; first [discriminate Hp | injection Hp as Hp; lia]|..];
      (destruct d; [simpl in Hp; first [discriminate Hp | injection Hp as Hp; lia]|..];
       simpl; lia)).
Qed.

Lemma length_repeat_char c k :
  String.length (repeat_str (String c EmptyString) k) = k.
Proof.
  induction k as [|k IH]; [done|].
  change (S (String.length (repeat_str (String c EmptyString) k)) = S k). by rewrite IH.
Qed.

Lemma length_append_string (a b : string) :
  String.length (a +:+ b) = (String.length a + String.length b)%nat.
Proof.
  induction a as [|c a IH]; [done|].
  change (S (String.length (a +:+ b)) = S (String.length a + String.length b)).
  by rewrite IH.
Qed.

Lemma length_padStart t c s :
  String.length (padStart t c s) = (t `max` String.length s)%nat.
Proof. unfold padStart. rewrite length_append_string, length_repeat_char. lia. Qed.

Lemma length_two_digits n :
  0 ≤ n → String.length (two_digits n) = (2 `max` String.length (num_to_string n))%nat.
Proof. intros Hn. by rewrite <- padStart_two_digits, length_padStart. Qed.

Lemma num_to_string_short n :
  0 ≤ n < 100 → (String.length (num_to_string n) ≤ 2)%nat.
Proof.
  intros Hn.
  assert (forallb (λ k, String.length (num_to_string (Z.of_nat k)) <=? 2)%nat
            (seq 0 100) = true) as Hall by (vm_compute; reflexivity).
  rewrite forallb_forall in Hall.
  specialize (Hall (Z.to_nat n)). rewrite Z2Nat.id in Hall by lia.
  apply Nat.leb_le, Hall, in_seq. lia.
Qed.

Lemma length_hhmmss elapsed :
  0 ≤ elapsed →
  String.length (hhmmss elapsed)
  = (6 + 2 `max` String.length (num_to_string (elapsed / 3600000)))%nat.
Proof.
  intros He. unfold hhmmss.
  assert (0 ≤ elapsed / 3600000) by (apply Z.div_pos; lia).
  pose proof (Z.mod_pos_bound (elapsed / 60000) 60 ltac:(lia)) as Hm.
  pose proof (Z.mod_pos_bound (elapsed / 1000) 60 ltac:(lia)) as Hs.
  pose proof (num_to_string_short ((elapsed / 60000) mod 60) ltac:(lia)).
  pose proof (num_to_string_short ((elapsed / 1000) mod 60) ltac:(lia)).
  rewrite !length_append_string, !length_two_digits by lia.
  change (String.length ":") with 1%nat. lia.
Qed.

Lemma filter_other_at_node n f (l : list Element) :
  (∀ x, node (f x) = node x) →
  filter (λ x, node x ≠ n) (map (at_node n f) l) = filter (λ x, node x ≠ n) l.
Proof.
  intros Hf. induction l as [|x l IH]; [done|].
  cbn [map]. rewrite !filter_cons, IH.
  unfold at_node. case_bool_decide as Hx.
  - rewrite !decide_False; [done|by intros []|rewrite Hf; by intros []].
  - destruct (decide _); done.
Qed.

Lemma on_element_frame e f s :
  (∀ x, node (f x) = node x) →
  filter (λ x, node x ≠ node e) (all_elements (document (exec (on_element e f) s)))
  = filter (λ x, node x ≠ node e) (all_elements (document s)).
Proof.
  intros Hf. unfold exec, on_element, modify. simpl. rewrite all_elements_update.
  by apply filter_other_at_node.
Qed.

Lemma forEach_cons_ok {A} (a : A) l (f : A → M unit) st :
  (f a st).1 = Ok () → forEach (a :: l) f st = forEach l f (f a st).2.
Proof.
  intros H.
  change (forEach (a :: l) f st)
    with (match f a st with
          | (Ok _, s') => forEach l f s'
          | (Throw e, s') => (Throw e, s')
          end).
  destruct (f a st) as [[[]|] ?]; simpl in *; congruence.
Qed.

Lemma ticks_run button c l st :
  let m := forEach l (λ now, Timer.tick button now c) in
  outcome m st = Ok () ∧ events (exec m st) = events st ∧
  config (exec m st) = config st ∧
  filter (λ x, node x ≠ node button) (all_elements (document (exec m st)))
  = filter (λ x, node x ≠ node button) (all_elements (document st)).
Proof.
  revert st. induction l as [|now l IH]; intros st; [done|].
  cbv zeta. unfold outcome, exec. rewrite forEach_cons_ok by done.
  destruct (IH (Timer.tick button now c st).2) as (E1 & E2 & E3 & E4).
  unfold outcome, exec in *. rewrite E1, E2, E3, E4. split_and!; try done.
  by apply on_element_frame.
Qed.

End TimerCycle.

(** X4. The text the timer shows changes only with the whole seconds of the
    elapsed time, and it is eight characters wide exactly as long as fewer
    than one hundred hours have passed: [padStart] pads the hours to two
    digits but does not cut them. *)
Theorem timer_display_width (elapsed : Z) :
  0 ≤ elapsed → safe_integer elapsed →
  Timer.formatElapsed elapsed = Timer.formatElapsed (1000 * (elapsed / 1000)) ∧
  (String.length (Timer.formatElapsed elapsed) = 8%nat ↔ elapsed < 360000000).
Proof.
  intros He _. split.
  - unfold Timer.formatElapsed.
    replace (1000 * (elapsed / 1000) / 1000) with (elapsed / 1000); [done|].
    rewrite Z.mul_comm, Z.div_mul; lia.
  - rewrite formatElapsed_hhmmss, length_hhmmss by done.
    assert (0 ≤ elapsed / 3600000) by (apply Z.div_pos; lia).
    destruct (decide (elapsed < 360000000)) as [Hlt|Hge].
    + assert (elapsed / 3600000 < 100) by (apply Z.div_lt_upper_bound; lia).
      pose proof (num_to_string_short (elapsed / 3600000) ltac:(lia)). split; [done|lia].
    + assert (100 ≤ elapsed / 3600000) by (apply Z.div_le_lower_bound; lia).
      pose proof (num_to_string_three (elapsed / 3600000) ltac:(lia)). split; lia.
Qed.

Lemma timer_display_width_witness :
  0 ≤ 360000000 ∧ safe_integer 360000000 ∧
  Timer.formatElapsed 360000999 = "100:00:00" ∧
  String.length (Timer.formatElapsed 359999999) = 8%nat.
Proof.
  split; [lia|]. split; [by split|]. split.
  - destruct (timer_display_width 360000999 ltac:(lia) ltac:(by split)) as [-> _].
    vm_compute. reflexivity.
  - destruct (timer_display_width 359999999 ltac:(lia) ltac:(by split)) as [_ H].
    apply H. lia.
Defined.

Section TimerFrame.

Lemma ticks_outside button c l st (R : list nat) :
  (node button ∈ nodes (document st) → node button ∈ R) →
  let m := forEach l (λ now, Timer.tick button now c) in
  nodes (document (exec m st)) = nodes (document st) ∧
  node <$> subtree (node button) (document (exec m st))
    = node <$> subtree (node button) (document st) ∧
  filter (λ x, node x ∉ R) (all_elements (document (exec m st)))
  = filter (λ x, node x ∉ R) (all_elements (document st)).
Proof.
  revert st. induction l as [|now l IH]; intros st HR; [done|].
  cbv zeta. unfold exec. rewrite forEach_cons_ok by done.
  assert (nodes (document (Timer.tick button now c st).2) = nodes (document st)) as Hn
    by (by apply nodes_on_element).
  destruct (IH (Timer.tick button now c st).2) as (E1 & E2 & E3); [by rewrite Hn|].
  unfold exec in *. rewrite E1, E2, E3, Hn. split; [done|]. split.
  - by apply subtree_on_element.
  - by apply on_element_outside.
Qed.

End TimerFrame.

(** X5. One run of the timer: a click on the stopped button starts a run
    and publishes [timerStarted]; any number of interval callbacks later, the
    next click stops the run, publishes [timerStopped] with the start time
    of this run, takes [btn--active] off the button and restores its label,
    whatever the callbacks wrote. The start time stays in the closure after
    the stop. What lies outside the button after the run is what lay
    outside it before. *)
Theorem timer_run (button : Element) (t1 t2 : Z) (ticks : list Z)
    (c : Timer.Closure) (s : State) :
  Timer.isRunning c = false →
  let c1 := {| Timer.timerInterval := true; Timer.startTime := Some t1;
               Timer.isRunning := true |} in
  let s1 := exec (Timer.click button t1 c) s in
  let s2 := exec (forEach ticks (λ now, Timer.tick button now c1)) s1 in
  let s3 := exec (Timer.click button t2 c1) s2 in
  outcome (Timer.click button t1 c) s = Ok c1 ∧
  outcome (forEach ticks (λ now, Timer.tick button now c1)) s1 = Ok () ∧
  outcome (Timer.click button t2 c1) s2
    = Ok {| Timer.timerInterval := false; Timer.startTime := Some t1;
            Timer.isRunning := false |} ∧
  events s3 = events s ++
    [{| name := "timerStarted"; detail := TimerStarted t1 |};
     {| name := "timerStopped"; detail := TimerStopped (Some t1) t2 |}] ∧
  (∀ e, e ∈ all_elements (document s3) → node e = node button →
     content e = "Start Timer" ∧ has_class "btn--active" e = false) ∧
  filter (outside (node button) (document s3)) (all_elements (document s3))
    = filter (outside (node button) (document s)) (all_elements (document s)) ∧
  config s3 = config s.
Proof.
  intros Hc c1 s1 s2 s3.
  destruct (ticks_run button c1 ticks s1) as (T1 & T2 & T3 & _).
  assert (Timer.click button t1 c s
          = (Ok c1, exec (dispatchCustomEvent "timerStarted" (TimerStarted t1))
                      (exec (on_element button (add_class "btn--active")) s))) as R1.
  { unfold Timer.click. rewrite Hc. reflexivity. }
  assert (Timer.click button t2 c1 s2
          = (Ok {| Timer.timerInterval := false; Timer.startTime := Some t1;
                   Timer.isRunning := false |},
             exec (dispatchCustomEvent "timerStopped" (TimerStopped (Some t1) t2))
               (exec (on_element button (set_content "Start Timer"))
                  (exec (on_element button (remove_class "btn--active")) s2)))) as R3
    by reflexivity.
  assert (s1 = exec (dispatchCustomEvent "timerStarted" (TimerStarted t1))
                 (exec (on_element button (add_class "btn--active")) s)) as Hs1
    by (unfold s1, exec at 1; by rewrite R1).
  assert (s3 = exec (dispatchCustomEvent "timerStopped" (TimerStopped (Some t1) t2))
                 (exec (on_element button (set_content "Start Timer"))
                    (exec (on_element button (remove_class "btn--active")) s2))) as Hs3
    by (unfold s3, exec at 1; by rewrite R3).
  set (R := node <$> subtree (node button) (document s)).
  assert (node button ∈ nodes (document s) → node button ∈ R) as HR
    by apply subtree_holds_root.
  assert (∀ x, node (add_class "btn--active" x) = node x) as Hadd
    by (intros x; unfold add_class; by destruct (has_class _ _)).
  assert (nodes (document s1) = nodes (document s)) as N1
    by (rewrite Hs1, document_dispatch; by apply nodes_on_element).
  destruct (ticks_outside button c1 ticks s1 R) as (N2 & S2 & F2); [by rewrite N1|].
  fold s2 in N2, S2, F2.
  assert (node <$> subtree (node button) (document s3) = R) as S3.
  { rewrite Hs3, document_dispatch, !subtree_on_element by done.
    rewrite S2, Hs1, document_dispatch. by apply subtree_on_element. }
  split_and!.
  - unfold outcome. by rewrite R1.
  - exact T1.
  - unfold outcome. by rewrite R3.
  - rewrite Hs3. autorewrite with frame. unfold s2. rewrite T2, Hs1. autorewrite with frame.
    by rewrite <- app_assoc.
  - intros e He Hn. rewrite Hs3 in He.
    rewrite document_dispatch in He.
    destruct (on_element_hit _ _ _ _ He Hn ltac:(done)) as (y & Hy & ->).
    simpl in Hn.
    destruct (on_element_hit _ _ _ _ Hy Hn ltac:(done)) as (y' & Hy' & ->).
    split; [done|].
    change (has_class "btn--active" (remove_class "btn--active" y') = false).
    rewrite has_class_remove_class.
    rewrite (bool_decide_eq_true_2 ("btn--active" = "btn--active")) by done.
    by rewrite andb_false_r.
  - transitivity (filter (λ x, node x ∉ R) (all_elements (document s3)));
      [apply filter_ext_in; intros x _; unfold outside; by rewrite S3|].
    change (filter (λ x, node x ∉ R) (all_elements (document s3))
            = filter (λ x, node x ∉ R) (all_elements (document s))).
    rewrite Hs3, document_dispatch.
    rewrite on_element_outside; [|done|].
    2:{ rewrite nodes_on_element by done. rewrite N2, N1. exact HR. }
    rewrite on_element_outside; [|done|by rewrite N2, N1].
    rewrite F2, Hs1, document_dispatch. by apply on_element_outside.
  - rewrite Hs3. autorewrite with frame. unfold s2. rewrite T3, Hs1. by autorewrite with frame.
Qed.

Lemma timer_run_witness :
  let button := Sample.el 1 EmptyString ["btn"; "btn--primary"] in
  let s3 := exec (Timer.click button 9000
                    {| Timer.timerInterval := true; Timer.startTime := Some 5000;
                       Timer.isRunning := true |})
              (exec (forEach [6000; 7000]
                       (λ now, Timer.tick button now
                          {| Timer.timerInterval := true; Timer.startTime := Some 5000;
                             Timer.isRunning := true |}))
                 (exec (Timer.click button 5000 Timer.initial) Sample.state)) in
  Timer.isRunning Timer.initial = false ∧
  events s3 =
    [{| name := "timerStarted"; detail := TimerStarted 5000 |};
     {| name := "timerStopped"; detail := TimerStopped (Some 5000) 9000 |}].
Proof.
  split; [reflexivity|].
  destruct (timer_run (Sample.el 1 EmptyString ["btn"; "btn--primary"]) 5000 9000
              [6000; 7000] Timer.initial Sample.state eq_refl) as (_ & _ & _ & H & _).
  exact H.
Defined.

(** ** Keys on a button that is not a tab button, and unusable ids *)

Section KeyEdges.

Lemma indexOf_absent (l : list Element) e :
  node e ∉ map node l → indexOf l e = -1.
Proof.
  intros Hn. unfold indexOf.
  destruct (list_find _ l) as [[i x]|] eqn:E; [|done].
  apply list_find_Some in E as (Hi & Hx & _). destruct Hn.
  rewrite <- Hx. apply list_elem_of_fmap. exists x. split; [done|].
  by eapply list_elem_of_lookup_2.
Qed.

Lemma focus_at_out_of_range (l : list Element) (k : Z) s :
  k < 0 ∨ Z.of_nat (length l) ≤ k →
  focus_at l k s = (Throw (TypeError "focus"), s).
Proof.
  intros Hk. unfold focus_at. case_bool_decide as H0; [|done].
  rewrite lookup_ge_None_2; [done|lia].
Qed.

End KeyEdges.

(** X6. The key handler called with a button that is not among the page's
    tab buttons finds it at index -1: Left then goes to the last tab button
    and Right to the first one, as from the two ends of the row. On a page
    without tab buttons the four navigation keys throw, since there is no
    button to focus, and change nothing. *)
Theorem key_navigation_from_outside (s : State) (cur : Element) :
  let btns := by_class "tab-navigation__button" (document s) in
  node cur ∉ map node btns →
  (∀ target, last btns = Some target →
     handleTabKeyNavigation "ArrowLeft" cur s
       = (Ok true, set_activeElement (Some (node target)) s)) ∧
  (∀ target, head btns = Some target →
     handleTabKeyNavigation "ArrowRight" cur s
       = (Ok true, set_activeElement (Some (node target)) s)) ∧
  (btns = [] →
     ∀ key, key ∈ ["ArrowLeft"; "ArrowRight"; "Home"; "End"] →
       handleTabKeyNavigation key cur s = (Throw (TypeError "focus"), s)).
Proof.
  intros btns Hout. pose proof (indexOf_absent btns cur Hout) as Hidx.
  split_and!.
  - intros target Hl. unfold handleTabKeyNavigation, querySelectorAll.
    rewrite run_gets. fold btns. cbv zeta. rewrite Hidx. decide_keys.
    rewrite (bool_decide_eq_false_2 (0 < -1)) by lia.
    rewrite last_lookup in Hl.
    assert (btns ≠ []) as Hne by (intros E; by rewrite E in Hl).
    assert (0 < length btns)%nat by (destruct btns; simpl; [done|lia]).
    unfold mbind, M_bind.
    rewrite (focus_at_in_range btns _ target); [done|lia|].
    rewrite <- Hl. f_equal. lia.
  - intros target Hh. unfold handleTabKeyNavigation, querySelectorAll.
    rewrite run_gets. fold btns. cbv zeta. rewrite Hidx. decide_keys.
    assert (0 < length btns)%nat by (destruct btns; simpl; [done|lia]).
    rewrite (bool_decide_eq_true_2 (-1 < Z.of_nat (length btns) - 1)) by lia.
    unfold mbind, M_bind.
    rewrite (focus_at_in_range btns _ target); [done|lia|].
    by rewrite <- head_lookup.
  - intros Hnil key Hkey. unfold handleTabKeyNavigation, querySelectorAll.
    rewrite run_gets. fold btns. cbv zeta. rewrite Hidx, Hnil.
    unfold mbind, M_bind.
    repeat (apply elem_of_cons in Hkey as [->|Hkey];
            [decide_keys; simpl; reflexivity|]).
    by apply elem_of_nil in Hkey.
Qed.

Lemma sample_outside_button :
  node (Sample.el 3 "notification-btn" []) ∉ map node sample_buttons.
Proof. apply (bool_decide_unpack _). vm_compute. exact I. Qed.

Lemma sample_last_button :
  last sample_buttons = Some (root (Sample.tab_button 26 6 false)).
Proof. vm_compute. reflexivity. Qed.

Lemma sample_head_button : head sample_buttons = Some sample_first_button.
Proof. vm_compute. reflexivity. Qed.

Lemma key_navigation_from_outside_witness :
  let cur := Sample.el 3 "notification-btn" [] in
  (node cur ∉ map node sample_buttons) ∧
  handleTabKeyNavigation "ArrowLeft" cur Sample.state
    = (Ok true, set_activeElement (Some 26%nat) Sample.state) ∧
  handleTabKeyNavigation "ArrowRight" cur Sample.state
    = (Ok true, set_activeElement (Some 21%nat) Sample.state).
Proof.
  destruct (key_navigation_from_outside Sample.state
              (Sample.el 3 "notification-btn" []) sample_outside_button) as (HL & HR & _).
  split; [exact sample_outside_button|]. split.
  - exact (HL _ sample_last_button).
  - exact (HR _ sample_head_button).
Defined.

(** ** Reasoning about effects *)

Section Steps.

Context (R : relation State) `{!PreOrder R}.

Lemma steps_ret {A} (a : A) : steps R (mret a).
Proof. intros s. reflexivity. Qed.
Lemma steps_throw {A} e : steps R (@throw A e).
Proof. intros s. reflexivity. Qed.
Lemma steps_lift {A} (r : Result A) : steps R (lift r).
Proof. intros s. reflexivity. Qed.
Lemma steps_gets {A} (f : State → A) : steps R (gets f).
Proof. intros s. reflexivity. Qed.

Lemma steps_modify g : (∀ s, R s (g s)) → steps R (modify g).
Proof. intros H s. apply H. Qed.

Lemma steps_bind {A B} (m : M A) (k : A → M B) :
  steps R m → (∀ a, steps R (k a)) → steps R (m ≫= k).
Proof.
  intros Hm Hk s. specialize (Hm s). unfold exec, mbind, M_bind in *.
  destruct (m s) as [[a|e] s']; simpl in *; [|done].
  etrans; [exact Hm|apply Hk].
Qed.

Lemma steps_try_catch body handler :
  steps R body → (∀ e, steps R (handler e)) → steps R (try_catch body handler).
Proof.
  intros Hm Hk s. specialize (Hm s). unfold exec, try_catch in *.
  destruct (body s) as [[a|e] s']; simpl in *; [done|].
  etrans; [exact Hm|apply Hk].
Qed.

Lemma steps_forEach {A} (l : list A) (f : A → M unit) :
  (∀ a, steps R (f a)) → steps R (forEach l f).
Proof.
  intros Hf. induction l as [|a l IH]; [by apply steps_ret|].
  apply steps_bind; [apply Hf|intros _; apply IH].
Qed.

Lemma steps_from_option {A} (f : A → M unit) (o : option A) :
  (∀ a, steps R (f a)) → steps R (from_option f (mret ()) o).
Proof. intros Hf. destruct o; [apply Hf|by apply steps_ret]. Qed.

End Steps.

#[global] Instance same_preorder {X} (f : State → X) : PreOrder (same f).
Proof. split; [by intros s|intros s1 s2 s3 H1 H2; unfold same in *; congruence]. Qed.

#[global] Instance evolves_preorder : PreOrder evolves.
Proof.
  split.
  - by intros s.
  - intros s1 s2 s3 (A1 & B1 & C1 & D1) (A2 & B2 & C2 & D2).
    unfold evolves. split_and!; try congruence. by etrans.
Qed.

(** Break a goal [steps R m] down along the structure of [m]; what is left
    are the writes. *)
Ltac steps_structure :=
  repeat first
    [ apply steps_ret; apply _ | apply steps_throw; apply _
    | apply steps_lift; apply _ | apply steps_gets; apply _
    | apply steps_bind; [apply _| |intros ?]
    | apply steps_try_catch; [apply _| |intros ?]
    | apply steps_forEach; [apply _|intros ?]
    | apply steps_from_option; [apply _|intros ?]
    | match goal with
      | |- steps _ (match ?x with _ => _ end) => destruct x
      end ].

Section Writes.

Context (R : relation State) `{!Tolerant R}.

Lemma steps_on_element e f : steps R (on_element e f).
Proof.
  intros s. unfold exec, on_element, modify. simpl.
  etrans; [apply tolerant_document|apply tolerant_detached].
Qed.

Lemma steps_createElement : steps R createElement.
Proof.
  intros s. unfold exec, createElement. simpl.
  etrans; [apply tolerant_detached|apply tolerant_next_node].
Qed.

Lemma steps_appendChild p c : steps R (appendChild p c).
Proof.
  intros s. unfold exec, appendChild, modify. simpl.
  destruct (head _); [|reflexivity].
  etrans; [apply tolerant_document|apply tolerant_detached].
Qed.

Lemma steps_remove e : steps R (remove e).
Proof.
  intros s. unfold exec, remove, modify. simpl.
  etrans; [apply tolerant_document|apply tolerant_activeElement].
Qed.

Lemma steps_focus e : steps R (focus e).
Proof. intros s. apply tolerant_activeElement. Qed.

Lemma steps_dispatch n d : steps R (dispatchCustomEvent n d).
Proof. intros s. apply tolerant_events. Qed.

Lemma steps_handleError e c : steps R (handleError e c).
Proof. apply steps_dispatch. Qed.

End Writes.

(** Settle a goal [steps R m] for a method [m] that is built from the
    primitive writes. *)
Ltac steps_auto :=
  steps_structure;
  first [ apply steps_on_element | apply steps_createElement | apply steps_appendChild
        | apply steps_remove | apply steps_focus | apply steps_dispatch
        | apply steps_handleError ];
  apply _.

Section Methods.

Context (R : relation State) `{!Tolerant R}.

Lemma steps_populateTabContent p t : steps R (populateTabContent p t).
Proof. unfold populateTabContent. steps_auto. Qed.

Lemma steps_createTabPanel t : steps R (createTabPanel t).
Proof.
  unfold createTabPanel. steps_structure;
    first [apply steps_populateTabContent; apply _ | steps_auto].
Qed.

Lemma steps_bindEvents : steps R bindEvents.
Proof. unfold bindEvents, querySelectorAll. steps_structure. Qed.

Lemma steps_getActiveTabId : steps R getActiveTabId.
Proof. unfold getActiveTabId, querySelector, querySelectorAll. steps_structure. Qed.

Lemma steps_activateTab tabId : steps R (activateTab tabId).
Proof. unfold activateTab, querySelectorAll, getElementById. steps_auto. Qed.

End Methods.

#[global] Instance same_config_tolerant : Tolerant (same config).
Proof. by split; [apply _|..]. Qed.

#[global] Instance same_bodyOverflow_tolerant : Tolerant (same bodyOverflow).
Proof. by split; [apply _|..]. Qed.

#[global] Instance evolves_tolerant : Tolerant evolves.
Proof.
  split; [apply _|try done..].
  intros l s. unfold evolves. split_and!; try done. by apply prefix_app_r.
Qed.

(** ** Refusals and what the tab operations keep *)

Section TryCatch.

Lemma try_catch_gets {A} (f : State → A) (k : A → M unit) h s :
  try_catch (x ← gets f; k x) h s = try_catch (k (f s)) h s.
Proof. reflexivity. Qed.

Lemma try_catch_modify g (rest : M unit) h s :
  try_catch (modify g;; rest) h s = try_catch rest h (g s).
Proof. reflexivity. Qed.

Lemma try_catch_guard (b : bool) e (rest : M unit) h s :
  try_catch ((if b then throw e else mret ());; rest) h s
  = if b then h e s else try_catch rest h s.
Proof. by destruct b. Qed.

Lemma try_catch_throw e h s : try_catch (throw e) h s = h e s.
Proof. reflexivity. Qed.

Lemma handled body context s :
  outcome (try_catch body (λ e, handleError e context)) s = Ok ().
Proof. unfold outcome, try_catch. by destruct (body s) as [[[]|e] s']. Qed.

Lemma run_handled op s : outcome (run op) s = Ok ().
Proof. destruct op; apply handled. Qed.

Lemma steps_run_same_templates op : steps evolves (run op).
Proof.
  destruct op; simpl.
  - apply steps_activateTab; apply _.
  - unfold addTab, querySelector, querySelectorAll. steps_structure;
      first [ apply steps_modify; intros s; by split_and!
            | apply steps_createTabPanel; apply _
            | apply steps_bindEvents; apply _
            | steps_auto ].
  - unfold removeTab, getElementById. steps_structure;
      first [ apply steps_modify; intros s; by split_and!
            | apply steps_getActiveTabId; apply _
            | apply steps_activateTab; apply _
            | steps_auto ].
  - unfold updateTabContent, getElementById. steps_structure;
      first [ apply steps_modify; intros s; by split_and!
            | apply steps_populateTabContent; apply _
            | steps_auto ].
Qed.

End TryCatch.

Section ConfigEffects.

Lemma forEach_ok {A} (l : list A) (f : A → M unit) :
  (∀ a s, outcome (f a) s = Ok ()) → ∀ s, outcome (forEach l f) s = Ok ().
Proof.
  intros Hf. induction l as [|a l IH]; intros s; [done|].
  unfold outcome. rewrite forEach_cons_ok by apply Hf. apply IH.
Qed.

Lemma same_config_try_catch body context s :
  steps (same config) body →
  config (exec (try_catch body (λ e, handleError e context)) s) = config s.
Proof.
  intros Hb. apply (steps_try_catch (same config)); [done|].
  intros e. apply steps_handleError. apply _.
Qed.

Lemma addTab_refused_incomplete tabConfig s :
  negb (truthy (field tabConfig "id")) || negb (truthy (field tabConfig "title")) = true →
  addTab tabConfig s
  = (Ok (), logged (error_event "Tab configuration must include id and title" "tab-add") s).
Proof. intros H. unfold addTab. rewrite try_catch_guard, H. reflexivity. Qed.

Lemma addTab_refused_duplicate tabConfig s :
  negb (truthy (field tabConfig "id")) || negb (truthy (field tabConfig "title")) = false →
  is_Some (find_tab (field tabConfig "id") (tabs (config s))) →
  addTab tabConfig s
  = (Ok (), logged (error_event ("Tab with ID " +:+ to_str (field tabConfig "id")
                                   +:+ " already exists") "tab-add") s).
Proof.
  intros H [old Hold]. unfold addTab. rewrite try_catch_guard, H, try_catch_gets, Hold.
  reflexivity.
Qed.

Lemma addTab_accepted tabConfig s :
  negb (truthy (field tabConfig "id")) || negb (truthy (field tabConfig "title")) = false →
  find_tab (field tabConfig "id") (tabs (config s)) = None →
  config (exec (addTab tabConfig) s)
  = set_tabs (tabs (config s) ++ [tabConfig]) (config s).
Proof.
  intros H Hnew. unfold exec, addTab.
  rewrite try_catch_guard, H, try_catch_gets, Hnew, try_catch_modify.
  match goal with
  | |- config (try_catch ?b ?h ?s0).2 = _ =>
      change (config (exec (try_catch b h) s0) = config s0)
  end.
  apply same_config_try_catch.
  unfold querySelector, querySelectorAll. steps_structure;
    first [ apply steps_createTabPanel; apply _
          | apply steps_bindEvents; apply _
          | steps_auto ].
Qed.

Lemma removeTab_unknown s tabId :
  (1 < length (tabs (config s)))%nat →
  findIndex tabId (tabs (config s)) = None →
  removeTab tabId s
  = (Ok (), logged (error_event ("Tab with ID " +:+ to_str tabId +:+ " not found")
                      "tab-remove") s).
Proof.
  intros Hlen Hnone. unfold removeTab.
  rewrite try_catch_gets, try_catch_guard.
  rewrite bool_decide_eq_false_2 by lia. rewrite Hnone. reflexivity.
Qed.

Lemma removeTab_accepted s tabId i :
  (1 < length (tabs (config s)))%nat →
  findIndex tabId (tabs (config s)) = Some i →
  config (exec (removeTab tabId) s) = set_tabs (delete i (tabs (config s))) (config s).
Proof.
  intros Hlen Hi. unfold exec, removeTab.
  rewrite try_catch_gets, try_catch_guard.
  rewrite bool_decide_eq_false_2 by lia. rewrite Hi, try_catch_modify.
  match goal with
  | |- config (try_catch ?b ?h ?s0).2 = _ =>
      change (config (exec (try_catch b h) s0) = config s0)
  end.
  apply same_config_try_catch.
  unfold getElementById. steps_structure;
    first [ apply steps_getActiveTabId; apply _
          | apply steps_activateTab; apply _
          | steps_auto ].
Qed.

Lemma updateTabContent_no_panel s tabId newConfig :
  by_id (panel_id tabId) (document s) = None →
  updateTabContent tabId newConfig s
  = (Ok (), logged (error_event ("Tab panel not found for ID: " +:+ to_str tabId)
                      "tab-update") s).
Proof.
  intros Hp. unfold updateTabContent, getElementById. rewrite try_catch_gets, Hp.
  reflexivity.
Qed.

Lemma updateTabContent_no_descriptor s tabId newConfig panel :
  by_id (panel_id tabId) (document s) = Some panel →
  find_tab tabId (tabs (config s)) = None →
  updateTabContent tabId newConfig s
  = (Ok (), logged (error_event ("Tab configuration not found for ID: " +:+ to_str tabId)
                      "tab-update") s).
Proof.
  intros Hp Hd. unfold updateTabContent, getElementById.
  rewrite try_catch_gets, Hp, try_catch_gets.
  unfold find_tab in Hd. destruct (list_find _ _); [done|]. reflexivity.
Qed.

End ConfigEffects.

(** X7. [addTab] checks before it writes. A descriptor whose id or title
    is falsy (missing, [0], the empty string) is refused with one error
    report and nothing else changes; so is, after that check, a descriptor
    whose id is already in the configuration. Every other descriptor is
    appended to the configuration, whether or not the rest of the call
    (button, panel, listeners) succeeds. *)
Theorem addTab_validates_then_appends (tabConfig : Obj) (s : State) :
  let id := field tabConfig "id" in
  let incomplete := negb (truthy id) || negb (truthy (field tabConfig "title")) in
  let s' := exec (addTab tabConfig) s in
  (incomplete = true →
     s' = logged (error_event "Tab configuration must include id and title" "tab-add") s) ∧
  (incomplete = false → is_Some (find_tab id (tabs (config s))) →
     s' = logged (error_event ("Tab with ID " +:+ to_str id +:+ " already exists")
                    "tab-add") s) ∧
  (incomplete = false → find_tab id (tabs (config s)) = None →
     tabs (config s') = tabs (config s) ++ [tabConfig] ∧
     contentRows (config s') = contentRows (config s) ∧
     sectionRows (config s') = sectionRows (config s)).
Proof.
  intros id incomplete s'. split_and!.
  - intros H. unfold s', exec. by rewrite addTab_refused_incomplete.
  - intros H Hdup. unfold s', exec. by rewrite addTab_refused_duplicate.
  - intros H Hnew. unfold s'. by rewrite addTab_accepted.
Qed.

Lemma addTab_validates_then_appends_witness :
  let dup : Obj := {[ "id" := VNum 2; "title" := VStr "Again" ]} in
  negb (truthy (field dup "id")) || negb (truthy (field dup "title")) = false ∧
  is_Some (find_tab (VNum 2) (tabs (config Sample.state))) ∧
  events (exec (addTab dup) Sample.state)
    = [error_event "Tab with ID 2 already exists" "tab-add"].
Proof.
  assert (negb (truthy (field ({[ "id" := VNum 2; "title" := VStr "Again" ]} : Obj) "id"))
          || negb (truthy (field ({[ "id" := VNum 2; "title" := VStr "Again" ]} : Obj)
                             "title")) = false) as H1 by (vm_compute; reflexivity).
  assert (is_Some (find_tab (VNum 2) (tabs (config Sample.state)))) as H2.
  { apply (bool_decide_unpack _). vm_compute. exact I. }
  split; [exact H1|]. split; [exact H2|].
  destruct (addTab_validates_then_appends
              ({[ "id" := VNum 2; "title" := VStr "Again" ]}) Sample.state) as (_ & H & _).
  cbv zeta in H. rewrite (H H1); [reflexivity|].
  change (field _ "id") with (VNum 2). exact H2.
Defined.

(** X8. [removeTab] refuses to take away the only descriptor, and, when
    there are several, an id that no descriptor carries: it reports the
    error and changes nothing else. Otherwise the first descriptor with
    that id leaves the configuration, whatever happens afterwards on the
    page. *)
Theorem removeTab_validates_then_deletes (tabId : Value) (s : State) :
  let l := tabs (config s) in
  let s' := exec (removeTab tabId) s in
  ((length l ≤ 1)%nat →
     s' = logged (error_event "Cannot remove the last remaining tab" "tab-remove") s) ∧
  ((1 < length l)%nat → findIndex tabId l = None →
     s' = logged (error_event ("Tab with ID " +:+ to_str tabId +:+ " not found")
                    "tab-remove") s) ∧
  (∀ i, (1 < length l)%nat → findIndex tabId l = Some i →
     tabs (config s') = delete i l ∧
     contentRows (config s') = contentRows (config s) ∧
     sectionRows (config s') = sectionRows (config s)).
Proof.
  intros l s'. split_and!.
  - intros H. unfold s', exec. by rewrite removeTab_last.
  - intros H Hnone. unfold s', exec. by rewrite removeTab_unknown.
  - intros i H Hi. unfold s'. by rewrite (removeTab_accepted _ _ i).
Qed.

Lemma removeTab_validates_then_deletes_witness :
  (1 < length (tabs (config Sample.state)))%nat ∧
  findIndex (VNum 9) (tabs (config Sample.state)) = None ∧
  events (exec (removeTab (VNum 9)) Sample.state)
    = [error_event "Tab with ID 9 not found" "tab-remove"].
Proof.
  assert (1 < length (tabs (config Sample.state)))%nat as H1 by (simpl; lia).
  assert (findIndex (VNum 9) (tabs (config Sample.state)) = None) as H2
    by (vm_compute; reflexivity).
  split; [exact H1|]. split; [exact H2|].
  destruct (removeTab_validates_then_deletes (VNum 9) Sample.state) as (_ & H & _).
  cbv zeta in H. rewrite (H H1 H2). reflexivity.
Defined.

(** X9. [updateTabContent] refuses an id that has no panel on the page,
    and, when the panel is there, an id that no descriptor carries; the
    panel is looked up first. A refusal reports the error and changes
    neither the configuration nor the page. *)
Theorem updateTabContent_refusals (tabId : Value) (newConfig : Obj) (s : State) :
  let s' := exec (updateTabContent tabId newConfig) s in
  (by_id (panel_id tabId) (document s) = None →
     s' = logged (error_event ("Tab panel not found for ID: " +:+ to_str tabId)
                    "tab-update") s) ∧
  (is_Some (by_id (panel_id tabId) (document s)) →
   find_tab tabId (tabs (config s)) = None →
     s' = logged (error_event ("Tab configuration not found for ID: " +:+ to_str tabId)
                    "tab-update") s).
Proof.
  intros s'. split.
  - intros H. unfold s', exec. by rewrite updateTabContent_no_panel.
  - intros [panel H] Hd. unfold s', exec.
    by rewrite (updateTabContent_no_descriptor _ _ _ panel).
Qed.

Lemma updateTabContent_refusals_witness :
  let s0 := set_config (set_tabs (take 1 (tabs Defaults.config)) Defaults.config)
              Sample.state in
  is_Some (by_id (panel_id (VNum 2)) (document s0)) ∧
  find_tab (VNum 2) (tabs (config s0)) = None ∧
  events (exec (updateTabContent (VNum 2) ∅) s0)
    = [error_event "Tab configuration not found for ID: 2" "tab-update"].
Proof.
  assert (is_Some (by_id (panel_id (VNum 2))
            (document (set_config (set_tabs (take 1 (tabs Defaults.config))
                                     Defaults.config) Sample.state)))) as H1.
  { apply (bool_decide_unpack _). vm_compute. exact I. }
  assert (find_tab (VNum 2)
            (tabs (config (set_config (set_tabs (take 1 (tabs Defaults.config))
                                         Defaults.config) Sample.state))) = None) as H2
    by (vm_compute; reflexivity).
  split; [exact H1|]. split; [exact H2|].
  destruct (updateTabContent_refusals (VNum 2) ∅
              (set_config (set_tabs (take 1 (tabs Defaults.config)) Defaults.config)
                 Sample.state)) as (_ & H).
  cbv zeta in H. rewrite (H H1 H2). reflexivity.
Defined.

Section Sequences.

Lemma run_config op s :
  let l := tabs (config s) in
  let l' := tabs (config (exec (run op) s)) in
  match op with
  | Activate _ => l' = l
  | Add tabConfig => l' = l ∨ l' = l ++ [tabConfig]
  | Remove _ => l' = l ∨ ∃ i, (i < length l)%nat ∧ (1 < length l)%nat ∧ l' = delete i l
  | Update _ _ => length l' = length l
  end.
Proof.
  destruct op as [tabId|tabConfig|tabId|tabId newConfig]; cbv zeta; simpl run.
  - f_equal. apply (steps_activateTab (same config)).
  - destruct (negb (truthy (field tabConfig "id"))
              || negb (truthy (field tabConfig "title"))) eqn:Hinc.
    { left. unfold exec. by rewrite addTab_refused_incomplete. }
    destruct (find_tab (field tabConfig "id") (tabs (config s))) as [old|] eqn:Hf.
    { left. unfold exec. by rewrite addTab_refused_duplicate. }
    right. by rewrite addTab_accepted.
  - destruct (decide (length (tabs (config s)) ≤ 1)%nat) as [Hlen|Hlen].
    { left. unfold exec. by rewrite removeTab_last. }
    destruct (findIndex tabId (tabs (config s))) as [i|] eqn:Hi.
    + right. exists i. split_and!; [|lia|rewrite (removeTab_accepted _ _ i); [done|lia|done]].
      unfold findIndex in Hi. destruct (list_find _ _) as [[j x]|] eqn:Hj; [|done].
      injection Hi as ->. apply list_find_Some in Hj as (Hj & _).
      by eapply lookup_lt_Some.
    + left. unfold exec. rewrite removeTab_unknown; [done|lia|done].
  - destruct (by_id (panel_id tabId) (document s)) as [panel|] eqn:Hp.
    2:{ unfold exec. by rewrite updateTabContent_no_panel. }
    destruct (list_find (has_tab_id tabId) (tabs (config s))) as [[i old]|] eqn:Hd.
    2:{ unfold exec. rewrite (updateTabContent_no_descriptor _ _ _ panel); [done..|].
        unfold find_tab. by rewrite Hd. }
    rewrite (updateTabContent_run _ _ _ panel i old) by done. cbv zeta.
    match goal with |- context [panel_html ?c ?t] => destruct (panel_html c t) end;
      simpl; by rewrite length_insert.
Qed.

End Sequences.

(** X10. The four tab operations never let an exception escape, in any
    order and from any state: every failure ends in the [catch] of the
    operation. Whatever they do, they leave the two row templates and the
    scroll lock as they were, and they only add to the log of events: no
    entry is ever taken back or rewritten. *)
Theorem tab_operations_are_contained (ops : list Operation) (s : State) :
  let s' := exec (forEach ops run) s in
  outcome (forEach ops run) s = Ok () ∧
  contentRows (config s') = contentRows (config s) ∧
  sectionRows (config s') = sectionRows (config s) ∧
  bodyOverflow s' = bodyOverflow s ∧
  events s `prefix_of` events s'.
Proof.
  split.
  - apply forEach_ok. intros op st. apply run_handled.
  - apply (steps_forEach evolves). apply steps_run_same_templates.
Qed.

(** X11. No operation changes the number of descriptors by more than one:
    [activateTab] and [updateTabContent] keep it, [addTab] adds at most one
    descriptor, at the end, and [removeTab] takes at most one away. A
    configuration with at least one descriptor keeps at least one through
    any sequence of operations. *)
Theorem descriptor_count (op : Operation) (ops : list Operation) (s : State) :
  let l := tabs (config s) in
  let l' := tabs (config (exec (run op) s)) in
  match op with
  | Activate _ => l' = l
  | Add tabConfig => l' = l ∨ l' = l ++ [tabConfig]
  | Remove _ => l' = l ∨ ∃ i, (i < length l)%nat ∧ (1 < length l)%nat ∧ l' = delete i l
  | Update _ _ => length l' = length l
  end ∧
  (l ≠ [] → tabs (config (exec (forEach ops run) s)) ≠ []).
Proof.
  split; [apply run_config|].
  revert s. induction ops as [|o ops IH]; intros s Hne; [done|].
  unfold exec. rewrite forEach_cons_ok by apply run_handled.
  apply IH. pose proof (run_config o s) as Ho. cbv zeta in Ho.
  fold (exec (run o) s).
  destruct (tabs (config s)) as [|t l] eqn:El; [done|].
  destruct o; try (rewrite Ho; done).
  - destruct Ho as [->| ->]; [done|]. by destruct l.
  - destruct Ho as [->|(i & Hi & Hlen & ->)]; [done|].
    intros E. apply (f_equal length) in E. rewrite length_delete in E.
    + simpl in *. lia.
    + by apply lookup_lt_is_Some_2.
  - intros E. rewrite E in Ho. done.
Qed.

Lemma descriptor_count_witness :
  tabs (config Sample.state) ≠ [] ∧
  tabs (config (exec (forEach [Remove (VNum 1); Remove (VNum 2); Remove (VNum 3);
                                Remove (VNum 4); Remove (VNum 5); Remove (VNum 6)] run)
                  Sample.state)) ≠ [].
Proof.
  assert (tabs (config Sample.state) ≠ []) as H by done.
  split; [exact H|].
  destruct (descriptor_count (Activate VNull)
              [Remove (VNum 1); Remove (VNum 2); Remove (VNum 3);
               Remove (VNum 4); Remove (VNum 5); Remove (VNum 6)] Sample.state) as [_ H'].
  exact (H' H).
Defined.

(** X12. An id that is falsy cannot be used through the page: [addTab]
    refuses a descriptor whose id is [0] as incomplete, and a click, the
    Enter key or the space key on a button whose id ends in no digit, or
    is [tab-0], activates nothing, although the key is still consumed. *)
Theorem falsy_ids_are_inert (tabConfig : Obj) (button : Element) (s : State) :
  field tabConfig "id" = VNum 0 →
  ends_with_digit (el_id button) = false ∨ el_id button = button_id (VNum 0) →
  addTab tabConfig s
    = (Ok (), logged (error_event "Tab configuration must include id and title"
                        "tab-add") s) ∧
  handleTabClick button s = (Ok (), s) ∧
  handleTabKeyNavigation "Enter" button s = (Ok true, s) ∧
  handleTabKeyNavigation " " button s = (Ok true, s).
Proof.
  intros Hid Hbtn.
  assert (truthy (extractTabId (el_id button)) = false) as Hfalsy.
  { destruct Hbtn as [Hnd| ->].
    - pose proof (extractTabId_cases (el_id button)) as Hc.
      destruct (extractTabId (el_id button)) as [| | |z| |]; try done.
      destruct Hc as [Hc _]. congruence.
    - by rewrite extractTabId_button_id. }
  split_and!.
  - apply addTab_refused_incomplete. by rewrite Hid.
  - unfold handleTabClick. by rewrite Hfalsy.
  - unfold handleTabKeyNavigation, querySelectorAll. rewrite run_gets. cbv zeta.
    decide_keys. simpl orb. cbv iota. rewrite Hfalsy. reflexivity.
  - unfold handleTabKeyNavigation, querySelectorAll. rewrite run_gets. cbv zeta.
    decide_keys. simpl orb. cbv iota. rewrite Hfalsy. reflexivity.
Qed.

Lemma falsy_ids_are_inert_witness :
  let tabConfig : Obj := {[ "id" := VNum 0; "title" := VStr "Zero" ]} in
  let button := Sample.el 3 "notification-btn" [] in
  field tabConfig "id" = VNum 0 ∧
  ends_with_digit (el_id button) = false ∧
  handleTabClick button Sample.state = (Ok (), Sample.state) ∧
  events (exec (addTab tabConfig) Sample.state)
    = [error_event "Tab configuration must include id and title" "tab-add"].
Proof.
  assert (field ({[ "id" := VNum 0; "title" := VStr "Zero" ]} : Obj) "id" = VNum 0) as H1
    by (vm_compute; reflexivity).
  destruct (falsy_ids_are_inert ({[ "id" := VNum 0; "title" := VStr "Zero" ]})
              (Sample.el 3 "notification-btn" []) Sample.state H1 (or_introl eq_refl))
    as (Ha & Hc & _).
  split; [exact H1|]. split; [reflexivity|]. split; [exact Hc|].
  unfold exec. rewrite Ha. reflexivity.
Defined.

(** ** What the renderer reads *)

Section RenderReads.

Lemma rmap_ext {A B} (f g : A → Result B) l :
  (∀ a, f a = g a) → rmap f l = rmap g l.
Proof. intros H. induction l as [|a l IH]; [done|]. simpl. by rewrite H, IH. Qed.

Lemma field_union_l (a b : Obj) k v : a !! k = Some v → field (a ∪ b) k = v.
Proof. intros H. unfold field. by rewrite (lookup_union_Some_l a b k v H). Qed.

Lemma field_union_r (a b : Obj) k : a !! k = None → field (a ∪ b) k = field b k.
Proof. intros H. unfold field. by rewrite lookup_union_r. Qed.

Lemma panel_html_fields cfg t1 t2 :
  field t1 "id" = field t2 "id" → field t1 "title" = field t2 "title" →
  field t1 "country" = field t2 "country" →
  field t1 "addressType" = field t2 "addressType" →
  panel_html cfg t1 = panel_html cfg t2.
Proof.
  intros Hid Htitle Hcountry Haddr.
  assert (tab_prefix t1 = tab_prefix t2) as Hp by (unfold tab_prefix; by rewrite Hid).
  assert (generateContentRows cfg t1 (tab_prefix t1)
          = generateContentRows cfg t2 (tab_prefix t2)) as Hc.
  { rewrite Hp. unfold generateContentRows. f_equal. apply rmap_ext. intros row.
    unfold content_row. f_equal. apply rmap_ext. intros item.
    unfold content_column. by rewrite Hcountry. }
  assert (generateSectionRows cfg t1 (tab_prefix t1)
          = generateSectionRows cfg t2 (tab_prefix t2)) as Hs.
  { rewrite Hp. unfold generateSectionRows. f_equal. apply map_ext. intros row.
    unfold section_row.
    rewrite (map_ext (section_column t1 (tab_prefix t2))
               (section_column t2 (tab_prefix t2))); [done|].
    intros item. unfold section_column. by rewrite Haddr. }
  unfold panel_html. cbv zeta. by rewrite Hc, Hs, Hp, Htitle.
Qed.

End RenderReads.

(** X13. The markup of a panel reads four fields of the descriptor and no
    other: [id], [title], [country] and [addressType]. Two descriptors that
    agree on these render alike; in particular an update that names none of
    them (for instance one that only replaces [attributes]) re-renders the
    panel to the very same markup. *)
Theorem panel_reads_four_fields (cfg : Config) (t1 t2 newConfig : Obj) :
  (∀ k, k ∈ ["id"; "title"; "country"; "addressType"] → field t1 k = field t2 k) →
  (∀ k, k ∈ ["id"; "title"; "country"; "addressType"] → newConfig !! k = None) →
  panel_html cfg t1 = panel_html cfg t2 ∧
  panel_html cfg (newConfig ∪ t1) = panel_html cfg t1.
Proof.
  intros Hsame Hnone. split.
  - apply panel_html_fields; apply Hsame; repeat constructor.
  - apply panel_html_fields; apply field_union_r, Hnone; repeat constructor.
Qed.

Lemma panel_reads_four_fields_witness :
  let tab2 := Defaults.tab 2 "Tab 2 Content" "us" "United States" "Commercial" in
  let extra : Obj := {[ "attributes" := VObj ∅ ]} in
  (∀ k, k ∈ ["id"; "title"; "country"; "addressType"] → extra !! k = None) ∧
  panel_html Defaults.config (extra ∪ tab2) = panel_html Defaults.config tab2.
Proof.
  assert (∀ k, k ∈ ["id"; "title"; "country"; "addressType"] →
               ({[ "attributes" := VObj ∅ ]} : Obj) !! k = None) as H.
  { intros k Hk. apply lookup_singleton_ne.
    repeat (apply elem_of_cons in Hk as [->|Hk]; [done|]). by apply elem_of_nil in Hk. }
  split; [exact H|].
  destruct (panel_reads_four_fields Defaults.config
              (Defaults.tab 2 "Tab 2 Content" "us" "United States" "Commercial")
              (Defaults.tab 2 "Tab 2 Content" "us" "United States" "Commercial")
              {[ "attributes" := VObj ∅ ]} (λ _ _, eq_refl) H) as [_ H'].
  exact H'.
Defined.

(** X14. What an accepted [updateTabContent] does to the page and to the
    log. When the merged descriptor renders, the panel is on the page with
    the markup as its content and is otherwise as before, what lies outside
    the panel is what lay outside it before, and [tabContentUpdated] is
    published. When it does
    not render (the template has a country cell and the merged descriptor
    has no country), the page stays as it was and the failure is reported;
    the descriptor in the configuration has been replaced all the same. *)
Theorem updateTabContent_page_and_log (s : State) (tabId : Value) (newConfig : Obj)
    (panel : Element) (i : nat) (old : Obj) :
  by_id (panel_id tabId) (document s) = Some panel →
  list_find (has_tab_id tabId) (tabs (config s)) = Some (i, old) →
  let s' := exec (updateTabContent tabId newConfig) s in
  tabs (config s') = <[i := newConfig ∪ old]> (tabs (config s)) ∧
  match panel_html (config s) (newConfig ∪ old) with
  | Ok html =>
      set_content html panel ∈ all_elements (document s') ∧
      (∀ e, e ∈ all_elements (document s') → node e = node panel →
         content e = html) ∧
      filter (outside (node panel) (document s')) (all_elements (document s'))
        = filter (outside (node panel) (document s)) (all_elements (document s)) ∧
      events s' = events s ++
        [{| name := "tabContentUpdated"; detail := TabContentUpdated tabId newConfig |}]
  | Throw e =>
      has_country_cell (config s) = true ∧
      nullish (field (newConfig ∪ old) "country") = true ∧
      document s' = document s ∧
      events s' = events s ++
        [{| name := "dashboardError"; detail := ErrorInfo (TypeError "code") "tab-update" |}]
  end.
Proof.
  intros Hp Hd s'. unfold s'.
  rewrite (updateTabContent_run s tabId newConfig panel i old Hp Hd). cbv zeta.
  rewrite (panel_html_templates
             (config (set_config (set_tabs (<[i:=newConfig ∪ old]> (tabs (config s)))
                                    (config s)) s)) (config s)) by done.
  pose proof (panel_html_ok (config s) (newConfig ∪ old)) as Hok.
  destruct (panel_html (config s) (newConfig ∪ old)) as [html|e] eqn:E.
  - split; [done|]. rewrite document_dispatch.
    set (s0 := set_config _ s).
    change (document s) with (document s0).
    split; [|split; [|split; [|done]]].
    + apply on_element_sets; [|done]. by apply by_id_elem in Hp as [Hp _].
    + intros e He Hn.
      destruct (on_element_hit _ _ _ _ He Hn ltac:(done)) as (y & _ & ->). done.
    + by apply (on_element_outside_self panel (set_content html) s0).
  - apply panel_html_throw in E as ->. simpl in Hok.
    symmetry in Hok. apply negb_false_iff, andb_true_iff in Hok as [H1 H2]. done.
Qed.

Lemma updateTabContent_page_and_log_witness :
  let tab1 := Defaults.tab 1 "Lorem Ipsum" "gb" "United Kingdom" "Residential" in
  let panel := Sample.el 31 "tab-panel-1" ["tab-content"; "tab-content--active"] in
  let retitled : Obj := {[ "title" := VStr "Overview" ]} in
  let stripped : Obj := {[ "country" := VNull ]} in
  let s1 := exec (updateTabContent (VNum 1) retitled) Sample.state in
  let s2 := exec (updateTabContent (VNum 1) stripped) Sample.state in
  by_id (panel_id (VNum 1)) (document Sample.state) = Some panel ∧
  list_find (has_tab_id (VNum 1)) (tabs (config Sample.state)) = Some (0%nat, tab1) ∧
  (∃ html, panel_html (config Sample.state) (retitled ∪ tab1) = Ok html ∧
     String.prefix (tagged "h2" "tab-content__heading" "Overview") (trim_start html)
       = true ∧
     set_content html panel ∈ all_elements (document s1) ∧
     events s1 = [{| name := "tabContentUpdated";
                     detail := TabContentUpdated (VNum 1) retitled |}]) ∧
  tabs (config s2) !! 0%nat = Some (stripped ∪ tab1) ∧
  document s2 = document Sample.state.
Proof.
  assert (by_id (panel_id (VNum 1)) (document Sample.state)
          = Some (Sample.el 31 "tab-panel-1" ["tab-content"; "tab-content--active"])) as H1
    by (vm_compute; reflexivity).
  assert (list_find (has_tab_id (VNum 1)) (tabs (config Sample.state))
          = Some (0%nat, Defaults.tab 1 "Lorem Ipsum" "gb" "United Kingdom" "Residential"))
    as H2 by reflexivity.
  split; [exact H1|]. split; [exact H2|]. split.
  - destruct (updateTabContent_page_and_log Sample.state (VNum 1)
                {[ "title" := VStr "Overview" ]} _ _ _ H1 H2) as [_ Hm].
    cbv zeta in *.
    destruct (panel_html _ _) as [html|e] eqn:E; [|by vm_compute in E].
    exists html. destruct Hm as (Hin & _ & _ & Hev).
    split; [done|]. split; [|split; [exact Hin|exact Hev]].
    vm_compute in E. injection E as <-. vm_compute. reflexivity.
  - destruct (updateTabContent_page_and_log Sample.state (VNum 1)
                {[ "country" := VNull ]} _ _ _ H1 H2) as [Hc Hm].
    cbv zeta in *. split; [by rewrite Hc|].
    destruct (panel_html _ _) as [html|e] eqn:E.
    + pose proof (panel_html_ok (config Sample.state)
                    ({[ "country" := VNull ]} ∪
                     Defaults.tab 1 "Lorem Ipsum" "gb" "United Kingdom" "Residential"))
        as Hok.
      rewrite E in Hok. discriminate Hok.
    + by destruct Hm as (_ & _ & Hm & _).
Defined.

(** X15. Whether a tab still renders after an update is decided by the
    [country] field alone. An update that does not name [country] leaves a
    renderable tab renderable (and an unrenderable one unrenderable); an
    update that names it decides by the new value, so [country: null] turns
    a renderable tab into one whose panel can no longer be drawn. *)
Theorem update_and_renderability (cfg : Config) (old newConfig : Obj) :
  (newConfig !! "country" = None →
     is_ok (panel_html cfg (newConfig ∪ old)) = is_ok (panel_html cfg old)) ∧
  (∀ v, newConfig !! "country" = Some v →
     is_ok (panel_html cfg (newConfig ∪ old)) = negb (has_country_cell cfg && nullish v)).
Proof.
  split.
  - intros H. by rewrite !panel_html_ok, field_union_r.
  - intros v H. by rewrite panel_html_ok, (field_union_l _ _ _ v).
Qed.

Lemma update_and_renderability_witness :
  let tab1 := Defaults.tab 1 "Lorem Ipsum" "gb" "United Kingdom" "Residential" in
  ({[ "country" := VNull ]} : Obj) !! "country" = Some VNull ∧
  is_ok (panel_html Defaults.config tab1) = true ∧
  is_ok (panel_html Defaults.config ({[ "country" := VNull ]} ∪ tab1)) = false.
Proof.
  split; [reflexivity|]. split; [by rewrite panel_html_ok|].
  destruct (update_and_renderability Defaults.config
              (Defaults.tab 1 "Lorem Ipsum" "gb" "United Kingdom" "Residential")
              {[ "country" := VNull ]}) as [_ H].
  rewrite (H VNull eq_refl). reflexivity.
Defined.

(** ** A successful activation *)

Section Activation.

Lemma node_add_class c e : node (add_class c e) = node e.
Proof. unfold add_class. by destruct (has_class c e). Qed.

Lemma el_id_add_class c e : el_id (add_class c e) = el_id e.
Proof. unfold add_class. by destruct (has_class c e). Qed.

Lemma has_class_add_class c c' e :
  has_class c (add_class c' e) = has_class c e || bool_decide (c = c').
Proof.
  unfold add_class. destruct (has_class c' e) eqn:E.
  - case_bool_decide as Hc; [subst; by rewrite E|by rewrite orb_false_r].
  - unfold has_class in *. simpl.
    destruct (decide (c = c')) as [->|Hne].
    + rewrite (bool_decide_eq_true_2 (c' = c')) by done. rewrite orb_true_r.
      apply bool_decide_eq_true_2, elem_of_app. right. by apply list_elem_of_singleton.
    + rewrite (bool_decide_eq_false_2 (c = c')) by done. rewrite orb_false_r.
      apply bool_decide_ext. rewrite elem_of_app, list_elem_of_singleton. tauto.
Qed.

Lemma cleared_node_el_id s x :
  let G := λ x, sweep (by_class "tab-content" (document s))
                  (remove_class "tab-content--active")
                  (sweep (by_class "tab-navigation__button" (document s)) clear_button x) in
  node (G x) = node x ∧ el_id (G x) = el_id x.
Proof.
  cbv beta zeta. split.
  - rewrite !sweep_node; [done|..]; intros y; unfold clear_button;
      by rewrite ?node_set_attr, ?node_remove_class.
  - rewrite !sweep_el_id; [done|..]; intros y; unfold clear_button;
      by rewrite ?el_id_set_attr, ?el_id_remove_class.
Qed.

Lemma cleared_by_id_some i s e :
  by_id i (document s) = Some e →
  ∃ e', by_id i (document (cleared s)) = Some e' ∧ node e' = node e ∧ el_id e' = el_id e
        ∧ e' ∈ all_elements (document (cleared s)).
Proof.
  intros He. unfold by_id in *. rewrite cleared_elements.
  rewrite filter_map_invariant.
  2:{ intros x. unfold has_id. by rewrite (proj2 (cleared_node_el_id s x)). }
  rewrite head_map, He. simpl. eexists. split; [done|].
  destruct (cleared_node_el_id s e) as [H1 H2]. split_and!; [done..|].
  apply list_elem_of_fmap. exists e. split; [done|].
  apply head_Some_elem_of in He. by apply list_elem_of_filter in He as [_ He].
Qed.

Lemma cleared_nodes s : nodes (document (cleared s)) = nodes (document s).
Proof.
  unfold nodes. rewrite cleared_elements, map_map.
  apply map_ext. intros x. apply cleared_node_el_id.
Qed.

Lemma on_element_node e e' f s : node e = node e' → on_element e f s = on_element e' f s.
Proof. intros H. unfold on_element. by rewrite H. Qed.

Lemma activateTab_resolved tabId s b p :
  by_id (button_id tabId) (document s) = Some b →
  by_id (panel_id tabId) (document s) = Some p →
  activateTab tabId s =
    (Ok (),
     logged {| name := "tabChanged";
               detail := TabChanged tabId (title_of tabId (tabs (config s))) |}
       (exec (on_element p (add_class "tab-content--active"))
          (exec (on_element b (set_attr "aria-selected" "true"))
             (exec (on_element b (add_class "tab-navigation__button--active"))
                (cleared s))))).
Proof.
  intros Hb Hp. rewrite activateTab_run.
  destruct (cleared_by_id_some _ _ _ Hb) as (b' & -> & Hnb & _).
  destruct (cleared_by_id_some _ _ _ Hp) as (p' & -> & Hnp & _).
  destruct (cleared_frame s) as (Hc & _).
  unfold title_of. rewrite <- Hc.
  unfold exec. rewrite <- !(on_element_node b' b) by done.
  rewrite <- (on_element_node p' p) by done. reflexivity.
Qed.

Lemma document_logged e s : document (logged e s) = document s.
Proof. reflexivity. Qed.

Lemma activated_elements tabId s b p :
  by_id (button_id tabId) (document s) = Some b →
  by_id (panel_id tabId) (document s) = Some p →
  all_elements (document (exec (activateTab tabId) s))
  = map (mark_active (node b) (node p)) (all_elements (document (cleared s))).
Proof.
  intros Hb Hp. unfold exec at 1. rewrite (activateTab_resolved _ _ b p) by done.
  cbn [snd]. rewrite document_logged.
  rewrite !document_on_element, !all_elements_update, !map_map. done.
Qed.

Lemma has_class_at c n f x :
  has_class c (at_node n f x)
  = if bool_decide (node x = n) then has_class c (f x) else has_class c x.
Proof. unfold at_node. by case_bool_decide. Qed.

Lemma has_class_mark_active c b p x :
  has_class c (mark_active b p x)
  = has_class c x
    || (bool_decide (node x = b) && bool_decide (c = "tab-navigation__button--active"))
    || (bool_decide (node x = p) && bool_decide (c = "tab-content--active")).
Proof.
  unfold mark_active.
  rewrite has_class_at, has_class_add_class, !at_node_node
    by (intros y; first [apply node_add_class | apply node_set_attr]).
  rewrite has_class_at, has_class_set_attr, at_node_node by apply node_add_class.
  rewrite has_class_at, has_class_add_class.
  destruct (bool_decide (node x = b)), (bool_decide (node x = p)),
    (has_class c x), (bool_decide (c = "tab-navigation__button--active")),
    (bool_decide (c = "tab-content--active")); reflexivity.
Qed.

Lemma node_mark_active b p x : node (mark_active b p x) = node x.
Proof.
  unfold mark_active. rewrite !at_node_node; [done|..]; intros y;
    first [apply node_add_class | apply node_set_attr].
Qed.

Lemma el_id_mark_active b p x : el_id (mark_active b p x) = el_id x.
Proof.
  unfold mark_active. rewrite !at_node_el_id; [done|..]; intros y;
    first [apply el_id_add_class | apply el_id_set_attr].
Qed.

End Activation.

Section ActivationResult.

Lemma attrs_add_class c e : attrs (add_class c e) = attrs e.
Proof. unfold add_class. by destruct (has_class c e). Qed.

Lemma attrs_mark_active b p x :
  attrs (mark_active b p x)
  = if bool_decide (node x = b) then <["aria-selected" := "true"]> (attrs x) else attrs x.
Proof.
  unfold mark_active.
  assert (∀ n c y, attrs (at_node n (add_class c) y) = attrs y) as Hadd.
  { intros n c y. unfold at_node. case_bool_decide; [apply attrs_add_class|done]. }
  rewrite Hadd. unfold at_node at 1. rewrite at_node_node by apply node_add_class.
  case_bool_decide; [|apply Hadd]. simpl. by rewrite Hadd.
Qed.

Lemma cleared_buttons_aria s e :
  e ∈ by_class "tab-navigation__button" (document (cleared s)) →
  attrs e !! "aria-selected" = Some "false".
Proof.
  unfold by_class at 1. rewrite cleared_elements.
  intros [Hc He]%list_elem_of_filter. apply list_elem_of_fmap in He as (x & -> & Hx).
  rewrite sweep_has_class in Hc by (intros y; by apply has_class_remove_other).
  rewrite sweep_has_class in Hc by (intros y; by apply has_class_clear_other).
  apply (sweep_preserves (λ y, attrs y !! "aria-selected" = Some "false")); [done|].
  apply (sweep_hits (λ y, attrs y !! "aria-selected" = Some "false")).
  - done.
  - intros y. unfold clear_button. simpl. apply lookup_insert_eq.
  - intros y _. unfold clear_button. simpl. apply lookup_insert_eq.
  - apply list_elem_of_fmap. exists x. split; [done|].
    unfold by_class. by apply list_elem_of_filter.
Qed.

Lemma activated_by_class c tabId s b p e :
  by_id (button_id tabId) (document s) = Some b →
  by_id (panel_id tabId) (document s) = Some p →
  c ≠ "tab-navigation__button--active" → c ≠ "tab-content--active" →
  e ∈ by_class c (document (exec (activateTab tabId) s)) →
  ∃ x, x ∈ by_class c (document (cleared s)) ∧ e = mark_active (node b) (node p) x.
Proof.
  intros Hb Hp Hc1 Hc2. unfold by_class at 1. rewrite (activated_elements _ _ b p) by done.
  intros [Hc He]%list_elem_of_filter. apply list_elem_of_fmap in He as (x & -> & Hx).
  exists x. split; [|done]. unfold by_class. apply list_elem_of_filter. split; [|done].
  rewrite has_class_mark_active in Hc.
  rewrite (bool_decide_eq_false_2 (c = _)) in Hc by done.
  rewrite (bool_decide_eq_false_2 (c = _)) in Hc by done.
  by rewrite !andb_false_r, !orb_false_r in Hc.
Qed.

End ActivationResult.

(** X16. An activation that finds the button and the panel of the tab.
    The button becomes the active and selected one, the panel the active
    one; every other tab button is inactive and not selected, every other
    panel inactive; [tabChanged] is published with the id and the title of
    the first descriptor with that id ([undefined] when there is none). No
    element is added, removed or renamed, and the configuration is left
    alone. *)
Theorem activateTab_marks_one_tab (s : State) (tabId : Value) (b p : Element) :
  by_id (button_id tabId) (document s) = Some b →
  by_id (panel_id tabId) (document s) = Some p →
  let s' := exec (activateTab tabId) s in
  outcome (activateTab tabId) s = Ok () ∧
  config s' = config s ∧
  events s' = events s ++
    [{| name := "tabChanged";
        detail := TabChanged tabId (title_of tabId (tabs (config s))) |}] ∧
  map (λ e, (node e, el_id e)) (all_elements (document s'))
    = map (λ e, (node e, el_id e)) (all_elements (document s)) ∧
  (∀ e, e ∈ all_elements (document s') → node e = node b →
     has_class "tab-navigation__button--active" e = true ∧
     attrs e !! "aria-selected" = Some "true") ∧
  (∀ e, e ∈ all_elements (document s') → node e = node p →
     has_class "tab-content--active" e = true) ∧
  (∀ e, e ∈ by_class "tab-navigation__button" (document s') → node e ≠ node b →
     has_class "tab-navigation__button--active" e = false ∧
     attrs e !! "aria-selected" = Some "false") ∧
  (∀ e, e ∈ by_class "tab-content" (document s') → node e ≠ node p →
     has_class "tab-content--active" e = false).
Proof.
  intros Hb Hp s'. unfold s'.
  pose proof (activateTab_resolved tabId s b p Hb Hp) as Hrun.
  pose proof (activated_elements tabId s b p Hb Hp) as Hel.
  destruct (cleared_frame s) as (Hcfg & Hev & _).
  split_and!.
  - unfold outcome. by rewrite Hrun.
  - unfold exec. rewrite Hrun. cbn [snd]. unfold logged.
    change (config (set_events ?l ?st)) with (config st).
    by rewrite !config_on_element.
  - unfold exec. rewrite Hrun. cbn [snd]. unfold logged.
    change (events (set_events ?l ?st)) with l.
    by rewrite !events_on_element, Hev.
  - rewrite Hel, cleared_elements, !map_map. apply map_ext. intros x.
    rewrite node_mark_active, el_id_mark_active.
    by destruct (cleared_node_el_id s x) as [-> ->].
  - intros e He Hn. rewrite Hel in He. apply list_elem_of_fmap in He as (x & -> & Hx).
    rewrite node_mark_active in Hn. split.
    + rewrite has_class_mark_active, (bool_decide_eq_true_2 (node x = node b)) by done.
      rewrite (bool_decide_eq_true_2 (_ = "tab-navigation__button--active")) by done.
      simpl. by rewrite orb_true_r.
    + rewrite attrs_mark_active, (bool_decide_eq_true_2 (node x = node b)) by done.
      apply lookup_insert_eq.
  - intros e He Hn. rewrite Hel in He. apply list_elem_of_fmap in He as (x & -> & Hx).
    rewrite node_mark_active in Hn.
    rewrite has_class_mark_active, (bool_decide_eq_true_2 (node x = node p)) by done.
    rewrite (bool_decide_eq_true_2 (_ = "tab-content--active")) by done.
    simpl. by rewrite orb_true_r.
  - intros e He Hn.
    destruct (activated_by_class "tab-navigation__button" _ _ b p _ Hb Hp
                ltac:(done) ltac:(done) He) as (x & Hx & ->).
    rewrite node_mark_active in Hn. split.
    + rewrite has_class_mark_active, (cleared_buttons s x Hx).
      rewrite (bool_decide_eq_false_2 (node x = node b)) by done.
      rewrite (bool_decide_eq_false_2 (_ = "tab-content--active")) by done.
      simpl. by rewrite andb_false_r.
    + rewrite attrs_mark_active, (bool_decide_eq_false_2 (node x = node b)) by done.
      by apply (cleared_buttons_aria s).
  - intros e He Hn.
    destruct (activated_by_class "tab-content" _ _ b p _ Hb Hp
                ltac:(done) ltac:(done) He) as (x & Hx & ->).
    rewrite node_mark_active in Hn.
    rewrite has_class_mark_active, (cleared_contents s x Hx).
    rewrite (bool_decide_eq_false_2 (node x = node p)) by done.
    rewrite (bool_decide_eq_false_2 (_ = "tab-navigation__button--active")) by done.
    simpl. by rewrite andb_false_r.
Qed.

Lemma activateTab_marks_one_tab_witness :
  by_id (button_id (VNum 3)) (document Sample.state)
    = Some (root (Sample.tab_button 23 3 false)) ∧
  by_id (panel_id (VNum 3)) (document Sample.state)
    = Some (root (Sample.tab_panel 33 3 false)) ∧
  events (exec (activateTab (VNum 3)) Sample.state)
    = [{| name := "tabChanged"; detail := TabChanged (VNum 3) (VStr "Tab 3 Content") |}].
Proof.
  assert (by_id (button_id (VNum 3)) (document Sample.state)
          = Some (root (Sample.tab_button 23 3 false))) as H1 by (vm_compute; reflexivity).
  assert (by_id (panel_id (VNum 3)) (document Sample.state)
          = Some (root (Sample.tab_panel 33 3 false))) as H2 by (vm_compute; reflexivity).
  split; [exact H1|]. split; [exact H2|].
  destruct (activateTab_marks_one_tab Sample.state (VNum 3) _ _ H1 H2) as (_ & _ & H & _).
  exact H.
Defined.

Section RoundTrip.

Lemma cleared_no_active s x :
  (∀ e, e ∈ all_elements (document s) →
        has_class "tab-navigation__button--active" e = true →
        has_class "tab-navigation__button" e = true) →
  x ∈ all_elements (document (cleared s)) →
  has_class "tab-navigation__button--active" x = false.
Proof.
  intros Hwf Hx.
  destruct (has_class "tab-navigation__button" x) eqn:Hbtn.
  - apply (cleared_buttons s). unfold by_class. by apply list_elem_of_filter.
  - rewrite cleared_elements in Hx. apply list_elem_of_fmap in Hx as (y & -> & Hy).
    rewrite sweep_has_class in Hbtn by (intros z; by apply has_class_remove_other).
    rewrite sweep_has_class in Hbtn by (intros z; by apply has_class_clear_other).
    rewrite sweep_has_class by (intros z; by apply has_class_remove_other).
    apply (sweep_preserves (λ z, has_class "tab-navigation__button--active" z = false)).
    + intros z Hz. by rewrite has_class_clear_button, Hz.
    + destruct (has_class "tab-navigation__button--active" y) eqn:Hact; [|done].
      by rewrite (Hwf y Hy Hact) in Hbtn.
Qed.

Lemma active_after_activation (s : State) (z : Z) (b p : Element) :
  0 ≤ z →
  by_id (button_id (VNum z)) (document s) = Some b →
  by_id (panel_id (VNum z)) (document s) = Some p →
  NoDup (nodes (document s)) →
  (∀ e, e ∈ all_elements (document s) →
        has_class "tab-navigation__button--active" e = true →
        has_class "tab-navigation__button" e = true) →
  outcome getActiveTabId (exec (activateTab (VNum z)) s) = Ok (VNum z).
Proof.
  intros Hz Hb Hp Hnd Hwf.
  unfold outcome. rewrite getActiveTabId_run. cbn [fst]. f_equal.
  unfold active_tab, by_class. rewrite (activated_elements _ _ b p) by done.
  destruct (cleared_by_id_some _ _ _ Hb) as (b' & Hb' & Hnb & Hib & Hin).
  set (L := all_elements (document (cleared s))) in *.
  assert (NoDup (map node L)) as HndL.
  { unfold L. change (NoDup (nodes (document (cleared s)))). by rewrite cleared_nodes. }
  assert (∀ x, x ∈ L →
            has_class "tab-navigation__button--active" (mark_active (node b) (node p) x)
            = bool_decide (node x = node b)) as Hact.
  { intros x Hx. rewrite has_class_mark_active, (cleared_no_active s x Hwf Hx).
    rewrite (bool_decide_eq_true_2 (_ = "tab-navigation__button--active")) by done.
    rewrite (bool_decide_eq_false_2 (_ = "tab-content--active")) by done.
    simpl. by rewrite andb_true_r, andb_false_r, orb_false_r. }
  destruct (head (filter _ (map (mark_active (node b) (node p)) L))) as [y|] eqn:Hy.
  - apply head_Some_elem_of, list_elem_of_filter in Hy as [Hy1 Hy2].
    apply list_elem_of_fmap in Hy2 as (x & -> & Hx).
    rewrite (Hact x Hx) in Hy1. apply bool_decide_eq_true in Hy1.
    assert (x = b') as -> by (apply (node_inj L); [done..|congruence]).
    rewrite el_id_mark_active, Hib.
    apply by_id_elem in Hb as [_ ->]. by apply extractTabId_button_id.
  - exfalso. apply head_None in Hy.
    assert (mark_active (node b) (node p) b'
            ∈ filter (λ e, has_class "tab-navigation__button--active" e = true)
                (map (mark_active (node b) (node p)) L)) as Hin'.
    { apply list_elem_of_filter. split.
      - rewrite (Hact b' Hin). by apply bool_decide_eq_true_2.
      - apply list_elem_of_fmap. by exists b'. }
    rewrite Hy in Hin'. by apply elem_of_nil in Hin'.
Qed.

End RoundTrip.

Lemma sample_only_buttons_active e :
  e ∈ all_elements (document Sample.state) →
  has_class "tab-navigation__button--active" e = true →
  has_class "tab-navigation__button" e = true.
Proof.
  revert e.
  apply (proj1 (Forall_forall
    (λ e, has_class "tab-navigation__button--active" e = true →
          has_class "tab-navigation__button" e = true) _)).
  apply (bool_decide_unpack _). vm_compute. exact I.
Qed.

(** ** Opening, closing and toggling the overlay surfaces *)

(** Decide the lookups that a goal depends on. *)
Ltac case_lookups :=
  repeat match goal with
  | |- context [by_id ?i ?d] => destruct (by_id i d)
  | |- context [head (by_class ?c ?d)] => destruct (head (by_class c d))
  end.

Section Surfaces.

Lemma is_open_parts x d :
  is_open x d = (λ ee, has_class (marker x) ee.1) <$> parts x d.
Proof.
  destruct x; simpl; by case_lookups.
Qed.

Lemma open_run x s :
  open x s =
    (Ok (),
     match parts x (document s) with
     | None => s
     | Some (e, e') =>
         logged (opened_event x)
           (scroll_lock x "hidden"
              (exec (on_element e' (set_attr "aria-hidden" "false"))
                 (exec (on_element e (add_class (marker x))) s)))
     end).
Proof.
  destruct x; simpl.
  - unfold openNotificationModal, getElementById. rewrite run_gets.
    by case_lookups.
  - unfold openUserDropdown, querySelector, querySelectorAll, getElementById.
    unfold mbind at 1, M_bind at 1. unfold mbind at 1, M_bind at 1. unfold gets at 1.
    cbn [mret M_ret]. rewrite run_gets.
    by case_lookups.
  - unfold openEmailModal, getElementById. rewrite run_gets.
    by case_lookups.
Qed.

End Surfaces.

Section SurfaceRuns.

Lemma close_run x s :
  close x s =
    (Ok (),
     match parts x (document s) with
     | None => s
     | Some (e, e') =>
         let s1 := scroll_lock x EmptyString
                     (exec (on_element e' (set_attr "aria-hidden" "true"))
                        (exec (on_element e (remove_class (marker x))) s)) in
         logged (closed_event x)
           (from_option (λ b, set_activeElement (Some (node b))) id
              (by_id (trigger_id x) (document s1)) s1)
     end).
Proof.
  destruct x; simpl.
  - unfold closeNotificationModal, getElementById. rewrite run_gets.
    destruct (by_id "notification-modal" _) as [m|]; [|done]. simpl.
    unfold mbind, M_bind. simpl. by case_lookups.
  - unfold closeUserDropdown, querySelector, querySelectorAll, getElementById.
    unfold mbind at 1, M_bind at 1. unfold mbind at 1, M_bind at 1. unfold gets at 1.
    cbn [mret M_ret]. rewrite run_gets.
    destruct (head (by_class "user-dropdown" _)) as [u|]; [|done].
    destruct (by_id "user-dropdown-menu" _) as [m|]; [|done]. simpl.
    unfold mbind, M_bind. simpl. by case_lookups.
  - unfold closeEmailModal, getElementById. rewrite run_gets.
    destruct (by_id "email-modal" _) as [m|]; [|done]. simpl.
    unfold mbind, M_bind. simpl. by case_lookups.
Qed.

Lemma by_id_elementwise i d d' F :
  all_elements d' = map F (all_elements d) → (∀ z, el_id (F z) = el_id z) →
  by_id i d' = F <$> by_id i d.
Proof.
  intros Hall Hid. unfold by_id. rewrite Hall, filter_map_invariant, head_map; [done|].
  intros z. unfold has_id. by rewrite Hid.
Qed.

Lemma by_class_elementwise c d d' F :
  all_elements d' = map F (all_elements d) →
  (∀ z, has_class c (F z) = has_class c z) →
  by_class c d' = map F (by_class c d).
Proof.
  intros Hall Hc. unfold by_class. rewrite Hall, filter_map_invariant; [done|].
  intros z. by rewrite Hc.
Qed.

Lemma parts_elementwise x d d' F :
  all_elements d' = map F (all_elements d) → (∀ z, el_id (F z) = el_id z) →
  (∀ z, has_class "user-dropdown" (F z) = has_class "user-dropdown" z) →
  parts x d' = (λ ee, (F ee.1, F ee.2)) <$> parts x d.
Proof.
  intros Hall Hid Hc. destruct x; simpl.
  - rewrite (by_id_elementwise _ d d' F) by done. by destruct (by_id _ d).
  - rewrite (by_id_elementwise _ d d' F), (by_class_elementwise _ d d' F), head_map by done.
    by destruct (head _), (by_id "user-dropdown-menu" d).
  - rewrite (by_id_elementwise _ d d' F) by done. by destruct (by_id _ d).
Qed.

Lemma active_tab_elementwise d d' F :
  all_elements d' = map F (all_elements d) → (∀ z, el_id (F z) = el_id z) →
  (∀ z, has_class "tab-navigation__button--active" (F z)
        = has_class "tab-navigation__button--active" z) →
  active_tab d' = active_tab d.
Proof.
  intros Hall Hid Hc. unfold active_tab.
  rewrite (by_class_elementwise _ d d' F), head_map by done.
  destruct (head _); simpl; by rewrite ?Hid.
Qed.

Lemma el_id_show x n n' z : el_id (show_parts x n n' z) = el_id z.
Proof.
  unfold show_parts. rewrite !at_node_el_id; [done|..]; intros y;
    first [apply el_id_add_class | apply el_id_set_attr].
Qed.

Lemma el_id_hide x n n' z : el_id (hide_parts x n n' z) = el_id z.
Proof.
  unfold hide_parts. rewrite !at_node_el_id; [done|..]; intros y;
    first [apply el_id_remove_class | apply el_id_set_attr].
Qed.

Lemma node_show x n n' z : node (show_parts x n n' z) = node z.
Proof.
  unfold show_parts. rewrite !at_node_node; [done|..]; intros y;
    first [apply node_add_class | apply node_set_attr].
Qed.

Lemma node_hide x n n' z : node (hide_parts x n n' z) = node z.
Proof.
  unfold hide_parts. rewrite !at_node_node; [done|..]; intros y;
    first [apply node_remove_class | apply node_set_attr].
Qed.

Lemma has_class_show c x n n' z :
  has_class c (show_parts x n n' z)
  = has_class c z || (bool_decide (node z = n) && bool_decide (c = marker x)).
Proof.
  unfold show_parts.
  rewrite has_class_at, has_class_set_attr, has_class_at, has_class_add_class.
  destruct (bool_decide (node _ = n')), (bool_decide (node z = n)), (has_class c z),
    (bool_decide (c = marker x)); reflexivity.
Qed.

Lemma has_class_hide c x n n' z :
  has_class c (hide_parts x n n' z)
  = has_class c z && negb (bool_decide (node z = n) && bool_decide (c = marker x)).
Proof.
  unfold hide_parts.
  rewrite has_class_at, has_class_set_attr, has_class_at, has_class_remove_class.
  destruct (bool_decide (node _ = n')), (bool_decide (node z = n)), (has_class c z),
    (bool_decide (c = marker x)); reflexivity.
Qed.

Lemma all_elements_shown x e e' s :
  all_elements (document (exec (on_element e' (set_attr "aria-hidden" "false"))
                            (exec (on_element e (add_class (marker x))) s)))
  = map (show_parts x (node e) (node e')) (all_elements (document s)).
Proof. by rewrite !document_on_element, !all_elements_update, map_map. Qed.

Lemma all_elements_hidden x e e' s :
  all_elements (document (exec (on_element e' (set_attr "aria-hidden" "true"))
                            (exec (on_element e (remove_class (marker x))) s)))
  = map (hide_parts x (node e) (node e')) (all_elements (document s)).
Proof. by rewrite !document_on_element, !all_elements_update, map_map. Qed.

Lemma document_scroll_lock x v s : document (scroll_lock x v s) = document s.
Proof. by destruct x. Qed.

(** The page after [open] and after [close], element by element. *)
Lemma open_elements x s :
  all_elements (document (exec (open x) s))
  = match parts x (document s) with
    | None => all_elements (document s)
    | Some (e, e') => map (show_parts x (node e) (node e')) (all_elements (document s))
    end.
Proof.
  unfold exec. rewrite open_run. cbn [snd].
  destruct (parts x (document s)) as [[e e']|]; [|done].
  by rewrite document_logged, document_scroll_lock, all_elements_shown.
Qed.

Lemma close_elements x s :
  all_elements (document (exec (close x) s))
  = match parts x (document s) with
    | None => all_elements (document s)
    | Some (e, e') => map (hide_parts x (node e) (node e')) (all_elements (document s))
    end.
Proof.
  unfold exec. rewrite close_run. cbn [snd].
  destruct (parts x (document s)) as [[e e']|]; [|done]. cbv zeta.
  rewrite document_logged.
  destruct (by_id _ _); simpl; by rewrite document_scroll_lock, all_elements_hidden.
Qed.

End SurfaceRuns.

Section SurfaceFacts.

Lemma marker_not_dropdown x : "user-dropdown" ≠ marker x.
Proof. by destruct x. Qed.

Lemma marker_inj x y : marker x = marker y → x = y.
Proof. by destruct x, y. Qed.

Lemma marker_not_active_button x : "tab-navigation__button--active" ≠ marker x.
Proof. by destruct x. Qed.

Lemma parts_shown x y s e e' :
  parts x (document s) = Some (e, e') →
  parts y (document (exec (open x) s))
  = (λ ee, (show_parts x (node e) (node e') ee.1, show_parts x (node e) (node e') ee.2))
      <$> parts y (document s).
Proof.
  intros Hp. apply parts_elementwise.
  - by rewrite open_elements, Hp.
  - intros z. apply el_id_show.
  - intros z. rewrite has_class_show.
    rewrite (bool_decide_eq_false_2 (_ = marker x)) by apply marker_not_dropdown.
    by rewrite andb_false_r, orb_false_r.
Qed.

Lemma parts_hidden x y s e e' :
  parts x (document s) = Some (e, e') →
  parts y (document (exec (close x) s))
  = (λ ee, (hide_parts x (node e) (node e') ee.1, hide_parts x (node e) (node e') ee.2))
      <$> parts y (document s).
Proof.
  intros Hp. apply parts_elementwise.
  - by rewrite close_elements, Hp.
  - intros z. apply el_id_hide.
  - intros z. rewrite has_class_hide.
    rewrite (bool_decide_eq_false_2 (_ = marker x)) by apply marker_not_dropdown.
    by rewrite andb_false_r, andb_true_r.
Qed.

Lemma is_open_after_open x s :
  is_open x (document (exec (open x) s)) = (λ _, true) <$> is_open x (document s).
Proof.
  rewrite !is_open_parts.
  destruct (parts x (document s)) as [[e e']|] eqn:Hp.
  - rewrite (parts_shown x x s e e' Hp), Hp. simpl. f_equal.
    rewrite has_class_show, !bool_decide_eq_true_2 by done. by rewrite orb_true_r.
  - unfold exec. rewrite open_run, Hp. cbn [snd]. by rewrite Hp.
Qed.

Lemma is_open_after_close x s :
  is_open x (document (exec (close x) s)) = (λ _, false) <$> is_open x (document s).
Proof.
  rewrite !is_open_parts.
  destruct (parts x (document s)) as [[e e']|] eqn:Hp.
  - rewrite (parts_hidden x x s e e' Hp), Hp. simpl. f_equal.
    rewrite has_class_hide, !bool_decide_eq_true_2 by done. by rewrite andb_false_r.
  - unfold exec. rewrite close_run, Hp. cbn [snd]. by rewrite Hp.
Qed.

Lemma is_open_other x y s :
  x ≠ y →
  is_open y (document (exec (open x) s)) = is_open y (document s) ∧
  is_open y (document (exec (close x) s)) = is_open y (document s).
Proof.
  intros Hxy.
  assert (bool_decide (marker y = marker x) = false) as Hm.
  { apply bool_decide_eq_false_2. intros E. apply marker_inj in E. congruence. }
  rewrite !is_open_parts.
  destruct (parts x (document s)) as [[e e']|] eqn:Hp.
  - rewrite (parts_shown x y s e e' Hp), (parts_hidden x y s e e' Hp).
    destruct (parts y (document s)) as [[a a']|]; [|done]. simpl.
    by rewrite has_class_show, has_class_hide, Hm, !andb_false_r, orb_false_r, andb_true_r.
  - unfold exec. rewrite open_run, close_run, Hp. done.
Qed.

Lemma events_open x s :
  events (exec (open x) s)
  = events s ++ match parts x (document s) with Some _ => [opened_event x] | None => [] end.
Proof.
  unfold exec. rewrite open_run. cbn [snd].
  destruct (parts x (document s)) as [[e e']|]; [|by rewrite app_nil_r].
  unfold logged. by destruct x.
Qed.

Lemma events_close x s :
  events (exec (close x) s)
  = events s ++ match parts x (document s) with Some _ => [closed_event x] | None => [] end.
Proof.
  unfold exec. rewrite close_run. cbn [snd].
  destruct (parts x (document s)) as [[e e']|]; [|by rewrite app_nil_r].
  cbv zeta. unfold logged. destruct (by_id _ _); by destruct x.
Qed.

Lemma is_open_Some_parts x d b : is_open x d = Some b → is_Some (parts x d).
Proof. rewrite is_open_parts. destruct (parts x d); [eauto|done]. Qed.

End SurfaceFacts.

(** X18. Opening a surface and closing it again. When the elements of the
    surface are on the page, [open] marks it open and publishes the Opened
    event, [close] marks it closed and publishes the Closed event, and
    neither throws. The settings dialog locks the scrolling of the page
    while it is open; closing it clears the lock rather than restoring what
    was there before. The configuration is not touched. *)
Theorem open_then_close (x : Surface) (s : State) (b : bool) :
  is_open x (document s) = Some b →
  let s1 := exec (open x) s in
  let s2 := exec (close x) s1 in
  outcome (open x) s = Ok () ∧ outcome (close x) s1 = Ok () ∧
  is_open x (document s1) = Some true ∧
  is_open x (document s2) = Some false ∧
  events s2 = events s ++ [opened_event x; closed_event x] ∧
  bodyOverflow s1 = match x with SettingsDialog => "hidden" | _ => bodyOverflow s end ∧
  bodyOverflow s2 = match x with SettingsDialog => EmptyString | _ => bodyOverflow s end ∧
  config s2 = config s.
Proof.
  intros Hb s1 s2.
  pose proof (is_open_after_open x s) as H1. rewrite Hb in H1. simpl in H1.
  pose proof (is_open_after_close x s1) as H2. fold s1 in H1. rewrite H1 in H2.
  destruct (is_open_Some_parts _ _ _ Hb) as [[e e'] Hp].
  destruct (is_open_Some_parts _ _ _ H1) as [[e1 e1'] Hp1].
  split_and!.
  - unfold outcome. by rewrite open_run.
  - unfold outcome. by rewrite close_run.
  - exact H1.
  - exact H2.
  - unfold s2. rewrite events_close. fold s1. rewrite Hp1. unfold s1.
    rewrite events_open, Hp. by rewrite <- app_assoc.
  - unfold s1, exec. rewrite open_run, Hp. by destruct x.
  - unfold s2, exec. rewrite close_run. fold s1. rewrite Hp1. cbn [snd]. cbv zeta.
    destruct (by_id _ _); destruct x; try done;
      unfold s1, exec; rewrite open_run, Hp; done.
  - unfold s2, exec. rewrite close_run. fold s1. rewrite Hp1. cbn [snd]. cbv zeta.
    destruct (by_id _ _); destruct x; unfold s1, exec; rewrite open_run, Hp; done.
Qed.

Lemma open_then_close_witness :
  let s2 := exec (close SettingsDialog) (exec (open SettingsDialog) Sample.state) in
  is_open SettingsDialog (document Sample.state) = Some false ∧
  is_open SettingsDialog (document (exec (open SettingsDialog) Sample.state)) = Some true ∧
  is_open SettingsDialog (document s2) = Some false ∧
  events s2 = [opened_event SettingsDialog; closed_event SettingsDialog].
Proof.
  assert (is_open SettingsDialog (document Sample.state) = Some false) as H
    by (vm_compute; reflexivity).
  destruct (open_then_close SettingsDialog Sample.state false H)
    as (_ & _ & H1 & H2 & H3 & _).
  split; [exact H|]. split; [exact H1|]. split; [exact H2|exact H3].
Defined.

(** X19. The surfaces do not interfere. Opening or closing one surface
    never changes whether another one is open: the notification panel and
    the account menu can be open at the same time, and closing one leaves
    the other open. Nor does it change which tab is active. *)
Theorem surfaces_are_independent (x y : Surface) (s : State) :
  x ≠ y →
  is_open y (document (exec (open x) s)) = is_open y (document s) ∧
  is_open y (document (exec (close x) s)) = is_open y (document s) ∧
  active_tab (document (exec (open x) s)) = active_tab (document s) ∧
  active_tab (document (exec (close x) s)) = active_tab (document s).
Proof.
  intros Hxy. destruct (is_open_other x y s Hxy) as [H1 H2].
  split_and!; [exact H1|exact H2|..].
  - pose proof (open_elements x s) as Hel.
    destruct (parts x (document s)) as [[e e']|]; [|unfold active_tab, by_class; by rewrite Hel].
    apply (active_tab_elementwise _ _ _ Hel); intros z; [apply el_id_show|].
    rewrite has_class_show.
    rewrite (bool_decide_eq_false_2 (_ = marker x)) by apply marker_not_active_button.
    by rewrite andb_false_r, orb_false_r.
  - pose proof (close_elements x s) as Hel.
    destruct (parts x (document s)) as [[e e']|]; [|unfold active_tab, by_class; by rewrite Hel].
    apply (active_tab_elementwise _ _ _ Hel); intros z; [apply el_id_hide|].
    rewrite has_class_hide.
    rewrite (bool_decide_eq_false_2 (_ = marker x)) by apply marker_not_active_button.
    by rewrite andb_false_r, andb_true_r.
Qed.

Lemma surfaces_are_independent_witness :
  let s1 := exec (open AccountMenu) (exec (open NotificationPanel) Sample.state) in
  NotificationPanel ≠ AccountMenu ∧
  is_open NotificationPanel (document s1) = Some true ∧
  is_open AccountMenu (document s1) = Some true.
Proof.
  assert (AccountMenu ≠ NotificationPanel) as Hne by discriminate.
  split; [discriminate|].
  destruct (surfaces_are_independent AccountMenu NotificationPanel
              (exec (open NotificationPanel) Sample.state) Hne) as (H & _).
  split.
  - rewrite H. vm_compute. reflexivity.
  - vm_compute. reflexivity.
Defined.

(** ** Toggles and the listeners that dismiss a surface *)

Section Dismissals.

Lemma toggleNotificationModal_run s :
  toggleNotificationModal s =
    match is_open NotificationPanel (document s) with
    | None => (Throw (TypeError "classList"), s)
    | Some b => (if b then close NotificationPanel else open NotificationPanel) s
    end.
Proof.
  unfold toggleNotificationModal, getElementById. rewrite run_gets. simpl.
  destruct (by_id "notification-modal" _) as [m|]; [|done]. simpl.
  by destruct (has_class _ m).
Qed.

Lemma toggleUserDropdown_run s :
  toggleUserDropdown s =
    match head (by_class "user-dropdown" (document s)) with
    | None => (Throw (TypeError "classList"), s)
    | Some u =>
        (if has_class "user-dropdown--active" u then close AccountMenu
         else open AccountMenu) s
    end.
Proof.
  unfold toggleUserDropdown, querySelector, querySelectorAll.
  unfold mbind at 1, M_bind at 1. unfold mbind at 1, M_bind at 1. unfold gets at 1.
  cbn [mret M_ret].
  destruct (head _) as [u|]; [|done]. by destruct (has_class _ u).
Qed.

Lemma filter_node_NoDup (l : list Element) e :
  NoDup (map node l) → e ∈ l → filter (λ x, node x = node e) l = [e].
Proof.
  induction l as [|a l IH]; intros Hnd He; [by apply elem_of_nil in He|].
  cbn [map] in Hnd. apply NoDup_cons in Hnd as [Ha Hnd].
  rewrite filter_cons. apply elem_of_cons in He as [->|He].
  - rewrite decide_True by done. f_equal.
    destruct (filter _ l) as [|x t] eqn:E; [done|]. exfalso.
    assert (x ∈ filter (λ x, node x = node a) l) as Hx by (rewrite E; left).
    apply list_elem_of_filter in Hx as [Heq Hx]. apply Ha.
    rewrite <- Heq. apply list_elem_of_fmap. by exists x.
  - rewrite decide_False; [by apply IH|].
    intros Heq. apply Ha. rewrite Heq. apply list_elem_of_fmap. by exists e.
Qed.

Lemma current_resolves s holder e :
  NoDup (nodes (document s)) → e ∈ all_elements (document s) → node holder = node e →
  current holder s = (Ok e, s).
Proof.
  intros Hnd He Hn. unfold current, gets. rewrite Hn, filter_app.
  by rewrite (filter_node_NoDup _ e Hnd He).
Qed.

Lemma parts_elem x d e e' : parts x d = Some (e, e') → e ∈ all_elements d.
Proof.
  destruct x; simpl.
  - destruct (by_id _ d) as [m|] eqn:E; [|done]. intros [= <- <-].
    by apply by_id_elem in E as [E _].
  - destruct (head _) as [u|] eqn:E; [|done]. destruct (by_id _ d); [|done].
    intros [= <- <-]. by apply by_class_head_elem in E.
  - destruct (by_id _ d) as [m|] eqn:E; [|done]. intros [= <- <-].
    by apply by_id_elem in E as [E _].
Qed.

Lemma listener_run l s e e' :
  NoDup (nodes (document s)) →
  parts (surface_of l) (document s) = Some (e, e') →
  node (holder_of l) = node e →
  listener l s =
    if has_class (marker (surface_of l)) e && applies l (document s)
    then close (surface_of l) s else (Ok (), s).
Proof.
  intros Hnd Hp Hn. pose proof (parts_elem _ _ _ _ Hp) as He.
  destruct l as [modal btn target|dropdown target|modal key]; simpl in *.
  - unfold notificationOutsideClick. unfold mbind at 1, M_bind at 1.
    rewrite (current_resolves s modal e Hnd He Hn).
    unfold contains. rewrite !run_gets. rewrite <- andb_assoc.
    by destruct (_ && _).
  - unfold dropdownOutsideClick. unfold mbind at 1, M_bind at 1.
    rewrite (current_resolves s dropdown e Hnd He Hn).
    unfold contains. rewrite !run_gets. by destruct (_ && _).
  - unfold emailKeydown. unfold mbind, M_bind.
    rewrite (current_resolves s modal e Hnd He Hn). by destruct (_ && _).
Qed.

Lemma nodes_after_close x s : nodes (document (exec (close x) s)) = nodes (document s).
Proof.
  unfold nodes. rewrite close_elements.
  destruct (parts x (document s)) as [[e e']|]; [|done].
  rewrite map_map. apply map_ext. intros z. apply node_hide.
Qed.

End Dismissals.

(** X20. The two toggles. On a page that has the elements of the surface,
    a toggle does what [close] does when the surface is open and what
    [open] does when it is closed, so it flips the surface, and a second
    toggle brings it back. When the notification panel is missing from the
    page the toggle throws, where [open] and [close] return silently. *)
Theorem toggles_flip (x : Surface) (toggle : M unit) (s : State) (b : bool) :
  (x = NotificationPanel ∧ toggle = toggleNotificationModal) ∨
  (x = AccountMenu ∧ toggle = toggleUserDropdown) →
  (is_open x (document s) = Some b →
     toggle s = (if b then close x else open x) s ∧
     is_open x (document (exec toggle s)) = Some (negb b) ∧
     is_open x (document (exec toggle (exec toggle s))) = Some b) ∧
  (is_open NotificationPanel (document s) = None →
     toggleNotificationModal s = (Throw (TypeError "classList"), s) ∧
     open NotificationPanel s = (Ok (), s) ∧ close NotificationPanel s = (Ok (), s)).
Proof.
  intros Hx. split.
  - assert (∀ st c, is_open x (document st) = Some c →
              toggle st = (if c then close x else open x) st) as Hrun.
    { intros st c Hc. destruct Hx as [[-> ->]|[-> ->]].
      - by rewrite toggleNotificationModal_run, Hc.
      - rewrite toggleUserDropdown_run. simpl in Hc.
        destruct (head _) as [u|]; [|done]. destruct (by_id _ _); [|done].
        by injection Hc as ->. }
    assert (∀ st c, is_open x (document st) = Some c →
              is_open x (document (exec toggle st)) = Some (negb c)) as Hflip.
    { intros st c Hc. unfold exec. rewrite (Hrun st c Hc). destruct c.
      - pose proof (is_open_after_close x st) as H. by rewrite Hc in H.
      - pose proof (is_open_after_open x st) as H. by rewrite Hc in H. }
    intros Hb. split_and!; [by apply Hrun|by apply Hflip|].
    rewrite (Hflip _ (negb b)); [by rewrite negb_involutive|by apply Hflip].
  - intros Hnone. split_and!.
    + by rewrite toggleNotificationModal_run, Hnone.
    + rewrite open_run. rewrite is_open_parts in Hnone. by destruct (parts _ _).
    + rewrite close_run. rewrite is_open_parts in Hnone. by destruct (parts _ _).
Qed.

Lemma toggles_flip_witness :
  is_open AccountMenu (document Sample.state) = Some false ∧
  is_open AccountMenu (document (exec toggleUserDropdown Sample.state)) = Some true ∧
  is_open AccountMenu
    (document (exec toggleUserDropdown (exec toggleUserDropdown Sample.state)))
    = Some false.
Proof.
  assert (is_open AccountMenu (document Sample.state) = Some false) as H
    by (vm_compute; reflexivity).
  destruct (toggles_flip AccountMenu toggleUserDropdown Sample.state false
              (or_intror (conj eq_refl eq_refl))) as [Hf _].
  destruct (Hf H) as (_ & H1 & H2).
  split; [exact H|]. split; [exact H1|exact H2].
Defined.

(** X21. The listeners that dismiss a surface on a click outside it or on
    the Escape key are guarded, unlike [close] itself. On a page whose
    elements are distinct objects and that holds the surface, such a
    listener closes the surface exactly when it is open now and the event
    qualifies (the click is outside the surface and its trigger; the key is
    Escape), and otherwise leaves the whole state as it is, log and focus
    included. Running the listener a second time never does anything
    more. *)
Theorem dismissal_is_guarded (l : Dismissal) (s : State) (e e' : Element) :
  NoDup (nodes (document s)) →
  parts (surface_of l) (document s) = Some (e, e') →
  node (holder_of l) = node e →
  listener l s =
    (if has_class (marker (surface_of l)) e && applies l (document s)
     then close (surface_of l) s else (Ok (), s)) ∧
  (is_open (surface_of l) (document s) = Some false → listener l s = (Ok (), s)) ∧
  (applies l (document s) = false → listener l s = (Ok (), s)) ∧
  exec (listener l) (exec (listener l) s) = exec (listener l) s.
Proof.
  intros Hnd Hp Hn. pose proof (listener_run l s e e' Hnd Hp Hn) as Hrun.
  assert (is_open (surface_of l) (document s)
          = Some (has_class (marker (surface_of l)) e)) as Hopen
    by (by rewrite is_open_parts, Hp).
  split_and!.
  - exact Hrun.
  - intros Hc. rewrite Hopen in Hc. injection Hc as Hc. by rewrite Hrun, Hc.
  - intros Ha. by rewrite Hrun, Ha, andb_false_r.
  - destruct (has_class (marker (surface_of l)) e && applies l (document s)) eqn:Hg.
    2:{ unfold exec. rewrite Hrun. cbn [snd]. by rewrite Hrun. }
    unfold exec at 2 3. rewrite Hrun. fold (exec (close (surface_of l)) s).
    set (s' := exec (close (surface_of l)) s).
    pose proof (parts_hidden (surface_of l) (surface_of l) s e e' Hp) as Hp'.
    rewrite Hp in Hp'. simpl in Hp'. fold s' in Hp'.
    assert (NoDup (nodes (document s'))) as Hnd'
      by (unfold s'; by rewrite nodes_after_close).
    assert (node (holder_of l)
            = node (hide_parts (surface_of l) (node e) (node e') e)) as Hn'
      by (by rewrite node_hide).
    unfold exec. rewrite (listener_run l s' _ _ Hnd' Hp' Hn').
    rewrite has_class_hide, !bool_decide_eq_true_2 by done.
    simpl negb. by rewrite andb_false_r.
Qed.

Lemma dismissal_is_guarded_witness :
  let modal := Sample.el 4 "notification-modal" ["notification-modal"] in
  let btn := Sample.el 3 "notification-btn" [] in
  let s1 := exec (open NotificationPanel) Sample.state in
  NoDup (nodes (document Sample.state)) ∧
  listener (OutsideNotification modal btn 20) Sample.state = (Ok (), Sample.state) ∧
  is_open NotificationPanel (document s1) = Some true ∧
  is_open NotificationPanel
    (document (exec (listener (OutsideNotification modal btn 20)) s1)) = Some false ∧
  is_open NotificationPanel
    (document (exec (listener (OutsideNotification modal btn 5)) s1)) = Some true.
Proof.
  assert (parts NotificationPanel (document Sample.state)
          = Some (Sample.el 4 "notification-modal" ["notification-modal"],
                  Sample.el 4 "notification-modal" ["notification-modal"])) as Hp
    by (vm_compute; reflexivity).
  destruct (dismissal_is_guarded
              (OutsideNotification (Sample.el 4 "notification-modal" ["notification-modal"])
                 (Sample.el 3 "notification-btn" []) 20)
              Sample.state _ _ sample_page_NoDup Hp eq_refl) as (_ & H & _).
  split; [exact sample_page_NoDup|]. split; [apply H; vm_compute; reflexivity|].
  split_and!; vm_compute; reflexivity.
Defined.

(** ** The entries of the account menu *)

Section AccountActions.

Lemma handleProfileSettings_run s :
  handleProfileSettings s
  = (Ok (), logged {| name := "profileSettingsClicked"; detail := Stamp |}
              (exec (close AccountMenu) s)).
Proof.
  unfold handleProfileSettings, mbind, M_bind.
  change closeUserDropdown with (close AccountMenu). unfold exec.
  by rewrite close_run.
Qed.

Lemma handleLogout_run confirmed s :
  handleLogout confirmed s
  = (Ok (),
     let s1 := logged {| name := "logoutClicked"; detail := Stamp |}
                 (exec (close AccountMenu) s) in
     if confirmed then logged {| name := "logoutConfirmed"; detail := Stamp |} s1 else s1).
Proof.
  unfold handleLogout, mbind, M_bind.
  change closeUserDropdown with (close AccountMenu). unfold exec.
  rewrite close_run. by destruct confirmed.
Qed.

Lemma config_close x s : config (exec (close x) s) = config s.
Proof.
  unfold exec. rewrite close_run. cbn [snd].
  destruct (parts x (document s)) as [[e e']|]; [|done]. cbv zeta.
  destruct (by_id _ _); by destruct x.
Qed.

End AccountActions.

(** X22. The two entries of the account menu. Both close the menu first
    and then publish their event; [logoutConfirmed] follows [logoutClicked]
    exactly when the user confirms the dialog. Neither touches the
    configuration, the active tab or another surface. *)
Theorem account_menu_entries (confirmed : bool) (s : State) :
  let closing := match parts AccountMenu (document s) with
                 | Some _ => [closed_event AccountMenu]
                 | None => []
                 end in
  let s1 := exec handleProfileSettings s in
  let s2 := exec (handleLogout confirmed) s in
  outcome handleProfileSettings s = Ok () ∧
  outcome (handleLogout confirmed) s = Ok () ∧
  events s1 = events s ++ closing
                ++ [{| name := "profileSettingsClicked"; detail := Stamp |}] ∧
  events s2 = events s ++ closing
                ++ [{| name := "logoutClicked"; detail := Stamp |}]
                ++ (if confirmed then [{| name := "logoutConfirmed"; detail := Stamp |}]
                    else []) ∧
  (∀ s', s' = s1 ∨ s' = s2 →
     is_open AccountMenu (document s') = (λ _, false) <$> is_open AccountMenu (document s) ∧
     (∀ y, y ≠ AccountMenu → is_open y (document s') = is_open y (document s)) ∧
     active_tab (document s') = active_tab (document s) ∧
     config s' = config s).
Proof.
  intros closing s1 s2.
  assert (document s1 = document (exec (close AccountMenu) s)) as Hd1
    by (unfold s1, exec; by rewrite handleProfileSettings_run).
  assert (document s2 = document (exec (close AccountMenu) s)) as Hd2
    by (unfold s2, exec; rewrite handleLogout_run; by destruct confirmed).
  split_and!.
  - unfold outcome. by rewrite handleProfileSettings_run.
  - unfold outcome. by rewrite handleLogout_run.
  - unfold s1, exec. rewrite handleProfileSettings_run. cbn [snd]. unfold logged.
    change (events (set_events ?l ?st)) with l.
    fold (exec (close AccountMenu) s). by rewrite events_close, <- app_assoc.
  - unfold s2, exec. rewrite handleLogout_run. cbn [snd]. cbv zeta.
    fold (exec (close AccountMenu) s).
    destruct confirmed; unfold logged;
      repeat change (events (set_events ?l ?st)) with l;
      rewrite events_close, <- ?app_assoc; [done|by rewrite app_nil_r].
  - intros s' Hs'.
    assert (document s' = document (exec (close AccountMenu) s)) as ->
      by (by destruct Hs' as [-> | ->]).
    split_and!.
    + apply is_open_after_close.
    + intros y Hy. by apply is_open_other.
    + pose proof (close_elements AccountMenu s) as Hel.
      destruct (parts AccountMenu (document s)) as [[e e']|];
        [|unfold active_tab, by_class; by rewrite Hel].
      apply (active_tab_elementwise _ _ _ Hel); intros z; [apply el_id_hide|].
      rewrite has_class_hide.
      rewrite (bool_decide_eq_false_2 (_ = marker AccountMenu)) by done.
      by rewrite andb_false_r, andb_true_r.
    + destruct Hs' as [-> | ->].
      * unfold s1, exec. rewrite handleProfileSettings_run. cbn [snd].
        apply config_close.
      * unfold s2, exec. rewrite handleLogout_run. cbn [snd]. cbv zeta.
        destruct confirmed; apply config_close.
Qed.

(** ** Attaching a new element *)

Section Grafting.

Lemma elem_of_concat {A} (x : A) (ls : list (list A)) :
  x ∈ concat ls ↔ ∃ l, x ∈ l ∧ l ∈ ls.
Proof.
  induction ls as [|l ls IH]; simpl.
  - split; [by intros ?%elem_of_nil|by intros (l & _ & ?%elem_of_nil)].
  - rewrite elem_of_app, IH. split.
    + intros [H|(l' & H1 & H2)]; [exists l; split; [done|by left]|].
      exists l'. split; [done|by right].
    + intros (l' & H1 & [->|H2]%elem_of_cons); [by left|right; eauto].
Qed.

Lemma filter_concat_Forall2 {A B} (P : A → Prop) `{!∀ x, Decision (P x)}
    (f g : B → list A) (l : list B) :
  Forall (λ b, filter P (f b) = filter P (g b)) l →
  filter P (concat (map f l)) = filter P (concat (map g l)).
Proof.
  induction 1 as [|b l Hb _ IH]; [done|]. simpl. by rewrite !filter_app, Hb, IH.
Qed.

Lemma filter_elements_graft (P : Element → Prop) `{!∀ x, Decision (P x)} n c t :
  filter P (elements c) = [] →
  filter P (elements (graft n c t)) = filter P (elements t).
Proof.
  intros Hc. induction t as [e kids IH] using Node_rect_forall.
  cbn [graft elements]. rewrite !filter_cons.
  assert (filter P (concat (map elements (map (graft n c) kids)))
          = filter P (concat (map elements kids))) as Hk.
  { rewrite map_map. by apply (filter_concat_Forall2 P). }
  case_bool_decide.
  - rewrite map_app, concat_app, filter_app, Hk. simpl.
    rewrite app_nil_r, Hc, app_nil_r. done.
  - by rewrite Hk.
Qed.

Lemma filter_all_elements_graft (P : Element → Prop) `{!∀ x, Decision (P x)} n c d :
  filter P (elements c) = [] →
  filter P (all_elements (map (graft n c) d)) = filter P (all_elements d).
Proof.
  intros Hc. unfold all_elements. rewrite map_map.
  apply (filter_concat_Forall2 P), Forall_forall. intros t _.
  by apply filter_elements_graft.
Qed.

Lemma elements_graft_old n c t x : x ∈ elements t → x ∈ elements (graft n c t).
Proof.
  revert x. induction t as [e kids IH] using Node_rect_forall. intros x.
  cbn [graft elements]. rewrite !elem_of_cons. intros [->|Hx]; [by left|right].
  assert (x ∈ concat (map elements (map (graft n c) kids))) as Hk.
  { apply elem_of_concat in Hx as (l & Hxl & Hl).
    apply list_elem_of_fmap in Hl as (k & -> & Hk).
    rewrite Forall_forall in IH.
    apply elem_of_concat. exists (elements (graft n c k)). split; [by apply IH|].
    rewrite map_map. apply list_elem_of_fmap. by exists k. }
  case_bool_decide; [|done].
  rewrite map_app, concat_app. apply elem_of_app. by left.
Qed.

Lemma elements_graft_new n c t :
  n ∈ map node (elements t) → root c ∈ elements (graft n c t).
Proof.
  induction t as [e kids IH] using Node_rect_forall.
  cbn [graft elements map]. rewrite elem_of_cons. intros [Heq|Hn].
  - rewrite (bool_decide_eq_true_2 (node e = n)) by done. right.
    rewrite map_app, concat_app. apply elem_of_app. right. simpl.
    rewrite app_nil_r. destruct c as [x ks]. by left.
  - apply elem_of_cons. right.
    apply list_elem_of_fmap in Hn as (x & Hnx & Hx).
    apply elem_of_concat in Hx as (l & Hxl & Hl).
    apply list_elem_of_fmap in Hl as (k & -> & Hk).
    rewrite Forall_forall in IH.
    assert (root c ∈ concat (map elements (map (graft n c) kids))) as Hin.
    { apply elem_of_concat. exists (elements (graft n c k)). split.
      - apply IH; [done|]. apply list_elem_of_fmap. by exists x.
      - rewrite map_map. apply list_elem_of_fmap. by exists k. }
    case_bool_decide; [|done].
    rewrite map_app, concat_app. apply elem_of_app. by left.
Qed.

Lemma all_elements_graft_old n c d x :
  x ∈ all_elements d → x ∈ all_elements (map (graft n c) d).
Proof.
  unfold all_elements. intros (l & Hxl & Hl)%elem_of_concat.
  apply list_elem_of_fmap in Hl as (t & -> & Ht).
  apply elem_of_concat. exists (elements (graft n c t)).
  split; [by apply elements_graft_old|].
  rewrite map_map. apply list_elem_of_fmap. by exists t.
Qed.

Lemma all_elements_graft_new n c d :
  n ∈ nodes d → root c ∈ all_elements (map (graft n c) d).
Proof.
  unfold nodes, all_elements. intros (x & Hnx & Hx)%list_elem_of_fmap.
  apply elem_of_concat in Hx as (l & Hxl & Hl).
  apply list_elem_of_fmap in Hl as (t & -> & Ht).
  apply elem_of_concat. exists (elements (graft n c t)). split.
  - apply elements_graft_new. apply list_elem_of_fmap. by exists x.
  - rewrite map_map. apply list_elem_of_fmap. by exists t.
Qed.

Lemma all_elements_graft_inv n x d y :
  y ∈ all_elements (map (graft n (Elem x [])) d) → y ∈ all_elements d ∨ y = x.
Proof.
  intros Hy. destruct (decide (y = x)) as [|Hne]; [by right|left].
  assert (y ∈ filter (λ z, z ≠ x) (all_elements (map (graft n (Elem x [])) d))) as Hf
    by (by apply list_elem_of_filter).
  rewrite filter_all_elements_graft in Hf.
  - by apply list_elem_of_filter in Hf as [_ Hf].
  - simpl. rewrite filter_cons, decide_False; [done|]. by intros [].
Qed.

Lemma update_fresh n f t : n ∉ map node (elements t) → update n f t = t.
Proof.
  induction t as [e kids IH] using Node_rect_forall.
  cbn [update elements map]. rewrite not_elem_of_cons. intros [Hn Hk].
  unfold at_node. rewrite bool_decide_eq_false_2 by done. f_equal.
  induction IH as [|k kids Hk' _ IHk]; [done|].
  cbn [map concat] in *. rewrite map_app, not_elem_of_app in Hk. destruct Hk as [H1 H2].
  by rewrite Hk', IHk.
Qed.

Lemma update_all_fresh n f d : n ∉ nodes d → map (update n f) d = d.
Proof.
  unfold nodes, all_elements. induction d as [|t d IH]; [done|].
  cbn [map concat]. rewrite map_app, not_elem_of_app. intros [H1 H2].
  by rewrite update_fresh, IH.
Qed.

Lemma at_node_all_fresh n f (l : list Element) :
  n ∉ map node l → map (at_node n f) l = l.
Proof.
  induction l as [|x l IH]; [done|]. cbn [map]. rewrite not_elem_of_cons.
  intros [H1 H2]. unfold at_node at 1. rewrite bool_decide_eq_false_2 by done.
  by rewrite IH.
Qed.

End Grafting.

(** ** Adding a tab *)

Section AddTab.

Lemma bind_assoc {A B C} (m : M A) (k : A → M B) (k' : B → M C) s :
  ((m ≫= k) ≫= k') s = (m ≫= (λ a, k a ≫= k')) s.
Proof. unfold mbind, M_bind. by destruct (m s) as [[a|e] s']. Qed.

Lemma try_catch_bind {A} (m : M A) (k : A → M unit) h s :
  try_catch (m ≫= k) h s =
    match m s with
    | (Ok a, s') => try_catch (k a) h s'
    | (Throw e, s') => h e s'
    end.
Proof. unfold try_catch, mbind, M_bind. by destruct (m s) as [[a|e] s']. Qed.

Lemma bind_querySelector {B} c (k : option Element → M B) s :
  (querySelector c ≫= k) s = k (head (by_class c (document s))) s.
Proof. reflexivity. Qed.

Lemma bind_createElement {B} (k : Element → M B) s :
  (createElement ≫= k) s =
    k {| node := next_node s; el_id := EmptyString; classList := [];
         attrs := ∅; content := EmptyString |}
      (set_next_node (S (next_node s))
         (set_detached ({| node := next_node s; el_id := EmptyString; classList := [];
                           attrs := ∅; content := EmptyString |} :: detached s) s)).
Proof. reflexivity. Qed.

Lemma set_detached_document s l : set_detached l (set_document (document s) s) = set_detached l s.
Proof. by destruct s. Qed.

Lemma bind_on_element_head {B} e f (k : unit → M B) s x rest :
  node e ∉ nodes (document s) → detached s = x :: rest → node x = node e →
  node e ∉ map node rest →
  (on_element e f ≫= k) s = k () (set_detached (f x :: rest) s).
Proof.
  intros Hd Hdet Hx Hrest.
  change ((on_element e f ≫= k) s)
    with (k () (set_detached (map (at_node (node e) f) (detached s))
                  (set_document (map (update (node e) f) (document s)) s))).
  rewrite update_all_fresh by done. rewrite Hdet. cbn [map].
  rewrite at_node_all_fresh by done. unfold at_node. rewrite bool_decide_eq_true_2 by done.
  by rewrite set_detached_document.
Qed.

Lemma appendChild_head p c s x rest :
  detached s = x :: rest → node x = node c → node c ∉ map node rest →
  appendChild p c s =
    (Ok (), set_detached rest
              (set_document (map (graft (node p) (Elem x [])) (document s)) s)).
Proof.
  intros Hdet Hx Hrest. unfold appendChild, modify. rewrite Hdet.
  rewrite !filter_cons, decide_True, decide_False by (done || by intros []).
  simpl. f_equal. f_equal.
  clear Hdet. induction rest as [|y rest IH]; [done|].
  cbn [map] in Hrest. apply not_elem_of_cons in Hrest as [H1 H2].
  rewrite filter_cons, decide_True by done. by rewrite IH.
Qed.

End AddTab.

Section AddTabRun.

Lemma addTab_button_part tabConfig nav s (k : unit → M unit) h :
  well_numbered s →
  try_catch
    ((newButton ← createElement;
      on_element newButton (set_classList ["tab-navigation__button"]);;
      on_element newButton (set_attr "type" "button");;
      on_element newButton (set_attr "role" "tab");;
      on_element newButton (set_attr "aria-selected" "false");;
      on_element newButton (set_attr "aria-controls" (panel_id (field tabConfig "id")));;
      on_element newButton (set_id (button_id (field tabConfig "id")));;
      on_element newButton (set_content ("Tab " +:+ to_str (field tabConfig "id")));;
      appendChild nav newButton) ≫= k) h s
  = try_catch (k ()) h
      (set_next_node (S (next_node s))
         (set_document
            (map (graft (node nav) (Elem (new_button (next_node s) tabConfig) []))
               (document s)) s)).
Proof.
  intros [Hdoc Hdet].
  assert (next_node s ∉ nodes (document s)) as Hfd by (intros H; apply Hdoc in H; lia).
  assert (next_node s ∉ map node (detached s)) as Hfe.
  { intros (e & He & Hin)%list_elem_of_fmap. apply Hdet in Hin. lia. }
  rewrite try_catch_bind, bind_createElement.
  do 7 (erewrite (bind_on_element_head _ _ _ _ _ (detached s));
          [|exact Hfd|reflexivity|reflexivity|exact Hfe]).
  erewrite (appendChild_head nav _ _ _ (detached s)); [|reflexivity|reflexivity|exact Hfe].
  by destruct s.
Qed.

End AddTabRun.

Section AddTabPanel.

Lemma bind_lift {A B} (r : Result A) (k : A → M B) s :
  (lift r ≫= k) s = match r with Ok a => k a s | Throw e => (Throw e, s) end.
Proof. by destruct r. Qed.

Lemma addTab_panel_part tabConfig container s (k : unit → M unit) h :
  well_numbered s →
  try_catch ((tabPanel ← createTabPanel tabConfig; appendChild container tabPanel) ≫= k) h s
  = match panel_html (config s) tabConfig with
    | Ok html =>
        try_catch (k ()) h
          (set_next_node (S (next_node s))
             (set_document
                (map (graft (node container)
                        (Elem (new_panel (next_node s) tabConfig html) []))
                   (document s)) s))
    | Throw e =>
        h e (set_next_node (S (next_node s))
               (set_detached (new_panel (next_node s) tabConfig EmptyString :: detached s) s))
    end.
Proof.
  intros [Hdoc Hdet].
  assert (next_node s ∉ nodes (document s)) as Hfd by (intros H; apply Hdoc in H; lia).
  assert (next_node s ∉ map node (detached s)) as Hfe.
  { intros (e & He & Hin)%list_elem_of_fmap. apply Hdet in Hin. lia. }
  rewrite try_catch_bind. unfold createTabPanel.
  rewrite bind_assoc, bind_createElement.
  do 4 (rewrite bind_assoc;
        erewrite (bind_on_element_head _ _ _ _ _ (detached s));
          [|exact Hfd|reflexivity|reflexivity|exact Hfe]).
  rewrite bind_assoc. unfold populateTabContent.
  rewrite bind_assoc, run_gets, bind_assoc, bind_lift.
  repeat first [ progress change (config (set_detached ?l ?st)) with (config st)
               | progress change (config (set_next_node ?n ?st)) with (config st) ].
  destruct (panel_html (config s) tabConfig) as [html|e]; cbv beta iota.
  - erewrite (bind_on_element_head _ _ _ _ _ (detached s));
      [|exact Hfd|reflexivity|reflexivity|exact Hfe].
    match goal with
    | |- context [(mret ?p ≫= ?f) ?st] => change ((mret p ≫= f) st) with (f p st)
    end.
    cbv beta.
    erewrite (appendChild_head container _ _ _ (detached s));
      [|reflexivity|reflexivity|exact Hfe].
    by destruct s.
  - by destruct s.
Qed.

End AddTabPanel.

Section AddTabWhole.

Lemma by_class_graft c n x d :
  has_class c x = false → by_class c (map (graft n (Elem x [])) d) = by_class c d.
Proof.
  intros Hx. unfold by_class. apply filter_all_elements_graft.
  simpl. rewrite filter_cons, decide_False; [done|]. by rewrite Hx.
Qed.

Lemma by_id_graft_other i n x d :
  el_id x ≠ i → by_id i (map (graft n (Elem x [])) d) = by_id i d.
Proof.
  intros Hx. unfold by_id. f_equal. apply filter_all_elements_graft.
  simpl. rewrite filter_cons, decide_False; [done|].
  unfold has_id. by rewrite bool_decide_eq_false_2.
Qed.

Lemma by_class_head_node c d e : head (by_class c d) = Some e → node e ∈ nodes d.
Proof.
  intros H. apply by_class_head_elem in H. unfold nodes.
  apply list_elem_of_fmap. by exists e.
Qed.

Lemma by_id_graft_new i n x d :
  n ∈ nodes d → el_id x = i → is_Some (by_id i (map (graft n (Elem x [])) d)).
Proof.
  intros Hn Hx. unfold by_id.
  destruct (filter _ _) as [|y l] eqn:E; [|by eexists].
  exfalso. assert (x ∈ filter (λ e, has_id i e = true)
                     (all_elements (map (graft n (Elem x [])) d))) as Hin.
  { apply list_elem_of_filter. split; [by apply bool_decide_eq_true_2|].
    by apply (all_elements_graft_new n (Elem x [])). }
  rewrite E in Hin. by apply elem_of_nil in Hin.
Qed.

Lemma well_numbered_attach s p x :
  well_numbered s → node x = next_node s →
  well_numbered
    (set_next_node (S (next_node s))
       (set_document (map (graft (node p) (Elem x [])) (document s)) s)).
Proof.
  intros [Hdoc Hdet] Hx. split; simpl.
  - intros m (y & -> & Hy)%list_elem_of_fmap.
    apply all_elements_graft_inv in Hy as [Hy| ->]; [|lia].
    assert (node y < next_node s)%nat; [|lia].
    apply Hdoc. apply list_elem_of_fmap. by exists y.
  - intros e He. apply Hdet in He. lia.
Qed.

Lemma try_catch_querySelector c (k : option Element → M unit) h s :
  try_catch (querySelector c ≫= k) h s
  = try_catch (k (head (by_class c (document s)))) h s.
Proof. reflexivity. Qed.

Lemma addTab_run tabConfig s nav c :
  negb (truthy (field tabConfig "id")) || negb (truthy (field tabConfig "title")) = false →
  find_tab (field tabConfig "id") (tabs (config s)) = None →
  head (by_class "tab-navigation" (document s)) = Some nav →
  head (by_class "tab-content-container" (document s)) = Some c →
  well_numbered s →
  let n := next_node s in
  let s0 := set_config (set_tabs (tabs (config s) ++ [tabConfig]) (config s)) s in
  let s1 := set_next_node (S n)
              (set_document
                 (map (graft (node nav) (Elem (new_button n tabConfig) [])) (document s))
                 s0) in
  addTab tabConfig s =
    (Ok (),
     match panel_html (config s) tabConfig with
     | Ok html =>
         logged {| name := "tabAdded";
                   detail := TabAdded (field tabConfig "id") tabConfig |}
           (set_next_node (S (S n))
              (set_document
                 (map (graft (node c) (Elem (new_panel (S n) tabConfig html) []))
                    (document s1)) s1))
     | Throw e =>
         logged {| name := "dashboardError"; detail := ErrorInfo e "tab-add" |}
           (set_next_node (S (S n))
              (set_detached (new_panel (S n) tabConfig EmptyString :: detached s) s1))
     end).
Proof.
  intros Hinc Hnew Hnav Hc Hwn n s0 s1.
  unfold addTab. rewrite try_catch_guard, Hinc, try_catch_gets, Hnew, try_catch_modify.
  fold s0.
  assert (well_numbered s0) as Hwn0 by exact Hwn.
  rewrite try_catch_querySelector.
  change (document s0) with (document s). rewrite Hnav.
  rewrite (addTab_button_part tabConfig nav s0 _ _ Hwn0).
  change (next_node s0) with n. change (document s0) with (document s). fold s1.
  assert (well_numbered s1) as Hwn1 by (by apply (well_numbered_attach s0 nav)).
  rewrite try_catch_querySelector.
  assert (document s1
          = map (graft (node nav) (Elem (new_button n tabConfig) [])) (document s)) as Hd1
    by reflexivity.
  rewrite Hd1 at 1. rewrite by_class_graft by done. rewrite Hc.
  rewrite (addTab_panel_part tabConfig c s1 _ _ Hwn1).
  change (next_node s1) with (S n). change (detached s1) with (detached s).
  rewrite (panel_html_templates (config s1) (config s)) by done.
  destruct (panel_html (config s) tabConfig) as [html|e]; [|reflexivity].
  set (s2 := set_next_node _ _).
  assert (by_class "tab-navigation__button" (document s2) ≠ []) as Hbtn.
  { intros E.
    assert (new_button n tabConfig ∈ by_class "tab-navigation__button" (document s2)) as Hin.
    { unfold by_class. apply list_elem_of_filter. split; [done|].
      unfold s2. change (document (set_next_node ?a (set_document ?d ?st))) with d.
      apply all_elements_graft_old. rewrite Hd1.
      apply (all_elements_graft_new (node nav) (Elem (new_button n tabConfig) [])).
      by apply (by_class_head_node "tab-navigation"). }
    rewrite E in Hin. by apply elem_of_nil in Hin. }
  rewrite try_catch_bind. unfold bindEvents, querySelectorAll. rewrite run_gets.
  rewrite bool_decide_eq_false_2; [reflexivity|].
  intros E. apply Hbtn. by apply length_zero_iff_nil.
Qed.

End AddTabWhole.

Section AddTabFacts.

Lemma button_id_not_panel_id v : button_id v ≠ panel_id v.
Proof.
  unfold button_id, panel_id. intros E. apply (f_equal String.length) in E.
  rewrite !length_append_string in E. simpl in E. lia.
Qed.

Lemma find_tab_app_new (z : Z) (tabConfig : Obj) l :
  field tabConfig "id" = VNum z → is_Some (find_tab (VNum z) (l ++ [tabConfig])).
Proof.
  intros Hid. unfold find_tab.
  destruct (list_find (has_tab_id (VNum z)) (l ++ [tabConfig])) as [[i x]|] eqn:E;
    [by eexists|].
  exfalso. apply list_find_None in E. rewrite Forall_app, Forall_singleton in E.
  destruct E as [_ E]. apply E. unfold has_tab_id. rewrite Hid. simpl.
  by apply bool_decide_eq_true_2.
Qed.

End AddTabFacts.

(** X23. An [addTab] that goes through. For a descriptor that passes both
    checks and renders, on a page that has the tab row and the panel
    container, the call appends a button to the row and a panel to the
    container: the button has the id [tab-<id>], the class of a tab button,
    the label [Tab <id>] and is not selected; the panel has the id
    [tab-panel-<id>] and holds the rendered markup. Both can be found by
    their ids afterwards; every element that was on the page is still
    there, nothing else is new, the active tab is the same, and the one
    event published is [tabAdded]. *)
Theorem addTab_attaches_button_and_panel (tabConfig : Obj) (s : State)
    (nav c : Element) (html : string) :
  negb (truthy (field tabConfig "id")) || negb (truthy (field tabConfig "title")) = false →
  find_tab (field tabConfig "id") (tabs (config s)) = None →
  head (by_class "tab-navigation" (document s)) = Some nav →
  head (by_class "tab-content-container" (document s)) = Some c →
  well_numbered s →
  panel_html (config s) tabConfig = Ok html →
  let s' := exec (addTab tabConfig) s in
  let button := new_button (next_node s) tabConfig in
  let panel := new_panel (S (next_node s)) tabConfig html in
  outcome (addTab tabConfig) s = Ok () ∧
  events s' = events s ++
    [{| name := "tabAdded"; detail := TabAdded (field tabConfig "id") tabConfig |}] ∧
  button ∈ by_class "tab-navigation__button" (document s') ∧
  panel ∈ by_class "tab-content" (document s') ∧
  is_Some (by_id (button_id (field tabConfig "id")) (document s')) ∧
  is_Some (by_id (panel_id (field tabConfig "id")) (document s')) ∧
  (∀ y, y ∈ all_elements (document s) → y ∈ all_elements (document s')) ∧
  (∀ y, y ∈ all_elements (document s') →
        y ∈ all_elements (document s) ∨ y = button ∨ y = panel) ∧
  active_tab (document s') = active_tab (document s) ∧
  detached s' = detached s.
Proof.
  intros Hinc Hnew Hnav Hc Hwn Hhtml s' button panel.
  pose proof (addTab_run tabConfig s nav c Hinc Hnew Hnav Hc Hwn) as Hrun.
  cbv zeta in Hrun. rewrite Hhtml in Hrun.
  assert (document s'
          = map (graft (node c) (Elem panel []))
              (map (graft (node nav) (Elem button [])) (document s))) as Hdoc
    by (unfold s', exec; by rewrite Hrun).
  assert (node nav ∈ nodes (document s)) as Hnn
    by (by apply (by_class_head_node "tab-navigation")).
  assert (node c ∈ nodes (map (graft (node nav) (Elem button [])) (document s))) as Hcn.
  { apply (by_class_head_node "tab-content-container").
    by rewrite by_class_graft. }
  assert (button ∈ all_elements (document s')) as Hb.
  { rewrite Hdoc. apply all_elements_graft_old.
    by apply (all_elements_graft_new (node nav) (Elem button [])). }
  assert (panel ∈ all_elements (document s')) as Hp.
  { rewrite Hdoc. by apply (all_elements_graft_new (node c) (Elem panel [])). }
  split_and!.
  - unfold outcome. by rewrite Hrun.
  - unfold s', exec. by rewrite Hrun.
  - unfold by_class. by apply list_elem_of_filter.
  - unfold by_class. by apply list_elem_of_filter.
  - rewrite Hdoc, by_id_graft_other by (symmetry; apply button_id_not_panel_id).
    by apply by_id_graft_new.
  - rewrite Hdoc. by apply by_id_graft_new.
  - intros y Hy. rewrite Hdoc. by do 2 apply all_elements_graft_old.
  - intros y Hy. rewrite Hdoc in Hy.
    apply all_elements_graft_inv in Hy as [Hy| ->]; [|by right; right].
    apply all_elements_graft_inv in Hy as [Hy| ->]; [by left|by right; left].
  - unfold active_tab. by rewrite Hdoc, !by_class_graft.
  - unfold s', exec. by rewrite Hrun.
Qed.

Lemma sample_well_numbered : well_numbered Sample.state.
Proof.
  split.
  - apply (proj1 (Forall_forall (λ m, (m < next_node Sample.state)%nat) _)).
    apply (bool_decide_unpack _). vm_compute. exact I.
  - intros e He. by apply elem_of_nil in He.
Qed.

Lemma addTab_attaches_button_and_panel_witness :
  let tab7 := Defaults.tab 7 "Seven" "in" "India" "Mixed" in
  let s' := exec (addTab tab7) Sample.state in
  well_numbered Sample.state ∧
  is_ok (panel_html (config Sample.state) tab7) = true ∧
  new_button 100 tab7 ∈ by_class "tab-navigation__button" (document s') ∧
  is_Some (by_id (panel_id (VNum 7)) (document s')).
Proof.
  assert (is_ok (panel_html (config Sample.state)
                   (Defaults.tab 7 "Seven" "in" "India" "Mixed")) = true) as Hok
    by (by rewrite panel_html_ok).
  destruct (panel_html (config Sample.state)
              (Defaults.tab 7 "Seven" "in" "India" "Mixed")) as [html|] eqn:E;
    [|discriminate Hok].
  assert (head (by_class "tab-navigation" (document Sample.state))
          = Some (Sample.el 20 EmptyString ["tab-navigation"])) as Hnav
    by (vm_compute; reflexivity).
  assert (head (by_class "tab-content-container" (document Sample.state))
          = Some (Sample.el 30 EmptyString ["tab-content-container"])) as Hc
    by (vm_compute; reflexivity).
  destruct (addTab_attaches_button_and_panel
              (Defaults.tab 7 "Seven" "in" "India" "Mixed") Sample.state _ _ html
              eq_refl eq_refl Hnav Hc sample_well_numbered E)
    as (_ & _ & Hb & _ & _ & Hp & _).
  split; [exact sample_well_numbered|]. split; [reflexivity|]. split; [exact Hb|exact Hp].
Defined.

(** X24. An [addTab] that stops halfway. For a descriptor that passes
    both checks but does not render (the template has a country cell and
    the descriptor no country), the call has already appended the
    descriptor and attached the button when the panel fails: the error is
    reported with context [tab-add] and [tabAdded] is not published, but
    the descriptor and the button stay, no panel joins the page, and the
    half-built panel is left detached. Adding the same descriptor again is
    then refused as a duplicate. *)
Theorem addTab_stops_halfway (tabConfig : Obj) (s : State) (nav c : Element)
    (z : Z) (e : JsError) :
  field tabConfig "id" = VNum z →
  negb (truthy (field tabConfig "id")) || negb (truthy (field tabConfig "title")) = false →
  find_tab (field tabConfig "id") (tabs (config s)) = None →
  head (by_class "tab-navigation" (document s)) = Some nav →
  head (by_class "tab-content-container" (document s)) = Some c →
  well_numbered s →
  panel_html (config s) tabConfig = Throw e →
  let s' := exec (addTab tabConfig) s in
  let button := new_button (next_node s) tabConfig in
  outcome (addTab tabConfig) s = Ok () ∧
  tabs (config s') = tabs (config s) ++ [tabConfig] ∧
  events s' = events s ++
    [{| name := "dashboardError"; detail := ErrorInfo (TypeError "code") "tab-add" |}] ∧
  button ∈ by_class "tab-navigation__button" (document s') ∧
  (∀ y, y ∈ all_elements (document s') → y ∈ all_elements (document s) ∨ y = button) ∧
  by_id (panel_id (VNum z)) (document s') = by_id (panel_id (VNum z)) (document s) ∧
  detached s' = new_panel (S (next_node s)) tabConfig EmptyString :: detached s ∧
  exec (addTab tabConfig) s'
    = logged (error_event ("Tab with ID " +:+ num_to_string z +:+ " already exists")
                "tab-add") s'.
Proof.
  intros Hid Hinc Hnew Hnav Hc Hwn Hhtml s' button.
  pose proof (addTab_run tabConfig s nav c Hinc Hnew Hnav Hc Hwn) as Hrun.
  cbv zeta in Hrun. rewrite Hhtml in Hrun.
  apply panel_html_throw in Hhtml as ->.
  assert (document s' = map (graft (node nav) (Elem button [])) (document s)) as Hdoc
    by (unfold s', exec; by rewrite Hrun).
  assert (tabs (config s') = tabs (config s) ++ [tabConfig]) as Htabs
    by (unfold s', exec; by rewrite Hrun).
  split_and!.
  - unfold outcome. by rewrite Hrun.
  - exact Htabs.
  - unfold s', exec. by rewrite Hrun.
  - unfold by_class. apply list_elem_of_filter. split; [done|]. rewrite Hdoc.
    apply (all_elements_graft_new (node nav) (Elem button [])).
    by apply (by_class_head_node "tab-navigation").
  - intros y Hy. rewrite Hdoc in Hy. by apply all_elements_graft_inv in Hy.
  - rewrite Hdoc. apply by_id_graft_other. simpl. rewrite Hid.
    apply button_id_not_panel_id.
  - unfold s', exec. by rewrite Hrun.
  - unfold exec at 1. rewrite addTab_refused_duplicate; [by rewrite Hid|done|].
    rewrite Htabs, Hid. by apply find_tab_app_new.
Qed.

Lemma addTab_stops_halfway_witness :
  let s' := exec (addTab bare_tab) Sample.state in
  field bare_tab "id" = VNum 7 ∧ well_numbered Sample.state ∧
  panel_html (config Sample.state) bare_tab = Throw (TypeError "code") ∧
  map (λ tab, field tab "id") (tabs (config s'))
    = [VNum 1; VNum 2; VNum 3; VNum 4; VNum 5; VNum 6; VNum 7] ∧
  by_id (panel_id (VNum 7)) (document s') = None.
Proof.
  assert (panel_html (config Sample.state) bare_tab = Throw (TypeError "code")) as E.
  { destruct (panel_html (config Sample.state) bare_tab) as [html|e] eqn:E.
    - pose proof (panel_html_ok (config Sample.state) bare_tab) as Hok.
      rewrite E in Hok. discriminate Hok.
    - by apply panel_html_throw in E as ->. }
  assert (head (by_class "tab-navigation" (document Sample.state))
          = Some (Sample.el 20 EmptyString ["tab-navigation"])) as Hnav
    by (vm_compute; reflexivity).
  assert (head (by_class "tab-content-container" (document Sample.state))
          = Some (Sample.el 30 EmptyString ["tab-content-container"])) as Hc
    by (vm_compute; reflexivity).
  destruct (addTab_stops_halfway bare_tab Sample.state _ _ 7 _
              eq_refl eq_refl eq_refl Hnav Hc sample_well_numbered E)
    as (_ & Ht & _ & _ & _ & Hp & _).
  split; [reflexivity|]. split; [exact sample_well_numbered|]. split; [exact E|].
  split; [by rewrite Ht|]. rewrite Hp. vm_compute. reflexivity.
Defined.

(** ** Generating the panels *)

Section GenerateFacts.

Lemma try_catch_rethrow (m : M unit) s :
  try_catch (m ≫= λ _, mret ()) (λ e, throw e) s = m s.
Proof. unfold try_catch, mbind, M_bind. by destruct (m s) as [[[]|e] s']. Qed.

Lemma panel_part_run tabConfig container s :
  well_numbered s →
  (tabPanel ← createTabPanel tabConfig; appendChild container tabPanel) s
  = match panel_html (config s) tabConfig with
    | Ok html =>
        (Ok (), set_next_node (S (next_node s))
                  (set_document
                     (map (graft (node container)
                             (Elem (new_panel (next_node s) tabConfig html) []))
                        (document s)) s))
    | Throw e =>
        (Throw e, set_next_node (S (next_node s))
                    (set_detached (new_panel (next_node s) tabConfig EmptyString
                                   :: detached s) s))
    end.
Proof.
  intros Hwn. rewrite <- try_catch_rethrow.
  rewrite (addTab_panel_part tabConfig container s (λ _, mret ()) (λ e, throw e) Hwn).
  by destruct (panel_html _ _).
Qed.

End GenerateFacts.

Section GenerateLoop.

Lemma forEach_cons_run {A} (a : A) l (f : A → M unit) s :
  forEach (a :: l) f s =
    match f a s with
    | (Ok _, s') => forEach l f s'
    | (Throw e, s') => (Throw e, s')
    end.
Proof. reflexivity. Qed.

Lemma later_step c t rest (h : nat → nat) s :
  h 0%nat ≠ 0%nat → well_numbered s →
  forEach (imap (λ i t, (t, h i)) (t :: rest)) (λ p, panel_for c p.1 p.2) s
  = match panel_html (config s) t with
    | Ok html =>
        forEach (imap (λ i t, (t, (h ∘ S) i)) rest) (λ p, panel_for c p.1 p.2)
          (set_next_node (S (next_node s))
             (set_document
                (map (graft (node c) (Elem (new_panel (next_node s) t html) []))
                   (document s)) s))
    | Throw e =>
        (Throw e, set_next_node (S (next_node s))
                    (set_detached (new_panel (next_node s) t EmptyString :: detached s) s))
    end.
Proof.
  intros Hh Hwn. rewrite imap_cons, forEach_cons_run. cbn [fst snd].
  unfold panel_for at 1. rewrite bool_decide_eq_false_2 by done.
  rewrite (panel_part_run t c s Hwn). by destruct (panel_html _ _).
Qed.

Lemma later_panels (c : Element) (rest : list Obj) :
  ∀ (h : nat → nat) (s : State),
  (∀ i, h i ≠ 0%nat) →
  well_numbered s → node c ∈ nodes (document s) →
  (∀ t, t ∈ rest → is_ok (panel_html (config s) t) = true) →
  let m := forEach (imap (λ i t, (t, h i)) rest) (λ p, panel_for c p.1 p.2) in
  outcome m s = Ok () ∧ config (exec m s) = config s ∧ events (exec m s) = events s ∧
  (∀ y, y ∈ all_elements (document s) → y ∈ all_elements (document (exec m s))) ∧
  (∀ t, t ∈ rest → ∃ n html, panel_html (config s) t = Ok html ∧
     new_panel n t html ∈ by_class "tab-content" (document (exec m s))) ∧
  (∀ y, y ∈ all_elements (document (exec m s)) →
     y ∈ all_elements (document s) ∨
     ∃ t n html, t ∈ rest ∧ panel_html (config s) t = Ok html ∧ y = new_panel n t html).
Proof.
  induction rest as [|t rest IH]; intros h s Hh Hwn Hc Hok.
  - cbv zeta. split_and!; try done.
    + intros t Ht. by apply elem_of_nil in Ht.
    + intros y Hy. by left.
  - cbv zeta. unfold outcome, exec. rewrite (later_step c t rest h s (Hh 0%nat) Hwn).
    pose proof (Hok t ltac:(left)) as Ht.
    destruct (panel_html (config s) t) as [html|e] eqn:E; [|discriminate Ht].
    set (s1 := set_next_node _ _).
    assert (document s1
            = map (graft (node c) (Elem (new_panel (next_node s) t html) [])) (document s))
      as Hd1 by reflexivity.
    assert (well_numbered s1) as Hwn1 by (by apply (well_numbered_attach s c)).
    assert (node c ∈ nodes (document s1)) as Hc1.
    { unfold nodes in *. apply list_elem_of_fmap in Hc as (x & Hx & Hin).
      apply list_elem_of_fmap. exists x. split; [done|]. rewrite Hd1.
      by apply all_elements_graft_old. }
    destruct (IH (h ∘ S) s1 ltac:(intros i; apply Hh) Hwn1 Hc1
                ltac:(intros t' Ht'; apply Hok; by right))
      as (I1 & I2 & I3 & I4 & I5 & I6).
    split_and!.
    + exact I1.
    + exact I2.
    + exact I3.
    + intros y Hy. apply I4. rewrite Hd1. by apply all_elements_graft_old.
    + intros t' [->|Ht']%elem_of_cons.
      * exists (next_node s), html. split; [done|].
        unfold by_class. apply list_elem_of_filter. split; [done|]. apply I4. rewrite Hd1.
        by apply (all_elements_graft_new (node c) (Elem (new_panel (next_node s) t html) [])).
      * destruct (I5 t' Ht') as (n & html' & H1 & H2). by exists n, html'.
    + intros y Hy. apply I6 in Hy as [Hy|(t' & n & html' & H1 & H2 & H3)].
      * rewrite Hd1 in Hy. apply all_elements_graft_inv in Hy as [Hy| ->]; [by left|].
        right. exists t, (next_node s), html. split; [by left|done].
      * right. exists t', n, html'. split; [by right|done].
Qed.

Lemma later_panels_abort (c : Element) (rest : list Obj) :
  ∀ (h : nat → nat) (s : State),
  (∀ i, h i ≠ 0%nat) → well_numbered s →
  (∃ t, t ∈ rest ∧ is_ok (panel_html (config s) t) = false) →
  outcome (forEach (imap (λ i t, (t, h i)) rest) (λ p, panel_for c p.1 p.2)) s
  = Throw (TypeError "code").
Proof.
  induction rest as [|t rest IH]; intros h s Hh Hwn (t' & Ht' & Hbad).
  - by apply elem_of_nil in Ht'.
  - unfold outcome. rewrite (later_step c t rest h s (Hh 0%nat) Hwn).
    destruct (panel_html (config s) t) as [html|e] eqn:E.
    + apply elem_of_cons in Ht' as [->|Ht']; [by rewrite E in Hbad|].
      apply (IH (h ∘ S)); [intros i; apply Hh|by apply (well_numbered_attach s c)|].
      by exists t'.
    + by apply panel_html_throw in E as ->.
Qed.

End GenerateLoop.

Section GenerateWhole.

Lemma well_numbered_on_element e f s :
  (∀ x, node (f x) = node x) → well_numbered s → well_numbered (exec (on_element e f) s).
Proof.
  intros Hf [Hdoc Hdet]. split.
  - intros m. unfold nodes. rewrite document_on_element, all_elements_update, map_map.
    intros (x & -> & Hx)%list_elem_of_fmap. rewrite at_node_node by done.
    apply Hdoc. apply list_elem_of_fmap. by exists x.
  - intros x. unfold exec, on_element, modify. simpl.
    intros (y & -> & Hy)%list_elem_of_fmap. rewrite at_node_node by done. by apply Hdet.
Qed.

Lemma generateTabContent_run s c t0 rest :
  head (by_class "tab-content-container" (document s)) = Some c →
  filter (λ e, has_class "tab-content" e = true ∧ el_id e ≠ "tab-panel-1")
         (descendants (node c) (document s)) = [] →
  tabs (config s) = t0 :: rest →
  generateTabContent s =
    match by_id "tab-panel-1" (document s) with
    | Some p =>
        match panel_html (config s) t0 with
        | Ok html =>
            forEach (imap (λ i t, (t, S i)) rest) (λ p, panel_for c p.1 p.2)
              (exec (on_element p (set_content html)) s)
        | Throw e => (Throw e, s)
        end
    | None => forEach (imap (λ i t, (t, S i)) rest) (λ p, panel_for c p.1 p.2) s
    end.
Proof.
  intros Hc Hnone Htabs. unfold generateTabContent.
  rewrite bind_querySelector, Hc. rewrite run_gets, Hnone.
  change (forEach [] remove) with (mret () : M unit).
  unfold mbind at 1, M_bind at 1. cbn [mret M_ret]. rewrite run_gets, Htabs.
  unfold forEach_indexed. rewrite imap_cons, forEach_cons_run. cbn [fst snd].
  rewrite bool_decide_eq_true_2 by done. unfold getElementById. rewrite run_gets.
  destruct (by_id "tab-panel-1" (document s)) as [p|]; [|reflexivity].
  cbn [from_option]. rewrite populateTabContent_unfold.
  by destruct (panel_html (config s) t0).
Qed.

End GenerateWhole.

(** X25. Generating the panels on the page as it is delivered, where the
    container holds no panel besides [#tab-panel-1]. When every descriptor
    renders, [generateTabContent] writes the markup of the first descriptor
    into [#tab-panel-1], whatever the id of that descriptor, and appends
    one new panel for every later descriptor; it builds no panel for the
    first one. It publishes nothing and leaves the configuration alone. *)
Theorem generateTabContent_builds_panels (s : State) (c p : Element) (t0 : Obj)
    (rest : list Obj) :
  head (by_class "tab-content-container" (document s)) = Some c →
  filter (λ e, has_class "tab-content" e = true ∧ el_id e ≠ "tab-panel-1")
         (descendants (node c) (document s)) = [] →
  tabs (config s) = t0 :: rest →
  by_id "tab-panel-1" (document s) = Some p →
  well_numbered s →
  (∀ t, t ∈ t0 :: rest → is_ok (panel_html (config s) t) = true) →
  let s' := exec generateTabContent s in
  outcome generateTabContent s = Ok () ∧
  config s' = config s ∧ events s' = events s ∧
  ∃ html0, panel_html (config s) t0 = Ok html0 ∧
    set_content html0 p ∈ all_elements (document s') ∧
    (∀ t, t ∈ rest → ∃ n html, panel_html (config s) t = Ok html ∧
       new_panel n t html ∈ by_class "tab-content" (document s')) ∧
    (∀ y, y ∈ all_elements (document s') →
       (∃ x, x ∈ all_elements (document s) ∧ y = at_node (node p) (set_content html0) x) ∨
       (∃ t n html, t ∈ rest ∧ panel_html (config s) t = Ok html ∧
          y = new_panel n t html)).
Proof.
  intros Hc Hnone Htabs Hp Hwn Hok s'.
  pose proof (generateTabContent_run s c t0 rest Hc Hnone Htabs) as Hrun.
  rewrite Hp in Hrun.
  pose proof (Hok t0 ltac:(left)) as H0.
  destruct (panel_html (config s) t0) as [html0|e] eqn:E0; [|discriminate H0].
  set (s1 := exec (on_element p (set_content html0)) s) in *.
  assert (well_numbered s1) as Hwn1 by (by apply well_numbered_on_element).
  assert (node c ∈ nodes (document s1)) as Hc1.
  { unfold s1. rewrite nodes_on_element by done.
    by apply (by_class_head_node "tab-content-container"). }
  destruct (later_panels c rest S s1 ltac:(done) Hwn1 Hc1
              ltac:(intros t Ht; apply Hok; by right))
    as (I1 & I2 & I3 & I4 & I5 & I6).
  unfold s', outcome, exec. rewrite Hrun.
  split_and!; [exact I1|exact I2|exact I3|].
  exists html0. split_and!; [done| |exact I5|].
  - apply I4. unfold s1. rewrite document_on_element, all_elements_update.
    apply list_elem_of_fmap. exists p. split.
    + unfold at_node. by rewrite bool_decide_eq_true_2.
    + by apply by_id_elem in Hp as [Hp _].
  - intros y Hy. apply I6 in Hy as [Hy|Hy]; [left|by right].
    unfold s1 in Hy. rewrite document_on_element, all_elements_update in Hy.
    apply list_elem_of_fmap in Hy as (x & -> & Hx). by exists x.
Qed.

Lemma generateTabContent_builds_panels_witness :
  let s0 := set_document
              [Elem (Sample.el 20 EmptyString ["tab-navigation"])
                 [Sample.tab_button 21 1 true];
               Elem (Sample.el 30 EmptyString ["tab-content-container"])
                 [Sample.tab_panel 31 1 true]] Sample.state in
  well_numbered s0 ∧
  outcome generateTabContent s0 = Ok () ∧
  length (by_class "tab-content" (document (exec generateTabContent s0))) = 6%nat.
Proof.
  set (s0 := set_document
              [Elem (Sample.el 20 EmptyString ["tab-navigation"])
                 [Sample.tab_button 21 1 true];
               Elem (Sample.el 30 EmptyString ["tab-content-container"])
                 [Sample.tab_panel 31 1 true]] Sample.state).
  assert (well_numbered s0) as Hwn.
  { split.
    - apply (proj1 (Forall_forall (λ m, (m < next_node s0)%nat) _)).
      apply (bool_decide_unpack _). vm_compute. exact I.
    - intros e He. by apply elem_of_nil in He. }
  assert (∀ t, t ∈ tabs Defaults.config → is_ok (panel_html (config s0) t) = true) as Hok.
  { apply (proj1 (Forall_forall (λ t, is_ok (panel_html (config s0) t) = true) _)).
    repeat constructor; by rewrite panel_html_ok. }
  destruct (generateTabContent_builds_panels s0
              (Sample.el 30 EmptyString ["tab-content-container"])
              (root (Sample.tab_panel 31 1 true))
              (Defaults.tab 1 "Lorem Ipsum" "gb" "United Kingdom" "Residential")
              (tail (tabs Defaults.config))
              ltac:(vm_compute; reflexivity) ltac:(vm_compute; reflexivity) eq_refl
              ltac:(vm_compute; reflexivity) Hwn Hok) as (H1 & _).
  split; [exact Hwn|]. split; [exact H1|]. vm_compute. reflexivity.
Defined.

(** X26. [generateTabContent] has no [catch] of its own. Without the
    container it throws and changes nothing. With it, on the page as it is
    delivered, it throws the [TypeError] of the renderer as soon as one
    descriptor does not render, and the exception leaves the method, unlike
    in the four tab operations. *)
Theorem generateTabContent_throws (s : State) :
  (head (by_class "tab-content-container" (document s)) = None →
     generateTabContent s = (Throw (Error "Tab content container not found"), s)) ∧
  (∀ c p t0 rest,
     head (by_class "tab-content-container" (document s)) = Some c →
     filter (λ e, has_class "tab-content" e = true ∧ el_id e ≠ "tab-panel-1")
            (descendants (node c) (document s)) = [] →
     tabs (config s) = t0 :: rest →
     by_id "tab-panel-1" (document s) = Some p →
     well_numbered s →
     (∃ t, t ∈ t0 :: rest ∧ is_ok (panel_html (config s) t) = false) →
     outcome generateTabContent s = Throw (TypeError "code")).
Proof.
  split.
  - intros Hnone. unfold generateTabContent. by rewrite bind_querySelector, Hnone.
  - intros c p t0 rest Hc Hnone Htabs Hp Hwn (t & Ht & Hbad).
    unfold outcome. rewrite (generateTabContent_run s c t0 rest Hc Hnone Htabs), Hp.
    destruct (panel_html (config s) t0) as [html0|e] eqn:E0.
    + apply elem_of_cons in Ht as [->|Ht]; [by rewrite E0 in Hbad|].
      apply (later_panels_abort c rest S); [done|by apply well_numbered_on_element|].
      by exists t.
    + by apply panel_html_throw in E0 as ->.
Qed.

Lemma generateTabContent_throws_witness :
  let s0 := set_document [Elem (Sample.el 20 EmptyString ["tab-navigation"]) []]
              Sample.state in
  head (by_class "tab-content-container" (document s0)) = None ∧
  outcome generateTabContent s0 = Throw (Error "Tab content container not found").
Proof.
  split; [reflexivity|].
  destruct (generateTabContent_throws
              (set_document [Elem (Sample.el 20 EmptyString ["tab-navigation"]) []]
                 Sample.state)) as [H _].
  unfold outcome. rewrite (H eq_refl). reflexivity.
Defined.

(** ** Sequences of operations on one tab *)

Section Sequels.

Lemma list_find_app_new (z : Z) (tabConfig : Obj) (l : list Obj) :
  field tabConfig "id" = VNum z → find_tab (VNum z) l = None →
  findIndex (VNum z) (l ++ [tabConfig]) = Some (length l).
Proof.
  intros Hid Hnone. unfold findIndex, find_tab in *.
  destruct (list_find (has_tab_id (VNum z)) l) as [[j y]|] eqn:El; [done|].
  rewrite list_find_app_r by done. simpl.
  rewrite decide_True; [simpl; f_equal; lia|].
  unfold has_tab_id. rewrite Hid. simpl. by apply bool_decide_eq_true_2.
Qed.

Lemma delete_app_last {A} (l : list A) (x : A) : delete (length l) (l ++ [x]) = l.
Proof. induction l as [|a l IH]; [done|]. simpl. by rewrite IH. Qed.

Lemma find_tab_insert_rekeyed (z z' : Z) (l : list Obj) i old merged :
  list_find (has_tab_id (VNum z)) l = Some (i, old) →
  (∀ j t, j ≠ i → l !! j = Some t → field t "id" ≠ VNum z) →
  field merged "id" = VNum z' → z' ≠ z →
  find_tab (VNum z) (<[i := merged]> l) = None.
Proof.
  intros Hfind Hothers Hid Hne. unfold find_tab.
  destruct (list_find _ (<[i:=merged]> l)) as [[j y]|] eqn:E; [|done].
  exfalso. apply list_find_Some in E as (Hj & Hy & _).
  unfold has_tab_id in Hy.
  destruct (decide (j = i)) as [->|Hji].
  - apply list_find_Some in Hfind as (Hi & _).
    rewrite list_lookup_insert_eq in Hj by (by eapply lookup_lt_Some).
    injection Hj as <-. rewrite Hid in Hy. simpl in Hy.
    apply bool_decide_eq_true in Hy. congruence.
  - rewrite list_lookup_insert_ne in Hj by done.
    pose proof (Hothers j y Hji Hj) as Hn.
    destruct (field y "id") as [| | |w| |]; simpl in Hy; try done.
    apply bool_decide_eq_true in Hy. congruence.
Qed.

End Sequels.

(** X27. Adding a tab and removing it again restores the configuration.
    For a descriptor with a numeric id that passes the checks of [addTab],
    in a configuration that is not empty, [removeTab] of that id right
    after [addTab] deletes exactly the descriptor that was appended, so the
    list of descriptors is what it was before, whether or not the panel of
    the new tab could be rendered in between. *)
Theorem add_then_remove_restores_tabs (tabConfig : Obj) (z : Z) (s : State) :
  field tabConfig "id" = VNum z →
  negb (truthy (field tabConfig "id")) || negb (truthy (field tabConfig "title")) = false →
  find_tab (VNum z) (tabs (config s)) = None →
  tabs (config s) ≠ [] →
  config (exec (removeTab (VNum z)) (exec (addTab tabConfig) s)) = config s.
Proof.
  intros Hid Hinc Hnew Hne.
  assert (config (exec (addTab tabConfig) s)
          = set_tabs (tabs (config s) ++ [tabConfig]) (config s)) as Hadd
    by (apply addTab_accepted; [done|by rewrite Hid]).
  rewrite (removeTab_accepted _ _ (length (tabs (config s)))).
  - rewrite Hadd. simpl. rewrite delete_app_last. by destruct (config s).
  - rewrite Hadd. simpl. rewrite length_app. simpl.
    destruct (tabs (config s)); [done|simpl; lia].
  - rewrite Hadd. simpl. by apply list_find_app_new.
Qed.

Lemma add_then_remove_restores_tabs_witness :
  field bare_tab "id" = VNum 7 ∧
  find_tab (VNum 7) (tabs (config Sample.state)) = None ∧
  tabs (config Sample.state) ≠ [] ∧
  config (exec (removeTab (VNum 7)) (exec (addTab bare_tab) Sample.state))
    = config Sample.state.
Proof.
  split; [reflexivity|]. split; [reflexivity|]. split; [done|].
  apply (add_then_remove_restores_tabs bare_tab 7 Sample.state); done.
Defined.

(** X28. The merge of [updateTabContent] does not protect the id. An
    update whose partial descriptor names another id re-keys the stored
    descriptor, while the button and the panel keep the element ids of the
    old one. After that the tab can be updated under neither id: under the
    old id the panel is found but no descriptor, under the new id no panel
    is found. *)
Theorem update_can_rekey_a_tab (s : State) (z z' : Z) (newConfig later : Obj)
    (panel : Element) (i : nat) (old : Obj) :
  by_id (panel_id (VNum z)) (document s) = Some panel →
  by_id (panel_id (VNum z')) (document s) = None →
  list_find (has_tab_id (VNum z)) (tabs (config s)) = Some (i, old) →
  (∀ j t, j ≠ i → tabs (config s) !! j = Some t → field t "id" ≠ VNum z) →
  newConfig !! "id" = Some (VNum z') → z' ≠ z →
  let s1 := exec (updateTabContent (VNum z) newConfig) s in
  (λ tab, field tab "id") <$> tabs (config s1) !! i = Some (VNum z') ∧
  exec (updateTabContent (VNum z) later) s1
    = logged (error_event ("Tab configuration not found for ID: " +:+ num_to_string z)
                "tab-update") s1 ∧
  exec (updateTabContent (VNum z') later) s1
    = logged (error_event ("Tab panel not found for ID: " +:+ num_to_string z')
                "tab-update") s1.
Proof.
  intros Hp Hp' Hfind Hothers Hid Hne s1.
  pose proof (updateTabContent_run s (VNum z) newConfig panel i old Hp Hfind) as Hrun.
  cbv zeta in Hrun. fold s1 in Hrun.
  assert (field (newConfig ∪ old) "id" = VNum z') as Hmid by (by apply field_union_l).
  assert (tabs (config s1) = <[i := newConfig ∪ old]> (tabs (config s))) as Htabs.
  { rewrite Hrun. by destruct (panel_html _ _). }
  assert (∀ k, by_id k (document s1) = None ↔ by_id k (document s) = None) as Hdoc.
  { intros k. rewrite Hrun. destruct (panel_html _ _) as [html|e]; [|done].
    rewrite document_dispatch, document_on_element.
    rewrite by_id_update by done. set (d0 := document _).
    change d0 with (document s). by destruct (by_id k (document s)). }
  split_and!.
  - rewrite Htabs. apply list_find_Some in Hfind as (Hi & _).
    rewrite list_lookup_insert_eq by (by eapply lookup_lt_Some). simpl. by rewrite Hmid.
  - destruct (by_id (panel_id (VNum z)) (document s1)) as [p1|] eqn:E1.
    2:{ apply Hdoc in E1. congruence. }
    unfold exec at 1. rewrite (updateTabContent_no_descriptor _ _ _ p1); [done..|].
    rewrite Htabs. by apply (find_tab_insert_rekeyed z z' _ i old).
  - unfold exec at 1. rewrite updateTabContent_no_panel; [done|]. by apply Hdoc.
Qed.

Lemma update_can_rekey_a_tab_witness :
  let s1 := exec (updateTabContent (VNum 2) {[ "id" := VNum 9 ]}) Sample.state in
  by_id (panel_id (VNum 9)) (document Sample.state) = None ∧
  map (λ tab, field tab "id") (tabs (config s1))
    = [VNum 1; VNum 9; VNum 3; VNum 4; VNum 5; VNum 6] ∧
  events (exec (updateTabContent (VNum 2) ∅) s1)
    = events s1 ++ [error_event "Tab configuration not found for ID: 2" "tab-update"].
Proof.
  assert (by_id (panel_id (VNum 2)) (document Sample.state)
          = Some (root (Sample.tab_panel 32 2 false))) as Hp by (vm_compute; reflexivity).
  assert (by_id (panel_id (VNum 9)) (document Sample.state) = None) as Hp'
    by (vm_compute; reflexivity).
  assert (∀ j t, j ≠ 1%nat → tabs (config Sample.state) !! j = Some t →
                 field t "id" ≠ VNum 2) as Hothers.
  { intros j t Hj Ht.
    do 6 (destruct j as [|j];
            [simplify_eq/=; first [done | vm_compute; discriminate]|]).
    done. }
  assert (({[ "id" := VNum 9 ]} : Obj) !! "id" = Some (VNum 9)) as Hid
    by (vm_compute; reflexivity).
  destruct (update_can_rekey_a_tab Sample.state 2 9 ({[ "id" := VNum 9 ]} : Obj) ∅
              _ 1 (Defaults.tab 2 "Tab 2 Content" "us" "United States" "Commercial")
              Hp Hp' eq_refl Hothers Hid ltac:(done))
    as (_ & H & _).
  split; [exact Hp'|]. split; [vm_compute; reflexivity|].
  cbv zeta in H. by rewrite H.
Defined.

(** ** Activations in sequence *)

Section ActivationSequence.

Lemma activated_from_start tabId s b p :
  by_id (button_id tabId) (document s) = Some b →
  by_id (panel_id tabId) (document s) = Some p →
  all_elements (document (exec (activateTab tabId) s))
  = map (λ x, mark_active (node b) (node p)
                (sweep (by_class "tab-content" (document s))
                   (remove_class "tab-content--active")
                   (sweep (by_class "tab-navigation__button" (document s))
                      clear_button x)))
      (all_elements (document s)).
Proof.
  intros Hb Hp. by rewrite (activated_elements _ _ b p), cleared_elements, map_map.
Qed.

Lemma cleared_keeps_button_class s x :
  has_class "tab-navigation__button"
    (sweep (by_class "tab-content" (document s)) (remove_class "tab-content--active")
       (sweep (by_class "tab-navigation__button" (document s)) clear_button x))
  = has_class "tab-navigation__button" x.
Proof.
  rewrite sweep_has_class by (intros y; by apply has_class_remove_other).
  by rewrite sweep_has_class by (intros y; by apply has_class_clear_other).
Qed.

Lemma activation_preserves s w b p :
  tab_row_ok (document s) →
  by_id (button_id (VNum w)) (document s) = Some b →
  has_class "tab-navigation__button" b = true →
  by_id (panel_id (VNum w)) (document s) = Some p →
  tab_row_ok (document (exec (activateTab (VNum w)) s)) ∧
  ∀ v, tab_on_page v (document s) →
       tab_on_page v (document (exec (activateTab (VNum w)) s)).
Proof.
  intros [Hnd Hwf] Hb Hbtn Hp.
  pose proof (activated_from_start _ _ _ _ Hb Hp) as Hel.
  set (H := λ x, mark_active (node b) (node p) _) in Hel.
  assert (∀ x, node (H x) = node x) as Hnode.
  { intros x. unfold H. rewrite node_mark_active. apply cleared_node_el_id. }
  assert (∀ x, el_id (H x) = el_id x) as Hid.
  { intros x. unfold H. rewrite el_id_mark_active. apply cleared_node_el_id. }
  assert (∀ x, has_class "tab-navigation__button" (H x)
               = has_class "tab-navigation__button" x) as Hcls.
  { intros x. unfold H. rewrite has_class_mark_active, cleared_keeps_button_class.
    rewrite !(bool_decide_eq_false_2 ("tab-navigation__button" = _)) by done.
    by rewrite !andb_false_r, !orb_false_r. }
  split; [split|].
  - unfold nodes. rewrite Hel, map_map.
    rewrite (map_ext (λ x, node (H x)) node) by done. exact Hnd.
  - intros e He Hact. rewrite Hel in He. apply list_elem_of_fmap in He as (x & -> & Hx).
    rewrite Hcls. unfold H in Hact. rewrite has_class_mark_active in Hact.
    rewrite (bool_decide_eq_false_2 (_ = "tab-content--active")) in Hact by done.
    rewrite andb_false_r, orb_false_r in Hact.
    assert (has_class "tab-navigation__button--active"
              (sweep (by_class "tab-content" (document s))
                 (remove_class "tab-content--active")
                 (sweep (by_class "tab-navigation__button" (document s)) clear_button x))
            = false) as Hclr.
    { apply (cleared_no_active s); [done|]. rewrite cleared_elements.
      apply list_elem_of_fmap. by exists x. }
    rewrite Hclr in Hact. simpl in Hact.
    apply andb_true_iff in Hact as [Hact _]. apply bool_decide_eq_true in Hact.
    rewrite (proj1 (cleared_node_el_id s x)) in Hact.
    assert (x = b) as ->; [|done].
    apply (node_inj (all_elements (document s))); [done..| |done].
    by apply by_id_elem in Hb as [Hb _].
  - intros v (bv & pv & Hbv & Hcv & Hpv). exists (H bv), (H pv).
    rewrite (by_id_elementwise (button_id (VNum v)) (document s) _ H) by done.
    rewrite (by_id_elementwise (panel_id (VNum v)) (document s) _ H) by done.
    rewrite Hbv, Hpv, Hcls. done.
Qed.

Lemma activateTab_ok tabId s : outcome (activateTab tabId) s = Ok ().
Proof. apply handled. Qed.

Lemma exec_activations v l s :
  exec (forEach (v :: l) (λ w, activateTab (VNum w))) s
  = exec (forEach l (λ w, activateTab (VNum w))) (exec (activateTab (VNum v)) s).
Proof. unfold exec. by rewrite forEach_cons_ok by apply activateTab_ok. Qed.

End ActivationSequence.

(** X17. The last activation wins. On a page whose tab row is in order,
    after any sequence of activations of tabs that are on the page (ids
    that are non-negative integers), [getActiveTabId] answers the id of the
    tab activated last, and the tab row is still in order. In particular
    activation and the query for the active tab agree. *)
Theorem last_activation_wins (s : State) (zs : list Z) (z : Z) :
  tab_row_ok (document s) →
  (∀ w, w ∈ zs ++ [z] → 0 ≤ w ∧ safe_integer w ∧ tab_on_page w (document s)) →
  let s' := exec (forEach (zs ++ [z]) (λ w, activateTab (VNum w))) s in
  outcome getActiveTabId s' = Ok (VNum z) ∧ tab_row_ok (document s').
Proof.
  revert s. induction zs as [|v zs IH]; intros s Hok Hall; cbv zeta.
  - destruct (Hall z ltac:(left)) as (Hz & _ & b & p & Hb & Hbtn & Hp).
    change ([] ++ [z]) with [z]. rewrite exec_activations.
    change (exec (forEach [] ?f) ?st) with st.
    split.
    + destruct Hok as [Hnd Hwf]. by apply (active_after_activation s z b p).
    + by apply (activation_preserves s z b p).
  - destruct (Hall v ltac:(left)) as (Hv & _ & b & p & Hb & Hbtn & Hp).
    destruct (activation_preserves s v b p Hok Hb Hbtn Hp) as [Hok1 Hon1].
    change ((v :: zs) ++ [z]) with (v :: (zs ++ [z])). rewrite exec_activations.
    apply (IH (exec (activateTab (VNum v)) s) Hok1).
    intros w Hw. destruct (Hall w ltac:(by right)) as (H1 & H2 & H3).
    split_and!; [done..|]. by apply Hon1.
Qed.

Lemma sample_tab_row_ok : tab_row_ok (document Sample.state).
Proof. split; [exact sample_page_NoDup|exact sample_only_buttons_active]. Qed.

Lemma sample_tabs_on_page w :
  w ∈ [3; 5; 2] → 0 ≤ w ∧ safe_integer w ∧ tab_on_page w (document Sample.state).
Proof.
  intros Hw.
  repeat (apply elem_of_cons in Hw as [->|Hw];
    [split; [lia|]; split; [by split|];
     eexists _, _; split_and!; [vm_compute; reflexivity..]|]).
  by apply elem_of_nil in Hw.
Qed.

Lemma last_activation_wins_witness :
  tab_row_ok (document Sample.state) ∧
  outcome getActiveTabId
    (exec (forEach [3; 5; 2] (λ w, activateTab (VNum w))) Sample.state) = Ok (VNum 2).
Proof.
  split; [exact sample_tab_row_ok|].
  destruct (last_activation_wins Sample.state [3; 5] 2 sample_tab_row_ok
              sample_tabs_on_page) as [H _].
  exact H.
Defined.
